(** * GitHub profile analyzer: cache, remote client, identity resolver and
      metrics engine, embedded from
      [app/services/github_service.py], [app/services/analyzer.py] and
      [app/routers/analyze.py].

    Conventions of the embedding.
    - Python [int] is [Z]; Python [str] is [string] (ASCII).
    - Python [float] values are modelled by exact rationals [Q]; [round(x, n)]
      is rounding to [n] decimals, ties to even, on the exact value.
    - An instant ([datetime]) is a number of microseconds since the epoch;
      a parsed timestamp of a record carries the fields the code reads.
    - A Python [dict] whose iteration order the code depends on is an
      association list in insertion order; a [dict] that is only looked up
      is a [gmap].
    - Stateful code threads a [world] (the module-level cache, the rate-limit
      fields of the service, the clock and the log of requests sent) through
      a small state-and-exception monad. *)

From Stdlib Require Import ZArith QArith Qround Qminmax Qabs Lia Lqa Permutation Ascii String.
From stdpp Require Import gmap strings list pretty.

Local Open Scope Z_scope.

(** ** Python string primitives *)

Module PyStr.

(** [str.isspace] on one ASCII character. *)
Definition is_space (a : ascii) : bool :=
  let n := Z.of_nat (nat_of_ascii a) in
  ((9 <=? n) && (n <=? 13)) || ((28 <=? n) && (n <=? 32)).

Fixpoint lstrip (s : string) : string :=
  match s with
  | String a t => if is_space a then lstrip t else s
  | EmptyString => EmptyString
  end.

(** [rstrip] keeps a character when it is not a space or when something
    is kept after it. *)
Fixpoint rstrip (s : string) : string :=
  match s with
  | String a t =>
      match rstrip t with
      | EmptyString => if is_space a then EmptyString else String a EmptyString
      | t' => String a t'
      end
  | EmptyString => EmptyString
  end.

Definition strip (s : string) : string := rstrip (lstrip s).

(** [needle in hay]. *)
Fixpoint contains (needle hay : string) : bool :=
  String.prefix needle hay ||
  match hay with
  | String _ t => contains needle t
  | EmptyString => false
  end.

Definition lower_ascii (a : ascii) : ascii :=
  let n := nat_of_ascii a in
  if ((65 <=? n) && (n <=? 90))%nat then ascii_of_nat (n + 32) else a.

Fixpoint lower (s : string) : string :=
  match s with
  | String a t => String (lower_ascii a) (lower t)
  | EmptyString => EmptyString
  end.

(** [sep.join(l)]. *)
Definition join (sep : string) (l : list string) : string := String.concat sep l.

(** [str(n)] and the [{n}] of an f-string, for an [int]. *)
Definition of_int (n : Z) : string := pretty n.

(** Truth value of a string. *)
Definition truthy (s : string) : bool :=
  match s with EmptyString => false | _ => true end.

End PyStr.

(** ** Rounding *)

(** Nearest integer, ties to even. *)
Definition round_half_even (x : Q) : Z :=
  let f := Qfloor x in
  match (x - inject_Z f ?= 1 # 2)%Q with
  | Lt => f
  | Gt => f + 1
  | Eq => if Z.even f then f else f + 1
  end.

(** [round(x, ndigits)] for [ndigits >= 0]. *)
Definition py_round (x : Q) (ndigits : Z) : Q :=
  Qred (inject_Z (round_half_even (x * inject_Z (10 ^ ndigits))) / inject_Z (10 ^ ndigits)).

(** ** Exceptions *)

Inductive exn : Type :=
| Exception (msg : string)        (* [raise Exception(msg)] *)
| ValueError (msg : string)
| TypeError (msg : string)
| IndexError (msg : string)
| HTTPStatusError (msg : string)  (* httpx: [response.raise_for_status()] *)
| TransportError (msg : string).  (* httpx: raised by [client.request] itself *)

(** [str(e)]. *)
Definition str (e : exn) : string :=
  match e with
  | Exception m | ValueError m | TypeError m | IndexError m
  | HTTPStatusError m | TransportError m => m
  end.

(** [isinstance(e, ValueError)]. *)
Definition is_ValueError (e : exn) : bool :=
  match e with ValueError _ => true | _ => false end.

(** ** TTL cache ([SimpleCache]) *)

Module SimpleCache.
Section Cache.
Context {V : Type}.

(** [_cache] maps a key to [(value, expires_at)]. *)
Record t : Type := Build {
  _cache : gmap string (V * Z);
  default_ttl : Z  (* seconds *)
}.

Definition init (default_ttl : Z) : t := Build ∅ default_ttl.

(** [timedelta(seconds=ttl)] in microseconds. *)
Definition timedelta (seconds : Z) : Z := seconds * 1000000.

(** [ttl or self.default_ttl]: [None] and [0] are both falsy. *)
Definition ttl_or_default (c : t) (ttl : option Z) : Z :=
  match ttl with
  | Some n => if n =? 0 then default_ttl c else n
  | None => default_ttl c
  end.

(** [get(key)] at clock reading [now]: the value on a hit, [None] on a
    miss; an expired entry is deleted. *)
Definition get (c : t) (now : Z) (key : string) : option V * t :=
  match _cache c !! key with
  | Some (value, expires_at) =>
      if now <? expires_at then (Some value, c)
      else (None, Build (delete key (_cache c)) (default_ttl c))
  | None => (None, c)
  end.

(** [set(key, value, ttl)] at clock reading [now]. *)
Definition set (c : t) (now : Z) (key : string) (value : V) (ttl : option Z) : t :=
  let ttl := ttl_or_default c ttl in
  let expires_at := now + timedelta ttl in
  Build (<[key := (value, expires_at)]> (_cache c)) (default_ttl c).

Definition clear (c : t) : t := Build ∅ (default_ttl c).

(** [stats()] at clock reading [now]: [(total_entries, valid_entries)]. *)
Definition stats (c : t) (now : Z) : nat * nat :=
  (size (_cache c),
   length (filter (λ kv, now < snd (snd kv)) (map_to_list (_cache c)))).

End Cache.
Arguments t V : clear implicits.
End SimpleCache.

(** ** Data model *)

(** A parsed ISO timestamp ([datetime.fromisoformat(...)]): the calendar
    fields the code reads and the instant in microseconds since the epoch. *)
Record datetime : Type := {
  year : Z;
  hour : Z;
  weekday : string;     (* [strftime("%A")] *)
  timestamp : Z
}.

(** The account object of the remote API. *)
Module User.
Record t : Type := Build {
  login : string;
  name : option string;
  avatar_url : string;
  bio : option string;
  location : option string;
  company : option string;
  blog : option string;
  twitter_username : option string;
  email : option string;
  hireable : option bool;
  created_at : datetime;
  html_url : string;
  followers : Z;
  following : Z;
  public_repos : Z;
  public_gists : Z
}.
End User.

(** A repository object of the remote API. *)
Module Repo.
Record t : Type := Build {
  name : string;
  description : option string;
  stargazers_count : Z;
  forks_count : Z;
  language : option string;
  html_url : string;
  created_at : datetime
}.
End Repo.

(** An activity event of the remote API. *)
Module Event.
Record t : Type := Build {
  type : string;
  created_at : datetime
}.
End Event.

(** A per-repository language map: language name to byte count, in the
    order of the response. *)
Abbreviation LanguageByteMap := (list (string * Z)).

(** The dictionary built by [get_contribution_stats]. *)
Module ContributionStats.
Record t : Type := Build {
  total_push_events : Z;
  total_pr_events : Z;
  total_issue_events : Z;
  commit_hours : list Z;
  commit_days : list string;
  events : list Event.t
}.
End ContributionStats.

Module LanguageStat.
Record t : Type := Build {
  name : string;
  percentage : Q;
  bytes : Z;
  color : string
}.
End LanguageStat.

Module RepoHighlight.
Record t : Type := Build {
  name : string;
  description : option string;
  stars : Z;
  forks : Z;
  language : option string;
  url : string
}.
End RepoHighlight.

Module ActivityPattern.
Record t : Type := Build {
  most_active_day : string;
  most_active_hour : Z;
  total_commits_last_year : Z;
  longest_streak : Z;
  current_streak : Z;
  consistency_score : Q
}.
End ActivityPattern.

Module CollaborationMetrics.
Record t : Type := Build {
  public_repos : Z;
  public_gists : Z;
  followers : Z;
  following : Z;
  follower_ratio : Q;
  organizations : list string
}.
End CollaborationMetrics.

Module GrowthTimeline.
Record t : Type := Build {
  year : Z;
  repos_created : Z;
  languages_used : list string;
  stars_earned : Z
}.
End GrowthTimeline.

Module ProfileAnalysis.
Record t : Type := Build {
  username : string;
  name : option string;
  avatar_url : string;
  bio : option string;
  location : option string;
  company : option string;
  blog : option string;
  twitter : option string;
  email : option string;
  hireable : option bool;
  created_at : datetime;
  account_age_years : Q;
  profile_url : string;
  languages : list LanguageStat.t;
  primary_language : option string;
  tech_diversity_score : Q;
  top_repos : list RepoHighlight.t;
  total_stars : Z;
  total_forks : Z;
  activity : ActivityPattern.t;
  collaboration : CollaborationMetrics.t;
  growth_timeline : list GrowthTimeline.t;
  overall_score : Q;
  experience_level : string;
  focus_areas : list string;
  recruiter_summary : string
}.
End ProfileAnalysis.

(** ** Python containers *)

Module Py.
Section Containers.
Context {A : Type}.

(** [sum(l)] over integers. *)
Definition sum (l : list Z) : Z := fold_left Z.add l 0.

(** [len(l)]. *)
Definition len {B} (l : list B) : Z := Z.of_nat (length l).

(** [sorted]: a stable sort; [before y x] says that [y] sorts strictly
    before [x].  Elements that compare equal keep their order. *)
Fixpoint insert_sorted (before : A → A → bool) (x : A) (l : list A) : list A :=
  match l with
  | [] => [x]
  | y :: l' => if before y x then y :: insert_sorted before x l' else x :: l
  end.

Definition sorted (before : A → A → bool) (l : list A) : list A :=
  foldr (insert_sorted before) [] l.

(** [sorted(l, key=key, reverse=True)]. *)
Definition sorted_desc (key : A → Z) (l : list A) : list A :=
  sorted (λ y x, key x <? key y) l.

(** [sorted(l, key=key)]. *)
Definition sorted_asc (key : A → Z) (l : list A) : list A :=
  sorted (λ y x, key y <? key x) l.

(** An insertion-ordered dictionary with keys compared by [eqb]:
    [d[k] = f(d.get(k, dflt))], a new key going last. *)
Fixpoint dict_update {B} (eqb : A → A → bool) (k : A) (dflt : B) (f : B → B)
    (d : list (A * B)) : list (A * B) :=
  match d with
  | [] => [(k, f dflt)]
  | (k', v) :: d' =>
      if eqb k' k then (k', f v) :: d'
      else (k', v) :: dict_update eqb k dflt f d'
  end.

(** [Counter(l)]: occurrences of each element, in first-seen order. *)
Definition Counter (eqb : A → A → bool) (l : list A) : list (A * Z) :=
  fold_left (λ d x, dict_update eqb x 0 (Z.add 1) d) l [].

(** [max(items, key=count)]: the first item of greatest count. *)
Fixpoint first_max (best : A * Z) (l : list (A * Z)) : A * Z :=
  match l with
  | [] => best
  | x :: l' => if snd best <? snd x then first_max x l' else first_max best l'
  end.

(** [c.most_common(1)]. *)
Definition most_common_1 (c : list (A * Z)) : list (A * Z) :=
  match c with
  | [] => []
  | x :: c' => [first_max x c']
  end.

End Containers.
End Py.

(** ** Metrics engine ([ProfileAnalyzer]) *)

Module ProfileAnalyzer.

Definition LANGUAGE_COLORS : list (string * string) :=
  [ ("Python", "#3572A5"); ("JavaScript", "#f1e05a"); ("TypeScript", "#2b7489");
    ("Java", "#b07219"); ("C++", "#f34b7d"); ("C", "#555555"); ("C#", "#178600");
    ("Go", "#00ADD8"); ("Rust", "#dea584"); ("Ruby", "#701516"); ("PHP", "#4F5D95");
    ("Swift", "#ffac45"); ("Kotlin", "#F18E33"); ("Dart", "#00B4AB");
    ("Scala", "#c22d40"); ("R", "#198CE7"); ("Shell", "#89e051");
    ("HTML", "#e34c26"); ("CSS", "#563d7c"); ("Vue", "#41b883");
    ("Svelte", "#ff3e00"); ("Jupyter Notebook", "#DA5B0B") ]%string.

Definition FOCUS_PATTERNS : list (string * list string) :=
  [ ("Web Development",
      ["JavaScript"; "TypeScript"; "HTML"; "CSS"; "Vue"; "React"; "Angular"; "Svelte"; "PHP"]);
    ("Data Science", ["Python"; "R"; "Jupyter Notebook"]);
    ("Mobile Development", ["Swift"; "Kotlin"; "Dart"; "Java"]);
    ("Systems Programming", ["C"; "C++"; "Rust"; "Go"]);
    ("DevOps", ["Shell"; "Python"; "Go"; "Dockerfile"]);
    ("Backend Development", ["Java"; "Python"; "Go"; "Ruby"; "PHP"; "C#"]);
    ("Game Development", ["C++"; "C#"; "GDScript"]) ]%string.

(** [d.get(k)] on a string-keyed table. *)
Definition dict_get {B} (k : string) (d : list (string * B)) : option B :=
  snd <$> List.find (λ kv, String.eqb (fst kv) k) d.

(** [x in l] for strings. *)
Definition str_in (x : string) (l : list string) : bool := existsb (String.eqb x) l.

(** Truth value of an optional string ([None] and the empty string are falsy). *)
Definition opt_truthy (o : option string) : bool :=
  match o with Some s => PyStr.truthy s | None => false end.

(** [sum(r.get("stargazers_count", 0) for r in repos)]. *)
Definition sum_stars (repos : list Repo.t) : Z := Py.sum (map Repo.stargazers_count repos).

Definition sum_forks (repos : list Repo.t) : Z := Py.sum (map Repo.forks_count repos).

(** [(now - created).days], then [round(age_days / 365.25, 1)]. *)
Definition _calculate_account_age (now : Z) (created_at : datetime) : Q :=
  let age_days := (now - timestamp created_at) / 86400000000 in
  py_round (inject_Z age_days / 365.25) 1.

(** The [total_bytes] accumulator of [_aggregate_languages] after the loop
    over [repos]. *)
Definition total_bytes (repos : list Repo.t) (repo_languages : gmap string LanguageByteMap)
    : list (string * Z) :=
  fold_left
    (λ tb repo,
       match repo_languages !! Repo.name repo with
       | Some langs =>
           fold_left
             (λ tb lb, Py.dict_update String.eqb (fst lb) 0 (λ v, v + snd lb) tb)
             langs tb
       | None => tb
       end)
    repos [].

(** [sum(total_bytes.values()) or 1]. *)
Definition total_or_1 (tb : list (string * Z)) : Z :=
  let s := Py.sum (map snd tb) in if s =? 0 then 1 else s.

Definition language_stat (total : Z) (lb : string * Z) : LanguageStat.t :=
  let (lang, bytes_count) := lb in
  LanguageStat.Build lang
    (py_round ((inject_Z bytes_count / inject_Z total) * 100) 1)
    bytes_count
    (default "#858585"%string (dict_get lang LANGUAGE_COLORS)).

Definition _aggregate_languages (repos : list Repo.t)
    (repo_languages : gmap string LanguageByteMap) : list LanguageStat.t :=
  let tb := total_bytes repos repo_languages in
  let total := total_or_1 tb in
  let languages := map (language_stat total) (Py.sorted_desc snd tb) in
  take 10 languages.

Definition _get_top_repos (repos : list Repo.t) (limit : nat) : list RepoHighlight.t :=
  let sorted_repos := Py.sorted_desc Repo.stargazers_count repos in
  map (λ repo,
         RepoHighlight.Build (Repo.name repo) (Repo.description repo)
           (Repo.stargazers_count repo) (Repo.forks_count repo)
           (Repo.language repo) (Repo.html_url repo))
      (take limit sorted_repos).

Definition _analyze_activity (contribution_stats : ContributionStats.t)
    (repos : list Repo.t) : ActivityPattern.t :=
  let commit_hours := ContributionStats.commit_hours contribution_stats in
  let commit_days := ContributionStats.commit_days contribution_stats in
  let hour_counts := Py.Counter Z.eqb commit_hours in
  let most_active_hour :=
    match Py.most_common_1 hour_counts with
    | (h, _) :: _ => h
    | [] => 12
    end in
  let day_counts := Py.Counter String.eqb commit_days in
  let most_active_day :=
    match Py.most_common_1 day_counts with
    | (d, _) :: _ => d
    | [] => "Monday"%string
    end in
  let total_commits := ContributionStats.total_push_events contribution_stats in
  let consistency := Qmin 100 ((inject_Z total_commits / 30) * 100) in
  ActivityPattern.Build most_active_day most_active_hour
    (total_commits * 4) 0 0 (py_round consistency 1).

Definition _calculate_collaboration (user : User.t) (orgs : list string)
    : CollaborationMetrics.t :=
  let followers := User.followers user in
  let following := User.following user in
  let follower_ratio :=
    py_round (inject_Z followers / inject_Z (Z.max following 1)) 2 in
  CollaborationMetrics.Build (User.public_repos user) (User.public_gists user)
    followers following follower_ratio orgs.

(** One entry of [yearly_data]; [languages] is a Python [set], kept here as
    its distinct elements in order of insertion. *)
Record year_data : Type := {
  yd_repos : Z;
  yd_languages : list string;
  yd_stars : Z
}.

(** [s.add(x)]. *)
Definition set_add (x : string) (s : list string) : list string :=
  if str_in x s then s else s ++ [x].

(** The three updates of [yearly_data[year]] for one repository. *)
Definition year_step (repo : Repo.t) (d : year_data) : year_data :=
  {| yd_repos := yd_repos d + 1;
     yd_languages :=
       match Repo.language repo with
       | Some l => if PyStr.truthy l then set_add l (yd_languages d) else yd_languages d
       | None => yd_languages d
       end;
     yd_stars := yd_stars d + Repo.stargazers_count repo |}.

Definition yearly_data (repos : list Repo.t) : list (Z * year_data) :=
  fold_left
    (λ yd repo,
       Py.dict_update Z.eqb (year (Repo.created_at repo))
         {| yd_repos := 0; yd_languages := []; yd_stars := 0 |} (year_step repo) yd)
    repos [].

Section SetOrder.

(** [list(s)] for a set of strings [s]: the order in which the interpreter
    iterates over the set.  It depends on the hashes of the strings, which
    the interpreter salts per process, and is taken here as given. *)
Variable list_of_set : list string → list string.

Definition _build_growth_timeline (repos : list Repo.t) : list GrowthTimeline.t :=
  map (λ yd : Z * year_data,
         GrowthTimeline.Build (fst yd) (yd_repos (snd yd))
           (list_of_set (yd_languages (snd yd))) (yd_stars (snd yd)))
      (Py.sorted_asc fst (yearly_data repos)).

End SetOrder.

Definition _detect_focus_areas (languages : list LanguageStat.t) : list string :=
  let lang_names := map LanguageStat.name (take 5 languages) in
  let focus_areas :=
    map fst
      (List.filter (λ p : string * list string, existsb (λ n, str_in n (snd p)) lang_names)
         FOCUS_PATTERNS) in
  take 3 focus_areas.

(** The five sub-scores of [_calculate_overall_score]. *)
Definition repo_score (repos : list Repo.t) : Q :=
  Qmin 25 (inject_Z (Py.len repos) * 1.5).

Definition star_score (repos : list Repo.t) : Q :=
  Qmin 25 (inject_Z (sum_stars repos) * 0.5).

Definition diversity_score (languages : list LanguageStat.t) : Q :=
  Qmin 15 (inject_Z (Py.len languages * 2)).

Definition activity_score (activity : ActivityPattern.t) : Q :=
  Qmin 20 (ActivityPattern.consistency_score activity * 0.2).

Definition engagement_score (collaboration : CollaborationMetrics.t) : Q :=
  Qmin 15 (inject_Z (CollaborationMetrics.followers collaboration) / 10
           + inject_Z (Py.len (CollaborationMetrics.organizations collaboration) * 2)).

Definition _calculate_overall_score (user : User.t) (repos : list Repo.t)
    (languages : list LanguageStat.t) (activity : ActivityPattern.t)
    (collaboration : CollaborationMetrics.t) : Q :=
  let scores :=
    [ repo_score repos; star_score repos; diversity_score languages;
      activity_score activity; engagement_score collaboration ] in
  py_round (fold_left Qplus scores 0%Q) 1.

Definition _determine_experience_level (account_age : Q) (repos : list Repo.t)
    (score : Q) : string :=
  if Qle_bool 70 score || (Qle_bool 5 account_age && (30 <=? Py.len repos)) then "Expert"
  else if Qle_bool 50 score || (Qle_bool 3 account_age && (15 <=? Py.len repos)) then "Senior"
  else if Qle_bool 30 score || (Qle_bool 1 account_age && (5 <=? Py.len repos)) then "Mid-Level"
  else "Junior".

Definition _generate_summary (user : User.t) (languages : list LanguageStat.t)
    (repos : list Repo.t) (activity : ActivityPattern.t)
    (collaboration : CollaborationMetrics.t) (experience_level : string)
    (focus_areas : list string) (account_age : Q) : string :=
  let name := if opt_truthy (User.name user) then default EmptyString (User.name user)
              else User.login user in
  let total_stars := sum_stars repos in
  let parts :=
    [ name +:+ " is a " +:+ PyStr.lower experience_level +:+ "-level developer" ]
    ++ (if Qle_bool 1 account_age
        then [ "with " +:+ PyStr.of_int (round_half_even account_age) +:+ "+ years on GitHub" ]
        else [])
    ++ (match focus_areas with
        | [] => []
        | _ => [ ", focusing on " +:+ PyStr.join ", " (take 2 focus_areas) ]
        end)
    ++ [ ". " ]
    ++ (match languages with
        | [] => []
        | _ => [ "Primary expertise in "
                 +:+ PyStr.join ", " (map LanguageStat.name (take 3 languages)) +:+ ". " ]
        end)
    ++ (if 0 <? total_stars
        then [ "Has earned " +:+ PyStr.of_int total_stars +:+ " stars across "
               +:+ PyStr.of_int (Py.len repos) +:+ " public repositories. " ]
        else [])
    ++ (if 10 <=? CollaborationMetrics.followers collaboration
        then [ "Active community member with "
               +:+ PyStr.of_int (CollaborationMetrics.followers collaboration)
               +:+ " followers" ]
             ++ (match CollaborationMetrics.organizations collaboration with
                 | [] => []
                 | orgs => [ " and contributions to " +:+ PyStr.of_int (Py.len orgs)
                             +:+ " organizations" ]
                 end)
             ++ [ ". " ]
        else [])
    ++ [ "Most active on " +:+ ActivityPattern.most_active_day activity +:+ "s" ]
    ++ [ if ActivityPattern.most_active_hour activity <? 12 then " (morning coder)"
         else if ActivityPattern.most_active_hour activity <? 18 then " (afternoon coder)"
         else " (evening coder)" ]
    ++ [ "." ] in
  PyStr.join EmptyString parts.

Section Analyze.

Variable list_of_set : list string → list string.

(** [analyze], run at the instant [now]. *)
Definition analyze (now : Z) (user : User.t) (repos : list Repo.t)
    (repo_languages : gmap string LanguageByteMap)
    (contribution_stats : ContributionStats.t) (orgs : list string) : ProfileAnalysis.t :=
  let account_age := _calculate_account_age now (User.created_at user) in
  let languages := _aggregate_languages repos repo_languages in
  let top_repos := _get_top_repos repos 5 in
  let activity := _analyze_activity contribution_stats repos in
  let collaboration := _calculate_collaboration user orgs in
  let growth_timeline := _build_growth_timeline list_of_set repos in
  let focus_areas := _detect_focus_areas languages in
  let total_stars := sum_stars repos in
  let total_forks := sum_forks repos in
  let overall_score :=
    _calculate_overall_score user repos languages activity collaboration in
  let experience_level := _determine_experience_level account_age repos overall_score in
  let tech_diversity := Z.min 100 (Py.len languages * 12) in
  let summary :=
    _generate_summary user languages repos activity collaboration
      experience_level focus_areas account_age in
  ProfileAnalysis.Build
    (User.login user) (User.name user) (User.avatar_url user) (User.bio user)
    (User.location user) (User.company user) (User.blog user)
    (User.twitter_username user) (User.email user) (User.hireable user)
    (User.created_at user) account_age (User.html_url user)
    languages
    (match languages with l :: _ => Some (LanguageStat.name l) | [] => None end)
    (inject_Z tech_diversity)
    top_repos total_stars total_forks activity collaboration growth_timeline
    overall_score experience_level focus_areas summary.

End Analyze.

End ProfileAnalyzer.

(** ** A matcher for the regular expressions the code uses *)

Module Re.

(** Patterns: a literal, [r?], [r1 r2], and the capturing group [(c+)] over
    a character class [c]. *)
Inductive regex : Type :=
| Lit (s : string)
| Opt (r : regex)
| Seq (r1 r2 : regex)
| GroupPlus (cls : ascii → bool).

(** [drop_prefix p s]: the rest of [s] after the prefix [p], if [s] starts
    with [p]. *)
Fixpoint drop_prefix (p s : string) : option string :=
  match p, s with
  | EmptyString, _ => Some s
  | String a p', String b s' => if Ascii.eqb a b then drop_prefix p' s' else None
  | String _ _, EmptyString => None
  end.

(** [c+], greedy: the longest run is tried first, then shorter ones.
    [taken] is the text consumed so far. *)
Fixpoint plus {R} (cls : ascii → bool) (taken s : string)
    (k : string → string → option R) : option R :=
  match s with
  | String a t =>
      if cls a then
        match plus cls (taken +:+ String a EmptyString) t k with
        | Some x => Some x
        | None => k (taken +:+ String a EmptyString) t
        end
      else None
  | EmptyString => None
  end.

(** Backtracking match of [r] at the start of [s]; [cap] is group 1 and [k]
    the rest of the match. *)
Fixpoint run {R} (r : regex) (s : string) (cap : option string)
    (k : string → option string → option R) : option R :=
  match r with
  | Lit p =>
      match drop_prefix p s with
      | Some rest => k rest cap
      | None => None
      end
  | Opt r' =>
      match run r' s cap k with
      | Some x => Some x
      | None => k s cap
      end
  | Seq r1 r2 => run r1 s cap (λ s' cap', run r2 s' cap' k)
  | GroupPlus cls => plus cls EmptyString s (λ taken rest, k rest (Some taken))
  end.

(** [re.match(r, s)], returning [match.group(1)]; [None] when there is no
    match. *)
Definition match_group1 (r : regex) (s : string) : option string :=
  run r s None (λ _ cap, Some (default EmptyString cap)).

End Re.

(** ** Remote client ([GitHubService]) *)

Module GitHubService.

(** Values held by the cache and returned by the operations. *)
Inductive pyval : Type :=
| VStr (s : string)
| VUser (u : User.t)
| VRepos (l : list Repo.t)
| VLangs (d : LanguageByteMap)
| VEvents (l : list Event.t)
| VOrgs (l : list string).

(** Truth value: empty strings, lists and dictionaries are falsy. *)
Definition truthy (v : pyval) : bool :=
  match v with
  | VStr s => PyStr.truthy s
  | VUser _ => true
  | VRepos l => negb (bool_decide (l = []))
  | VLangs d => negb (bool_decide (d = []))
  | VEvents l => negb (bool_decide (l = []))
  | VOrgs l => negb (bool_decide (l = []))
  end.

(** The requests the client sends. *)
Inductive request : Type :=
| GetSearchUsers (q : string)
| GetUser (username : string)
| GetUserRepos (username : string) (per_page page : Z)
| GetRepoLanguages (username repo_name : string)
| GetUserEvents (username : string) (per_page page : Z)
| GetUserOrgs (username : string).

Definition BASE_URL : string := "https://api.github.com".

(** The URL of a request, with its query parameters. *)
Definition url (req : request) : string :=
  match req with
  | GetSearchUsers q => BASE_URL +:+ "/search/users?q=" +:+ q
  | GetUser u => BASE_URL +:+ "/users/" +:+ u
  | GetUserRepos u per_page page =>
      BASE_URL +:+ "/users/" +:+ u +:+ "/repos?per_page=" +:+ PyStr.of_int per_page
      +:+ "&page=" +:+ PyStr.of_int page +:+ "&sort=updated&type=owner"
  | GetRepoLanguages u r => BASE_URL +:+ "/repos/" +:+ u +:+ "/" +:+ r +:+ "/languages"
  | GetUserEvents u per_page page =>
      BASE_URL +:+ "/users/" +:+ u +:+ "/events/public?per_page=" +:+ PyStr.of_int per_page
      +:+ "&page=" +:+ PyStr.of_int page
  | GetUserOrgs u => BASE_URL +:+ "/users/" +:+ u +:+ "/orgs"
  end.

(** A response, with its body already decoded ([json]) for the endpoint. *)
Record response (A : Type) : Type := {
  status_code : Z;
  reason_phrase : string;
  text : string;
  x_ratelimit_remaining : option Z;
  x_ratelimit_reset : option Z;   (* epoch seconds *)
  json : A
}.
Arguments status_code {A}.
Arguments reason_phrase {A}.
Arguments text {A}.
Arguments x_ratelimit_remaining {A}.
Arguments x_ratelimit_reset {A}.
Arguments json {A}.

(** What [client.request] does: it returns a response or raises. *)
Inductive outcome (A : Type) : Type :=
| Responds (r : response A)
| Fails (e : exn).
Arguments Responds {A}.
Arguments Fails {A}.

(** Body of the user search: [total_count] (when present) and the login of
    each item. *)
Record search_body : Type := {
  total_count : option Z;
  items : list string
}.

(** Everything outside the program: the clock, the remote API (the answer
    to the [n]-th request sent) and the interpreter's set iteration order. *)
Record environment : Type := {
  clock : nat → Z;
  search_users : nat → string → outcome search_body;
  users : nat → string → outcome User.t;
  users_repos : nat → string → Z → Z → outcome (list Repo.t);
  repos_languages : nat → string → string → outcome LanguageByteMap;
  users_events : nat → string → Z → Z → outcome (list Event.t);
  users_orgs : nat → string → outcome (list string);
  list_of_set : list string → list string
}.

(** The mutable state: the global [cache], the rate-limit fields of the
    service, the number of clock readings taken and the requests sent. *)
Record world : Type := {
  cache : SimpleCache.t pyval;
  _rate_limit_remaining : option Z;
  _rate_limit_reset : option Z;
  ticks : nat;
  sent : list request
}.

(** A fresh process: [cache = SimpleCache(default_ttl=3600)]. *)
Definition initial_world : world :=
  {| cache := SimpleCache.init 3600; _rate_limit_remaining := None;
     _rate_limit_reset := None; ticks := 0; sent := [] |}.

Definition with_cache (c : SimpleCache.t pyval) (w : world) : world :=
  {| cache := c; _rate_limit_remaining := _rate_limit_remaining w;
     _rate_limit_reset := _rate_limit_reset w; ticks := ticks w; sent := sent w |}.

Definition with_rate_limit (remaining reset : option Z) (w : world) : world :=
  {| cache := cache w; _rate_limit_remaining := remaining;
     _rate_limit_reset := reset; ticks := ticks w; sent := sent w |}.

Definition with_tick (w : world) : world :=
  {| cache := cache w; _rate_limit_remaining := _rate_limit_remaining w;
     _rate_limit_reset := _rate_limit_reset w; ticks := S (ticks w); sent := sent w |}.

Definition with_sent (req : request) (w : world) : world :=
  {| cache := cache w; _rate_limit_remaining := _rate_limit_remaining w;
     _rate_limit_reset := _rate_limit_reset w; ticks := ticks w;
     sent := sent w ++ [req] |}.

(** How a call ends: it returns, raises, or (for a loop run with too little
    fuel) is cut short. *)
Inductive result (A : Type) : Type :=
| Return (a : A)
| Raise (e : exn)
| OutOfFuel.
Arguments Return {A}.
Arguments Raise {A}.
Arguments OutOfFuel {A}.

(** State and exceptions. *)
Definition M (A : Type) : Type := world → result A * world.

#[global] Instance M_ret : MRet M := λ A a w, (Return a, w).

#[global] Instance M_bind : MBind M := λ A B f m w,
  match m w with
  | (Return a, w') => f a w'
  | (Raise e, w') => (Raise e, w')
  | (OutOfFuel, w') => (OutOfFuel, w')
  end.

Definition raise {A} (e : exn) : M A := λ w, (Raise e, w).

Definition out_of_fuel {A} : M A := λ w, (OutOfFuel, w).

Definition modify (f : world → world) : M unit := λ w, (Return tt, f w).

Definition read {A} (f : world → A) : M A := λ w, (Return (f w), w).

Definition lift {A} (r : result A) : M A := λ w, (r, w).

Section Service.

(** [cache._make_key] applied to its arguments: the MD5 digest of the JSON list of the
    arguments, taken as given. *)
Variable _make_key : list string → string.

Variable env : environment.

(** [datetime.now(timezone.utc)]. *)
Definition now : M Z := λ w, (Return (clock env (ticks w)), with_tick w).

(** [cache.get(key)]; the clock is read only when the key is present. *)
Definition cache_get (key : string) : M (option pyval) := λ w,
  match SimpleCache._cache (cache w) !! key with
  | Some _ =>
      let t := clock env (ticks w) in
      let (v, c) := SimpleCache.get (cache w) t key in
      (Return v, with_cache c (with_tick w))
  | None => (Return None, w)
  end.

(** [cache.set(key, value, ttl)]. *)
Definition cache_set (key : string) (value : pyval) (ttl : option Z) : M unit :=
  t ← now;
  modify (λ w, with_cache (SimpleCache.set (cache w) t key value ttl) w).

(** [_extract_username]. *)
Definition handle_char (a : ascii) : bool :=
  let n := nat_of_ascii a in
  (((97 <=? n) && (n <=? 122)) || ((65 <=? n) && (n <=? 90))
   || ((48 <=? n) && (n <=? 57)) || (n =? 45))%nat.

(** [(?:https?://)?(?:www\.)?github\.com/([a-zA-Z0-9-]+)] *)
Definition url_pattern : Re.regex :=
  Re.Seq (Re.Opt (Re.Seq (Re.Lit "http") (Re.Seq (Re.Opt (Re.Lit "s")) (Re.Lit "://"))))
    (Re.Seq (Re.Opt (Re.Lit "www."))
       (Re.Seq (Re.Lit "github.com/") (Re.GroupPlus handle_char))).

Definition _extract_username (query : string) : string :=
  let query := PyStr.strip query in
  match Re.match_group1 url_pattern query with
  | Some group1 => group1
  | None =>
      if PyStr.contains "@" query then query
      else query
  end.

(** [_update_rate_limit]: a missing header counts as 0, and a reset of 0 as
    unknown. *)
Definition _update_rate_limit {A} (r : response A) (w : world) : world :=
  let remaining := default 0 (x_ratelimit_remaining r) in
  let reset_timestamp := default 0 (x_ratelimit_reset r) in
  with_rate_limit (Some remaining)
    (if reset_timestamp =? 0 then None else Some reset_timestamp) w.

Definition rate_limit_message (wait_seconds : Z) : string :=
  "Rate limit exceeded. Resets in " +:+ PyStr.of_int wait_seconds
  +:+ " seconds. Add GITHUB_TOKEN to .env file for 5000 requests/hour.".

Definition rate_limit_message_unknown : string :=
  "Rate limit exceeded. Add GITHUB_TOKEN to .env file for 5000 requests/hour.".

(** [response.status_code == 403 and "rate limit" in response.text.lower()]. *)
Definition rate_limit_rejection {A} (response : response A) : bool :=
  (status_code response =? 403)
  && PyStr.contains "rate limit" (PyStr.lower (text response)).

(** [_request]: send [req]; [answer n] is what the remote does when this is
    the [n]-th request sent.  [int(wait_seconds)] truncates toward zero. *)
Definition _request {A} (req : request) (answer : nat → outcome A) : M (response A) :=
  n ← read (λ w, length (sent w));
  _ ← modify (with_sent req);
  match answer n with
  | Fails e => raise e
  | Responds response =>
      _ ← modify (_update_rate_limit response);
      if rate_limit_rejection response then
        reset_time ← read _rate_limit_reset;
        match reset_time with
        | Some reset =>
            t ← now;
            let wait_microseconds := reset * 1000000 - t in
            raise (Exception (rate_limit_message (Z.quot wait_microseconds 1000000)))
        | None => raise (Exception rate_limit_message_unknown)
        end
      else mret response
  end.

(** httpx's [raise_for_status]: any status outside 2xx raises, with a
    message naming the status and the URL. *)
Definition status_error_message {A} (req : request) (r : response A) : string :=
  let status_class := status_code r / 100 in
  let error_type :=
    if status_class =? 1 then "Informational response"
    else if status_class =? 3 then "Redirect response"
    else if status_class =? 4 then "Client error"
    else if status_class =? 5 then "Server error"
    else "Invalid status code" in
  error_type +:+ " '" +:+ PyStr.of_int (status_code r) +:+ " " +:+ reason_phrase r
  +:+ "' for url '" +:+ url req
  +:+ "' For more information check: https://developer.mozilla.org/en-US/docs/Web/HTTP/Status/"
  +:+ PyStr.of_int (status_code r).

Definition raise_for_status {A} (req : request) (r : response A) : M unit :=
  if (200 <=? status_code r) && (status_code r <? 300) then mret tt
  else raise (HTTPStatusError (status_error_message req r)).

(** [search_user_by_email]: [None] is Python's [None]. *)
Definition search_user_by_email (email : string) : M (option pyval) :=
  let cache_key := _make_key ["search_email"; email] in
  cached ← cache_get cache_key;
  match cached with
  | Some v => mret (Some v)
  | None =>
      let req := GetSearchUsers (email +:+ " in:email") in
      response ← _request req (λ n, search_users env n email);
      let data := json response in
      if (status_code response =? 200) && (0 <? default 0 (total_count data)) then
        match items data with
        | result :: _ =>
            _ ← cache_set cache_key (VStr result) None;
            mret (Some (VStr result))
        | [] => raise (IndexError "list index out of range")
        end
      else
        _ ← cache_set cache_key (VStr EmptyString) None;
        mret None
  end.

(** [if cached:] for what [cache.get] returned. *)
Definition hit_truthy (cached : option pyval) : bool :=
  match cached with Some v => truthy v | None => false end.

Definition fetch_user (cache_key username : string) : M pyval :=
  let req := GetUser username in
  response ← _request req (λ n, users env n username);
  _ ← raise_for_status req response;
  let data := json response in
  _ ← cache_set cache_key (VUser data) None;
  mret (VUser data).

Definition get_user (username : string) : M pyval :=
  let cache_key := _make_key ["user"; PyStr.lower username] in
  cached ← cache_get cache_key;
  match cached with
  | Some v => if truthy v then mret v else fetch_user cache_key username
  | None => fetch_user cache_key username
  end.

(** The [while True] loop of [get_repos]; each iteration uses one unit of
    [fuel]. *)
Fixpoint get_repos_loop (fuel : nat) (username : string) (per_page page : Z)
    (repos : list Repo.t) : M (list Repo.t) :=
  match fuel with
  | O => out_of_fuel
  | S fuel' =>
      let req := GetUserRepos username per_page page in
      response ← _request req (λ n, users_repos env n username per_page page);
      _ ← raise_for_status req response;
      let data := json response in
      match data with
      | [] => mret repos
      | _ :: _ =>
          let repos := repos ++ data in
          let page := page + 1 in
          if 5 <? page then mret repos
          else get_repos_loop fuel' username per_page page repos
      end
  end.

Definition fetch_repos (fuel : nat) (cache_key username : string) (per_page : Z) : M pyval :=
  repos ← get_repos_loop fuel username per_page 1 [];
  _ ← cache_set cache_key (VRepos repos) None;
  mret (VRepos repos).

Definition get_repos (fuel : nat) (username : string) (per_page : Z) : M pyval :=
  let cache_key := _make_key ["repos"; PyStr.lower username] in
  cached ← cache_get cache_key;
  match cached with
  | Some v => if truthy v then mret v else fetch_repos fuel cache_key username per_page
  | None => fetch_repos fuel cache_key username per_page
  end.

Definition get_repo_languages (username repo_name : string) : M pyval :=
  let cache_key := _make_key ["languages"; PyStr.lower username; PyStr.lower repo_name] in
  cached ← cache_get cache_key;
  match cached with
  | Some v => mret v
  | None =>
      let req := GetRepoLanguages username repo_name in
      response ← _request req (λ n, repos_languages env n username repo_name);
      if status_code response =? 200 then
        let data := json response in
        _ ← cache_set cache_key (VLangs data) None;
        mret (VLangs data)
      else
        _ ← cache_set cache_key (VLangs []) None;
        mret (VLangs [])
  end.

(** [asyncio.gather] over the tasks with [return_exceptions=True]: the results in the
    order of the tasks, an exception raised by a task taking the place of
    its result.  The tasks are run here one after the other. *)
Fixpoint gather {A} (tasks : list (M A)) : M (list (A + exn)) :=
  match tasks with
  | [] => mret []
  | task :: tasks' => λ w,
      match task w with
      | (Return a, w') => (results ← gather tasks'; mret (inl a :: results)) w'
      | (Raise e, w') => (results ← gather tasks'; mret (inr e :: results)) w'
      | (OutOfFuel, w') => (OutOfFuel, w')
      end
  end.

(** [type(e).__name__]. *)
Definition class_name (e : exn) : string :=
  match e with
  | Exception _ => "Exception"
  | ValueError _ => "ValueError"
  | TypeError _ => "TypeError"
  | IndexError _ => "IndexError"
  | HTTPStatusError _ => "HTTPStatusError"
  | TransportError _ => "TransportError"
  end.

(** The dictionary comprehension of [get_multiple_repo_languages],
    [{name: langs for name, langs in results if ...}].  Each item is
    unpacked into [name, langs] before the filter is evaluated; unpacking an
    exception object raises [TypeError].  For a fetched pair the filter
    ([langs] is no exception and [name] is a string) holds. *)
Fixpoint comprehension (results : list (string * pyval + exn))
    (acc : gmap string pyval) : result (gmap string pyval) :=
  match results with
  | [] => Return acc
  | inl (name, langs) :: results' => comprehension results' (<[name := langs]> acc)
  | inr e :: _ =>
      Raise (TypeError ("cannot unpack non-iterable " +:+ class_name e +:+ " object"))
  end.

Definition fetch_one (username repo_name : string) : M (string * pyval) :=
  langs ← get_repo_languages username repo_name;
  mret (repo_name, langs).

Definition get_multiple_repo_languages (username : string) (repo_names : list string)
    : M (gmap string pyval) :=
  let tasks := map (fetch_one username) repo_names in
  results ← gather tasks;
  lift (comprehension results ∅).

(** The [while page <= 3] loop of [get_events]; each iteration uses one
    unit of [fuel]. *)
Fixpoint get_events_loop (fuel : nat) (username : string) (per_page page : Z)
    (events : list Event.t) : M (list Event.t) :=
  if page <=? 3 then
    match fuel with
    | O => out_of_fuel
    | S fuel' =>
        let req := GetUserEvents username per_page page in
        response ← _request req (λ n, users_events env n username per_page page);
        if negb (status_code response =? 200) then mret events
        else
          match json response with
          | [] => mret events
          | data => get_events_loop fuel' username per_page (page + 1) (events ++ data)
          end
    end
  else mret events.

Definition fetch_events (fuel : nat) (cache_key username : string) (per_page : Z) : M pyval :=
  events ← get_events_loop fuel username per_page 1 [];
  _ ← cache_set cache_key (VEvents events) (Some 1800);
  mret (VEvents events).

Definition get_events (fuel : nat) (username : string) (per_page : Z) : M pyval :=
  let cache_key := _make_key ["events"; PyStr.lower username] in
  cached ← cache_get cache_key;
  match cached with
  | Some v => if truthy v then mret v else fetch_events fuel cache_key username per_page
  | None => fetch_events fuel cache_key username per_page
  end.

Definition get_orgs (username : string) : M pyval :=
  let cache_key := _make_key ["orgs"; PyStr.lower username] in
  cached ← cache_get cache_key;
  match cached with
  | Some v => mret v
  | None =>
      let req := GetUserOrgs username in
      response ← _request req (λ n, users_orgs env n username);
      if status_code response =? 200 then
        let result := json response in
        _ ← cache_set cache_key (VOrgs result) None;
        mret (VOrgs result)
      else
        _ ← cache_set cache_key (VOrgs []) None;
        mret (VOrgs [])
  end.

(** A cached value is used at the type its operation stores; a value of
    another shape (which needs two operations to share a cache key) makes
    the Python code fail at its first use, rendered here as a [TypeError]. *)
Definition expect_str (v : pyval) : M string :=
  match v with VStr s => mret s | _ => raise (TypeError "expected str") end.

Definition expect_user (v : pyval) : M User.t :=
  match v with VUser u => mret u | _ => raise (TypeError "expected user object") end.

Definition expect_repos (v : pyval) : M (list Repo.t) :=
  match v with VRepos l => mret l | _ => raise (TypeError "expected repository list") end.

Definition expect_events (v : pyval) : M (list Event.t) :=
  match v with VEvents l => mret l | _ => raise (TypeError "expected event list") end.

Definition expect_orgs (v : pyval) : M (list string) :=
  match v with VOrgs l => mret l | _ => raise (TypeError "expected organization list") end.

Definition expect_langs (v : pyval) : M LanguageByteMap :=
  match v with VLangs d => mret d | _ => raise (TypeError "expected language map") end.

(** The dictionary [get_contribution_stats] builds from the events. *)
Definition contribution_stats_of (events : list Event.t) : ContributionStats.t :=
  let of_type ty := List.filter (λ e, String.eqb (Event.type e) ty) events in
  let push_events := of_type "PushEvent"%string in
  let pr_events := of_type "PullRequestEvent"%string in
  let issue_events := of_type "IssuesEvent"%string in
  ContributionStats.Build (Py.len push_events) (Py.len pr_events) (Py.len issue_events)
    (map (λ e, hour (Event.created_at e)) push_events)
    (map (λ e, weekday (Event.created_at e)) push_events)
    events.

Definition get_contribution_stats (fuel : nat) (username : string)
    : M ContributionStats.t :=
  v ← get_events fuel username 100;
  events ← expect_events v;
  mret (contribution_stats_of events).

Definition not_found_message (email : string) : string :=
  "No GitHub user found with email: " +:+ email.

(** [resolve_username]: [found] is returned as the cache or the search
    gave it. *)
Definition resolve_username (query : string) : M pyval :=
  let extracted := _extract_username query in
  if PyStr.contains "@" extracted then
    found ← search_user_by_email extracted;
    if hit_truthy found then mret (default (VStr EmptyString) found)
    else raise (ValueError (not_found_message extracted))
  else mret (VStr extracted).

End Service.

End GitHubService.

(** ** The endpoint ([routers/analyze.py]) *)

Module Router.
Import GitHubService.

(** What the endpoint gives back: the analysis, or the [HTTPException] it
    raises. *)
Inductive reply : Type :=
| Analysis (a : ProfileAnalysis.t)
| HTTPException (status_code : Z) (detail : string).

Definition langs_of (v : pyval) : option LanguageByteMap :=
  match v with VLangs d => Some d | _ => None end.

Definition expect_language_maps (m : gmap string pyval) : M (gmap string LanguageByteMap) :=
  if decide (map_Forall (λ _ v, is_Some (langs_of v)) m)
  then mret (omap langs_of m)
  else raise (TypeError "expected language map").

(** [try: body except Exception as e: handler(e)]. *)
Definition try_except {A} (body : M A) (handler : exn → M A) : M A := λ w,
  match body w with
  | (Raise e, w') => handler e w'
  | r => r
  end.

(** The two [except] clauses of [analyze_profile]. *)
Definition on_error (query : string) (e : exn) : reply :=
  if is_ValueError e then HTTPException 404 (str e)
  else if PyStr.contains "404" (str e)
       then HTTPException 404 ("GitHub user not found: " +:+ query)
       else HTTPException 500 ("Error analyzing profile: " +:+ str e).

Section Endpoint.

Variable _make_key : list string → string.
Variable env : environment.

(** The [try] block of [analyze_profile]. *)
Definition analyze_profile_body (fuel : nat) (query : string) : M ProfileAnalysis.t :=
  found ← resolve_username _make_key env query;
  username ← expect_str found;
  v ← get_user _make_key env username;
  v' ← get_repos _make_key env fuel username 100;
  repos ← expect_repos v';
  v'' ← get_orgs _make_key env username;
  contribution_stats ← get_contribution_stats _make_key env fuel username;
  let repo_names := map Repo.name (take 20 repos) in
  repo_languages ← get_multiple_repo_languages _make_key env username repo_names;
  user ← expect_user v;
  orgs ← expect_orgs v'';
  repo_languages ← expect_language_maps repo_languages;
  t ← now env;
  mret (ProfileAnalyzer.analyze (list_of_set env) t user repos repo_languages
          contribution_stats orgs).

Definition analyze_profile (fuel : nat) (query : string) : M reply :=
  try_except
    (a ← analyze_profile_body fuel query; mret (Analysis a))
    (λ e, mret (on_error query e)).

End Endpoint.

End Router.

(** ** Vocabulary of the statements *)





(** The results of [n] successive calls of [m], and the world after them. *)
Fixpoint repeat_call {A} (m : GitHubService.M A) (n : nat) (w : GitHubService.world)
    : list (GitHubService.result A) * GitHubService.world :=
  match n with
  | O => ([], w)
  | S n' => let (r, w') := m w in
            let (rs, w'') := repeat_call m n' w' in (r :: rs, w'')
  end.

(** The exact share of a language, before rounding. *)
Definition exact_share (total : Z) (lb : string * Z) : Q :=
  (inject_Z (snd lb) / inject_Z total * 100)%Q.

(** The items a page request brought: the body of the answer, nothing when
    the request failed. *)
Definition body_of {A} (o : GitHubService.outcome (list A)) : list A :=
  match o with
  | GitHubService.Responds r => GitHubService.json r
  | GitHubService.Fails _ => []
  end.

(** The same, a status other than 200 bringing nothing. *)
Definition body_of_200 {A} (o : GitHubService.outcome (list A)) : list A :=
  match o with
  | GitHubService.Responds r =>
      if GitHubService.status_code r =? 200 then GitHubService.json r else []
  | GitHubService.Fails _ => []
  end.

(** The requests for the pages [first], [first + 1], ... ([count] of them). *)
Definition repo_pages (username : string) (per_page first : Z) (count : nat)
    : list GitHubService.request :=
  map (λ i : nat, GitHubService.GetUserRepos username per_page (first + Z.of_nat i))
      (seq 0 count).

Definition event_pages (username : string) (per_page first : Z) (count : nat)
    : list GitHubService.request :=
  map (λ i : nat, GitHubService.GetUserEvents username per_page (first + Z.of_nat i))
      (seq 0 count).

(** What the [j]-th request of a listing brings, when the listing starts at
    page [first] with request number [n0]. *)
Definition repos_page (env : GitHubService.environment) (username : string)
    (per_page : Z) (n0 : nat) (first : Z) (j : nat) : list Repo.t :=
  body_of (GitHubService.users_repos env (n0 + j) username per_page (first + Z.of_nat j)).

Definition events_page (env : GitHubService.environment) (username : string)
    (per_page : Z) (n0 : nat) (first : Z) (j : nat) : list Event.t :=
  body_of_200 (GitHubService.users_events env (n0 + j) username per_page (first + Z.of_nat j)).

(** The world after a search that went to the remote, got the answer [r]
    and stored [v] under [key]. *)
Definition searched (env : GitHubService.environment) (key email : string)
    (r : GitHubService.response GitHubService.search_body) (v : GitHubService.pyval)
    (w : GitHubService.world) : GitHubService.world :=
  let w1 :=
    GitHubService._update_rate_limit r
      (GitHubService.with_sent (GitHubService.GetSearchUsers (email +:+ " in:email")) w) in
  GitHubService.with_cache
    (SimpleCache.set (GitHubService.cache w)
       (GitHubService.clock env (GitHubService.ticks w)) key v None)
    (GitHubService.with_tick w1).

(** What [resolve_username] makes of the result of the search. *)
Definition resolved (email : string)
    (r : GitHubService.result (option GitHubService.pyval))
    : GitHubService.result GitHubService.pyval :=
  match r with
  | GitHubService.Return found =>
      if GitHubService.hit_truthy found
      then GitHubService.Return (default (GitHubService.VStr EmptyString) found)
      else GitHubService.Raise (ValueError (GitHubService.not_found_message email))
  | GitHubService.Raise e => GitHubService.Raise e
  | GitHubService.OutOfFuel => GitHubService.OutOfFuel
  end.

(** ** Sample data *)

Module Sample.
Import GitHubService.

Definition new_year_2020 : datetime :=
  {| year := 2020; hour := 9; weekday := "Wednesday"; timestamp := 1577869200000000 |}.

Definition octocat : User.t :=
  User.Build "octocat" (Some "The Octocat"%string) "https://avatars.example/octocat"
    None None None None None None None new_year_2020 "https://github.com/octocat"
    20 9 2 0.

Definition repo (name : string) (stars : Z) (language : option string) : Repo.t :=
  Repo.Build name None stars 0 language ("https://github.com/octocat/" +:+ name)
    new_year_2020.

Definition no_events : ContributionStats.t := contribution_stats_of [].


(** A stand-in for the key digest: the arguments joined by a separator. *)
Definition join_key (args : list string) : string := PyStr.join "|" args.

(** An answer with status 200. *)
Definition ok {A} (body : A) : outcome A :=
  Responds {| status_code := 200; reason_phrase := "OK"; text := EmptyString;
              x_ratelimit_remaining := Some 59; x_ratelimit_reset := Some 1700003600;
              json := body |}.

(** A 403 rejection for rate limiting, the quota resetting at epoch second
    [reset]. *)
Definition rate_limited {A} (reset : Z) (body : A) : outcome A :=
  Responds {| status_code := 403; reason_phrase := "Forbidden";
              text := "API rate limit exceeded for 203.0.113.7.";
              x_ratelimit_remaining := Some 0; x_ratelimit_reset := Some reset;
              json := body |}.

(** A 404 answer. *)
Definition not_found {A} (body : A) : outcome A :=
  Responds {| status_code := 404; reason_phrase := "Not Found";
              text := "Not Found";
              x_ratelimit_remaining := Some 58; x_ratelimit_reset := Some 1700003600;
              json := body |}.

(** An environment whose clock stands at epoch second 1700000000 and whose
    remote answers every request with an empty success. *)
Definition quiet : environment :=
  {| clock := λ _, 1700000000000000;
     search_users := λ _ _, ok {| total_count := Some 0; items := [] |};
     users := λ _ _, ok octocat;
     users_repos := λ _ _ _ _, ok [];
     repos_languages := λ _ _ _, ok [];
     users_events := λ _ _ _ _, ok [];
     users_orgs := λ _ _, ok [];
     list_of_set := λ l, l |}.


(** Twenty repository names. *)
Definition twenty_repos : list string :=
  map (λ n : nat, ("repo" +:+ pretty n)%string) (seq 1 20).

(** A remote whose connection drops on the requests number 3, 9 and 15 and
    which answers every other language lookup. *)
Definition flaky : environment :=
  {| clock := clock quiet;
     search_users := search_users quiet;
     users := users quiet;
     users_repos := users_repos quiet;
     repos_languages := λ n _ _,
       if bool_decide (n ∈ [3; 9; 15]%nat) then Fails (TransportError "connection reset")
       else ok [("Python"%string, 100)];
     users_events := users_events quiet;
     users_orgs := users_orgs quiet;
     list_of_set := list_of_set quiet |}.

(** A remote that rejects every account lookup for rate limiting, the quota
    resetting [seconds] after the instant of the clock. *)
Definition throttled (seconds : Z) : environment :=
  {| clock := clock quiet;
     search_users := search_users quiet;
     users := λ _ _, rate_limited (1700000000 + seconds) octocat;
     users_repos := users_repos quiet;
     repos_languages := repos_languages quiet;
     users_events := users_events quiet;
     users_orgs := users_orgs quiet;
     list_of_set := list_of_set quiet |}.

(** A remote that knows no account. *)
Definition nobody : environment :=
  {| clock := clock quiet;
     search_users := search_users quiet;
     users := λ _ _, not_found octocat;
     users_repos := users_repos quiet;
     repos_languages := repos_languages quiet;
     users_events := users_events quiet;
     users_orgs := users_orgs quiet;
     list_of_set := list_of_set quiet |}.

(** Two repositories created in the same year, in two languages. *)
Definition two_repos : list Repo.t :=
  [repo "alpha" 1 (Some "Python"%string); repo "beta" 2 (Some "Go"%string)].

End Sample.

(** ** Vocabulary of the further properties *)

(** [l] is in non-increasing order of [key]. *)
Fixpoint descending {A} (key : A → Z) (l : list A) : Prop :=
  match l with
  | [] => True
  | x :: l' => Forall (λ y, key y ≤ key x) l' ∧ descending key l'
  end.

(** [l] is in strictly increasing order of [key]. *)
Fixpoint strictly_ascending {A} (key : A → Z) (l : list A) : Prop :=
  match l with
  | [] => True
  | x :: l' => Forall (λ y, key x < key y) l' ∧ strictly_ascending key l'
  end.

(** Number of occurrences of [x] in [l]. *)
Definition occurrences {A} (eqb : A → A → bool) (x : A) (l : list A) : Z :=
  Py.len (List.filter (eqb x) l).

(** First value stored under [k] in an insertion-ordered dictionary. *)
Definition assoc {A B} (eqb : A → A → bool) (k : A) (d : list (A * B)) : option B :=
  snd <$> List.find (λ kv, eqb (fst kv) k) d.

(** The byte maps of the repositories that have one, in repository order. *)
Definition fetched_maps (repos : list Repo.t)
    (repo_languages : gmap string LanguageByteMap) : list LanguageByteMap :=
  omap (λ r, repo_languages !! Repo.name r) repos.

(** The order of the experience levels. *)
Definition level_rank (level : string) : Z :=
  if String.eqb level "Expert" then 3
  else if String.eqb level "Senior" then 2
  else if String.eqb level "Mid-Level" then 1
  else 0.

(** The bytes a language map counts for [lang], and whether it names it. *)
Definition lang_bytes (lang : string) (m : LanguageByteMap) : Z :=
  Py.sum (map snd (List.filter (λ kv, String.eqb (fst kv) lang) m)).

Definition mentions (lang : string) (m : LanguageByteMap) : bool :=
  existsb (λ kv, String.eqb (fst kv) lang) m.

(** The highlight [_get_top_repos] builds from a repository. *)
Definition highlight_of (repo : Repo.t) : RepoHighlight.t :=
  RepoHighlight.Build (Repo.name repo) (Repo.description repo)
    (Repo.stargazers_count repo) (Repo.forks_count repo)
    (Repo.language repo) (Repo.html_url repo).

(** The repositories created in year [y]. *)
Definition created_in (y : Z) (repos : list Repo.t) : list Repo.t :=
  List.filter (λ r, Z.eqb (year (Repo.created_at r)) y) repos.

(** The languages of the entry of year [y] in [yearly_data]. *)
Definition languages_of_year (y : Z) (yd : list (Z * ProfileAnalyzer.year_data))
    : list string :=
  default [] (ProfileAnalyzer.yd_languages <$> assoc Z.eqb y yd).

(** The time-of-day label of the summary. *)
Definition coder_label (hour : Z) : string :=
  if hour <? 12 then " (morning coder)"
  else if hour <? 18 then " (afternoon coder)"
  else " (evening coder)".

(** The name the summary uses. *)
Definition display_name (user : User.t) : string :=
  match User.name user with
  | Some n => if PyStr.truthy n then n else User.login user
  | None => User.login user
  end.

(** A call that is never cut short for want of fuel. *)
Definition settles {A} (m : GitHubService.M A) : Prop :=
  ∀ w, fst (m w) ≠ GitHubService.OutOfFuel.

(** Every character of [s] is in the class [cls]. *)
Fixpoint all_chars (cls : ascii → bool) (s : string) : bool :=
  match s with
  | String a t => cls a && all_chars cls t
  | EmptyString => true
  end.

(** The replies of the endpoint that are errors, with their status. *)
Definition error_status (r : Router.reply) : option Z :=
  match r with
  | Router.Analysis _ => None
  | Router.HTTPException status _ => Some status
  end.

(** ** Further sample data *)

Module Example.
Import GitHubService.

(** The language maps of the first of the two sample repositories. *)
Definition python_go : gmap string LanguageByteMap :=
  {[ "alpha"%string := [("Python"%string, 300); ("Go"%string, 100)] ]}.

Definition at_hour (h : Z) (day : string) : datetime :=
  {| year := 2023; hour := h; weekday := day; timestamp := 1700000000000000 |}.

(** Three pushes, two of them at 9 on a Tuesday, and a pull request. *)
Definition events : list Event.t :=
  [Event.Build "PushEvent" (at_hour 9 "Tuesday");
   Event.Build "PullRequestEvent" (at_hour 14 "Friday");
   Event.Build "PushEvent" (at_hour 21 "Sunday");
   Event.Build "PushEvent" (at_hour 9 "Tuesday")].

Definition stats : ContributionStats.t := contribution_stats_of events.

(** An account without followers that follows nobody. *)
Definition newcomer : User.t :=
  User.Build "newcomer" None "https://avatars.example/newcomer"
    None None None None None None None Sample.new_year_2020 "https://github.com/newcomer"
    0 0 0 0.


(** The state after the repositories of an account without any have been
    listed once. *)
Definition after_empty_listing : world :=
  snd (get_repos Sample.join_key Sample.quiet 5 "octocat" 100 initial_world).

(** The answers of the sample remotes. *)
Definition found_nothing : response search_body :=
  {| status_code := 200; reason_phrase := "OK"; text := EmptyString;
     x_ratelimit_remaining := Some 59; x_ratelimit_reset := Some 1700003600;
     json := {| total_count := Some 0; items := [] |} |}.

Definition no_such_account : response User.t :=
  {| status_code := 404; reason_phrase := "Not Found"; text := "Not Found";
     x_ratelimit_remaining := Some 58; x_ratelimit_reset := Some 1700003600;
     json := Sample.octocat |}.

Definition the_octocat : response User.t :=
  {| status_code := 200; reason_phrase := "OK"; text := EmptyString;
     x_ratelimit_remaining := Some 59; x_ratelimit_reset := Some 1700003600;
     json := Sample.octocat |}.

Definition no_languages : response LanguageByteMap :=
  {| status_code := 200; reason_phrase := "OK"; text := EmptyString;
     x_ratelimit_remaining := Some 59; x_ratelimit_reset := Some 1700003600;
     json := [] |}.

End Example.

(** ** Proof automation *)

(** Unfolding the monad. *)
Ltac unfold_M :=
  unfold mbind, mret, GitHubService.M_bind, GitHubService.M_ret,
    GitHubService.raise, GitHubService.out_of_fuel, GitHubService.modify,
    GitHubService.read, GitHubService.lift in *.

(** Lemmas on calls that are never cut short. *)
Create HintDb settles.

(** * Properties *)

(** ** Rounding *)

Lemma round_half_even_floor (x : Q) :
  Qfloor x <= round_half_even x <= Qfloor x + 1.
Proof.
  unfold round_half_even.
  destruct (x - inject_Z (Qfloor x) ?= 1 # 2)%Q; [destruct (Z.even _)|..]; lia.
Qed.

Lemma round_half_even_error (x : Q) :
  (Qabs (inject_Z (round_half_even x) - x) <= 1 # 2)%Q.
Proof.
  pose proof (Qfloor_le x) as Hlo. pose proof (Qlt_floor x) as Hhi.
  rewrite inject_Z_plus in Hhi. change (inject_Z 1) with 1%Q in Hhi.
  unfold round_half_even.
  destruct (Qcompare_spec (x - inject_Z (Qfloor x)) (1 # 2)) as [E|E|E].
  - destruct (Z.even (Qfloor x)).
    + apply Qabs_case; intros; lra.
    + rewrite inject_Z_plus. change (inject_Z 1) with 1%Q.
      apply Qabs_case; intros; lra.
  - apply Qabs_case; intros; lra.
  - rewrite inject_Z_plus. change (inject_Z 1) with 1%Q.
    apply Qabs_case; intros; lra.
Qed.

Lemma round_half_even_ge (n : Z) (x : Q) :
  (inject_Z n <= x)%Q → n <= round_half_even x.
Proof.
  intros H. apply Qfloor_resp_le in H. rewrite Qfloor_Z in H.
  pose proof (round_half_even_floor x). lia.
Qed.

Lemma round_half_even_le (n : Z) (x : Q) :
  (x <= inject_Z n)%Q → round_half_even x <= n.
Proof.
  intros H. pose proof (Qfloor_resp_le _ _ H) as Hf. rewrite Qfloor_Z in Hf.
  destruct (Z.eq_dec (Qfloor x) n) as [E|E].
  - unfold round_half_even. pose proof (Qfloor_le x) as Hlo. rewrite E in *.
    destruct (Qcompare_spec (x - inject_Z n) (1 # 2)) as [E'|E'|E']; try lra; lia.
  - pose proof (round_half_even_floor x). lia.
Qed.

Lemma py_round_1_eq (x : Q) :
  (py_round x 1 == inject_Z (round_half_even (x * 10)) * (1 # 10))%Q.
Proof. unfold py_round. rewrite Qred_correct. reflexivity. Qed.

Lemma py_round_1_error (x : Q) : (Qabs (py_round x 1 - x) <= 1 # 20)%Q.
Proof.
  rewrite py_round_1_eq.
  pose proof (round_half_even_error (x * 10)) as H.
  revert H. apply Qabs_case; intros H1 H2; apply Qabs_case; intros; lra.
Qed.

Lemma py_round_1_bounds (a b : Z) (x : Q) :
  (inject_Z a <= x)%Q → (x <= inject_Z b)%Q →
  (inject_Z a <= py_round x 1 <= inject_Z b)%Q.
Proof.
  intros Ha Hb. rewrite py_round_1_eq.
  assert (H1 : a * 10 <= round_half_even (x * 10)).
  { apply round_half_even_ge. rewrite inject_Z_mult. change (inject_Z 10) with 10%Q. lra. }
  assert (H2 : round_half_even (x * 10) <= b * 10).
  { apply round_half_even_le. rewrite inject_Z_mult. change (inject_Z 10) with 10%Q. lra. }
  rewrite Zle_Qle in H1, H2. rewrite inject_Z_mult in H1, H2.
  change (inject_Z 10) with 10%Q in *. lra.
Qed.

(** ** The TTL cache *)

Section CacheFacts.
Context {V : Type}.
Implicit Types (c : SimpleCache.t V) (k : string) (v : V).

Lemma cache_set_lookup c now k v ttl :
  SimpleCache._cache (SimpleCache.set c now k v ttl) !! k
  = Some (v, now + SimpleCache.timedelta (SimpleCache.ttl_or_default c ttl)).
Proof. unfold SimpleCache.set. simpl. apply lookup_insert_eq. Qed.

Lemma cache_get_hit c now k v expires_at :
  SimpleCache._cache c !! k = Some (v, expires_at) →
  now < expires_at →
  SimpleCache.get c now k = (Some v, c).
Proof.
  intros Hk Hlt. unfold SimpleCache.get. rewrite Hk.
  apply Z.ltb_lt in Hlt. by rewrite Hlt.
Qed.

Lemma cache_get_expired c now k v expires_at :
  SimpleCache._cache c !! k = Some (v, expires_at) →
  expires_at ≤ now →
  SimpleCache.get c now k
  = (None, SimpleCache.Build (delete k (SimpleCache._cache c)) (SimpleCache.default_ttl c)).
Proof.
  intros Hk Hle. unfold SimpleCache.get. rewrite Hk.
  apply Z.ltb_ge in Hle. by rewrite Hle.
Qed.

Lemma cache_get_absent c now k :
  SimpleCache._cache c !! k = None → SimpleCache.get c now k = (None, c).
Proof. intros Hk. unfold SimpleCache.get. by rewrite Hk. Qed.

(** A zero [ttl] is replaced by the default, like a missing one. *)
Lemma ttl_zero_is_default c :
  SimpleCache.ttl_or_default c (Some 0) = SimpleCache.default_ttl c.
Proof. reflexivity. Qed.

Lemma ttl_nonzero c n : n ≠ 0 → SimpleCache.ttl_or_default c (Some n) = n.
Proof. intros Hn. unfold SimpleCache.ttl_or_default. apply Z.eqb_neq in Hn. by rewrite Hn. Qed.

(** [valid_entries <= total_entries]. *)
Lemma cache_stats_valid_le_total c now :
  (snd (SimpleCache.stats c now) ≤ fst (SimpleCache.stats c now))%nat.
Proof.
  unfold SimpleCache.stats. simpl. rewrite <- length_map_to_list.
  apply length_filter.
Qed.

End CacheFacts.

(** C2, as the code has it: [set(k, v, ttl=0)] stores the entry with the
    default TTL (a zero [ttl] is falsy in [ttl or self.default_ttl]), and
    for every [ttl] a [get(k)] at an instant before the entry's expiry
    (write instant plus the effective TTL) returns [v] and leaves the cache
    as it is. *)
Theorem cache_get_after_set {V} (c : SimpleCache.t V) (k : string) (v : V)
    (ttl : option Z) (now_set now_get : Z) :
  now_get < now_set + SimpleCache.timedelta (SimpleCache.ttl_or_default c ttl) →
  SimpleCache.ttl_or_default c (Some 0) = SimpleCache.default_ttl c
  ∧ SimpleCache.get (SimpleCache.set c now_set k v ttl) now_get k
    = (Some v, SimpleCache.set c now_set k v ttl).
Proof.
  intros Hlt. split; [reflexivity|].
  eapply cache_get_hit; [apply cache_set_lookup | exact Hlt].
Qed.

(** With the global cache ([default_ttl = 3600]), a [get] at the very
    instant of a [set] with [ttl=0] is a hit. *)
Lemma cache_get_after_set_witness :
  SimpleCache.ttl_or_default (SimpleCache.init (V:=string) 3600) (Some 0) = 3600
  ∧ SimpleCache.get (SimpleCache.set (SimpleCache.init 3600) 0 "k" "v"%string (Some 0)) 0 "k"
    = (Some "v"%string, SimpleCache.set (SimpleCache.init 3600) 0 "k" "v"%string (Some 0)).
Proof.
  apply (cache_get_after_set (SimpleCache.init 3600) "k" "v"%string (Some 0) 0 0).
  reflexivity.
Defined.

(** C2 as stated fails: right after [set(k, v, ttl=0)], at the same instant
    or a microsecond later, [get(k)] is a hit, not a miss. *)
Lemma cache_ttl_zero_counterexample :
  fst (SimpleCache.get (SimpleCache.set (SimpleCache.init 3600) 0 "k" "v"%string (Some 0)) 0 "k")
  = Some "v"%string
  ∧ fst (SimpleCache.get (SimpleCache.set (SimpleCache.init 3600) 0 "k" "v"%string (Some 0)) 1 "k")
    ≠ None.
Proof. split; [|intros H]; vm_compute in *; congruence. Qed.

(** ** Activity pattern *)

(** Events without a push event give zero push events and empty commit
    hours and days. *)
Lemma contribution_stats_no_push (events : list Event.t) :
  Forall (λ e, Event.type e ≠ "PushEvent"%string) events →
  let stats := GitHubService.contribution_stats_of events in
  ContributionStats.total_push_events stats = 0
  ∧ ContributionStats.commit_hours stats = []
  ∧ ContributionStats.commit_days stats = [].
Proof.
  intros Hall.
  assert (Hnil : List.filter (λ e, String.eqb (Event.type e) "PushEvent") events = []).
  { induction Hall as [|e l He _ IH]; [reflexivity|]. simpl.
    apply String.eqb_neq in He. by rewrite He. }
  unfold GitHubService.contribution_stats_of. simpl. by rewrite Hnil.
Qed.

(** C9: with zero push events (no commit hour, no commit day),
    [_analyze_activity] returns the defaults: most active day ["Monday"],
    most active hour [12], no commits, streaks [0], consistency [0]. *)
Theorem analyze_activity_defaults (stats : ContributionStats.t) (repos : list Repo.t) :
  ContributionStats.total_push_events stats = 0 →
  ContributionStats.commit_hours stats = [] →
  ContributionStats.commit_days stats = [] →
  ProfileAnalyzer._analyze_activity stats repos
  = ActivityPattern.Build "Monday" 12 0 0 0 0%Q.
Proof.
  intros Hn Hh Hd. unfold ProfileAnalyzer._analyze_activity.
  rewrite Hn, Hh, Hd. reflexivity.
Qed.

Lemma analyze_activity_defaults_witness :
  ProfileAnalyzer._analyze_activity
    (GitHubService.contribution_stats_of
       [Event.Build "IssuesEvent" {| year := 2024; hour := 9; weekday := "Friday";
                                     timestamp := 1704445200000000 |}])
    []
  = ActivityPattern.Build "Monday" 12 0 0 0 0%Q.
Proof.
  apply (analyze_activity_defaults
           (GitHubService.contribution_stats_of
              [Event.Build "IssuesEvent" {| year := 2024; hour := 9; weekday := "Friday";
                                            timestamp := 1704445200000000 |}]) []);
    reflexivity.
Defined.

(** ** Overall score *)

Lemma Qsum5 (a b c d e : Q) :
  (fold_left Qplus [a; b; c; d; e] 0 == a + b + c + d + e)%Q.
Proof. simpl. ring. Qed.

Lemma sum_stars_nonneg (repos : list Repo.t) :
  Forall (λ r, 0 ≤ Repo.stargazers_count r) repos → 0 ≤ ProfileAnalyzer.sum_stars repos.
Proof.
  intros H. unfold ProfileAnalyzer.sum_stars, Py.sum.
  assert (G : ∀ l acc, Forall (λ x, 0 ≤ x) l → 0 ≤ acc → 0 ≤ fold_left Z.add l acc).
  { induction l as [|x l IH]; intros acc Hl Hacc; simpl; [done|].
    inversion Hl; subst. apply IH; [done|lia]. }
  apply G; [|lia]. by apply Forall_fmap.
Qed.

(** C4: for a non-negative star total, consistency score and follower
    count (the three counts are lengths), each sub-score lies between 0 and
    its cap (25, 25, 15, 20, 15) and the overall score lies in [0, 100]. *)
Theorem overall_score_bounds (user : User.t) (repos : list Repo.t)
    (languages : list LanguageStat.t) (activity : ActivityPattern.t)
    (collaboration : CollaborationMetrics.t) :
  0 ≤ ProfileAnalyzer.sum_stars repos →
  (0 <= ActivityPattern.consistency_score activity)%Q →
  0 ≤ CollaborationMetrics.followers collaboration →
  (0 <= ProfileAnalyzer.repo_score repos <= 25
   ∧ 0 <= ProfileAnalyzer.star_score repos <= 25
   ∧ 0 <= ProfileAnalyzer.diversity_score languages <= 15
   ∧ 0 <= ProfileAnalyzer.activity_score activity <= 20
   ∧ 0 <= ProfileAnalyzer.engagement_score collaboration <= 15
   ∧ 0 <= ProfileAnalyzer._calculate_overall_score user repos languages activity
            collaboration <= 100)%Q.
Proof.
  intros Hstars Hcons Hfoll.
  assert (Hr : (0 <= inject_Z (Py.len repos))%Q).
  { change 0%Q with (inject_Z 0). rewrite <- Zle_Qle. unfold Py.len. lia. }
  assert (Hs : (0 <= inject_Z (ProfileAnalyzer.sum_stars repos))%Q).
  { change 0%Q with (inject_Z 0). by rewrite <- Zle_Qle. }
  assert (Hl : (0 <= inject_Z (Py.len languages * 2))%Q).
  { change 0%Q with (inject_Z 0). rewrite <- Zle_Qle. unfold Py.len. lia. }
  assert (Hf : (0 <= inject_Z (CollaborationMetrics.followers collaboration))%Q).
  { change 0%Q with (inject_Z 0). by rewrite <- Zle_Qle. }
  assert (Ho : (0 <= inject_Z (Py.len (CollaborationMetrics.organizations collaboration) * 2))%Q).
  { change 0%Q with (inject_Z 0). rewrite <- Zle_Qle. unfold Py.len. lia. }
  assert (B1 : (0 <= ProfileAnalyzer.repo_score repos <= 25)%Q).
  { unfold ProfileAnalyzer.repo_score.
    destruct (Q.min_spec 25 (inject_Z (Py.len repos) * 1.5)) as [[? E]|[? E]];
      rewrite E; lra. }
  assert (B2 : (0 <= ProfileAnalyzer.star_score repos <= 25)%Q).
  { unfold ProfileAnalyzer.star_score.
    destruct (Q.min_spec 25 (inject_Z (ProfileAnalyzer.sum_stars repos) * 0.5)) as [[? E]|[? E]];
      rewrite E; lra. }
  assert (B3 : (0 <= ProfileAnalyzer.diversity_score languages <= 15)%Q).
  { unfold ProfileAnalyzer.diversity_score.
    destruct (Q.min_spec 15 (inject_Z (Py.len languages * 2))) as [[? E]|[? E]];
      rewrite E; lra. }
  assert (B4 : (0 <= ProfileAnalyzer.activity_score activity <= 20)%Q).
  { unfold ProfileAnalyzer.activity_score.
    destruct (Q.min_spec 20 (ActivityPattern.consistency_score activity * 0.2)) as [[? E]|[? E]];
      rewrite E; lra. }
  assert (B5 : (0 <= ProfileAnalyzer.engagement_score collaboration <= 15)%Q).
  { unfold ProfileAnalyzer.engagement_score, Qdiv.
    change (/ 10)%Q with (1 # 10)%Q.
    match goal with |- context [Qmin 15 ?x] =>
      destruct (Q.min_spec 15 x) as [[? E]|[? E]]; rewrite E end; lra. }
  repeat (split; [tauto|]).
  unfold ProfileAnalyzer._calculate_overall_score.
  apply (py_round_1_bounds 0 100); rewrite Qsum5.
  - change (inject_Z 0) with 0%Q. lra.
  - change (inject_Z 100) with 100%Q. lra.
Qed.

Lemma overall_score_bounds_witness :
  let repos := [Sample.repo "hello" 3 (Some "Python"%string)] in
  let activity := ActivityPattern.Build "Friday" 9 60 0 0 50%Q in
  let collaboration := CollaborationMetrics.Build 2 0 20 9 2.22%Q ["github"%string] in
  (0 <= ProfileAnalyzer.repo_score repos <= 25
   ∧ 0 <= ProfileAnalyzer.star_score repos <= 25
   ∧ 0 <= ProfileAnalyzer.diversity_score [] <= 15
   ∧ 0 <= ProfileAnalyzer.activity_score activity <= 20
   ∧ 0 <= ProfileAnalyzer.engagement_score collaboration <= 15
   ∧ 0 <= ProfileAnalyzer._calculate_overall_score Sample.octocat repos [] activity
            collaboration <= 100)%Q.
Proof.
  apply (overall_score_bounds Sample.octocat [Sample.repo "hello" 3 (Some "Python"%string)] []
           (ActivityPattern.Build "Friday" 9 60 0 0 50%Q)
           (CollaborationMetrics.Build 2 0 20 9 2.22%Q ["github"%string]));
    vm_compute; discriminate.
Defined.

(** ** Language aggregation *)

Section Sorting.
Context {A : Type}.
Implicit Types (before : A → A → bool) (l : list A).

Lemma insert_sorted_perm before x l : Py.insert_sorted before x l ≡ₚ x :: l.
Proof.
  induction l as [|y l IH]; simpl; [done|].
  destruct (before y x); [|done].
  rewrite IH. apply Permutation_swap.
Qed.

Lemma sorted_perm before l : Py.sorted before l ≡ₚ l.
Proof.
  induction l as [|x l IH]; simpl; [done|].
  unfold Py.sorted in *. rewrite insert_sorted_perm. by rewrite IH.
Qed.


End Sorting.



Lemma py_sum_foldr (l : list Z) : Py.sum l = foldr Z.add 0 l.
Proof.
  unfold Py.sum.
  assert (G : ∀ acc, fold_left Z.add l acc = acc + foldr Z.add 0 l).
  { induction l as [|x l IH]; intros acc; simpl; [lia|]. rewrite IH. lia. }
  rewrite G. lia.
Qed.

Lemma percentage_language_stat (total : Z) (lb : string * Z) :
  LanguageStat.percentage (ProfileAnalyzer.language_stat total lb)
  = py_round (exact_share total lb) 1.
Proof. by destruct lb. Qed.








(** ** The remote client *)

Import GitHubService.

Lemma bind_Return {A B} (m : M A) (f : A → M B) (w w' : world) (a : A) :
  m w = (Return a, w') → (m ≫= f) w = f a w'.
Proof. unfold_M. by intros ->. Qed.

Lemma bind_Raise {A B} (m : M A) (f : A → M B) (w w' : world) (e : exn) :
  m w = (Raise e, w') → (m ≫= f) w = (Raise e, w').
Proof. unfold_M. by intros ->. Qed.

Lemma bind_OutOfFuel {A B} (m : M A) (f : A → M B) (w w' : world) :
  m w = (OutOfFuel, w') → (m ≫= f) w = (OutOfFuel, w').
Proof. unfold_M. by intros ->. Qed.

Section ServiceFacts.

Variable _make_key : list string → string.
Variable env : environment.

(** What one [_request] does. *)
Lemma request_eq {A} (req : request) (answer : nat → outcome A) (w : world) :
  _request env req answer w =
  match answer (length (sent w)) with
  | Fails e => (Raise e, with_sent req w)
  | Responds r =>
      let w' := _update_rate_limit r (with_sent req w) in
      if rate_limit_rejection r then
        match _rate_limit_reset w' with
        | Some reset =>
            (Raise (Exception (rate_limit_message
                                 (Z.quot (reset * 1000000 - clock env (ticks w)) 1000000))),
             with_tick w')
        | None => (Raise (Exception rate_limit_message_unknown), w')
        end
      else (Return r, w')
  end.
Proof.
  unfold _request, _update_rate_limit, now. unfold_M. simpl.
  destruct (answer (length (sent w))) as [r|e]; [|done]. simpl.
  destruct (rate_limit_rejection r); [|done]. simpl.
  by destruct (default 0 (x_ratelimit_reset r) =? 0).
Qed.

(** A request is logged, leaves the cache alone, and never runs out of
    fuel; when it returns, the remote answered and was not rejecting for
    rate limiting. *)
Lemma request_cases {A} (req : request) (answer : nat → outcome A) (w w' : world)
    (res : result (response A)) :
  _request env req answer w = (res, w') →
  sent w' = sent w ++ [req]
  ∧ cache w' = cache w
  ∧ ((∃ r, answer (length (sent w)) = Responds r
           ∧ rate_limit_rejection r = false
           ∧ res = Return r
           ∧ w' = _update_rate_limit r (with_sent req w))
     ∨ (∃ e, res = Raise e)).
Proof.
  rewrite request_eq.
  destruct (answer (length (sent w))) as [r|e]; simpl.
  - destruct (rate_limit_rejection r) eqn:E; simpl.
    + destruct (if default 0 (x_ratelimit_reset r) =? 0 then None else _);
        intros [= <- <-]; simpl; eauto 10.
    + intros [= <- <-]; simpl; eauto 10.
  - intros [= <- <-]; simpl; eauto 10.
Qed.

Lemma cache_set_eq (key : string) (v : pyval) (ttl : option Z) (w : world) :
  cache_set env key v ttl w
  = (Return tt,
     with_cache (SimpleCache.set (cache w) (clock env (ticks w)) key v ttl) (with_tick w)).
Proof. reflexivity. Qed.

End ServiceFacts.

(** ** Pagination *)

Lemma repo_pages_S (username : string) (per_page first : Z) (count : nat) :
  repo_pages username per_page first (S count)
  = GetUserRepos username per_page first :: repo_pages username per_page (first + 1) count.
Proof.
  unfold repo_pages. simpl. rewrite Z.add_0_r. f_equal.
  rewrite <- seq_shift, map_map. apply map_ext. intros i. f_equal. lia.
Qed.

Lemma event_pages_S (username : string) (per_page first : Z) (count : nat) :
  event_pages username per_page first (S count)
  = GetUserEvents username per_page first :: event_pages username per_page (first + 1) count.
Proof.
  unfold event_pages. simpl. rewrite Z.add_0_r. f_equal.
  rewrite <- seq_shift, map_map. apply map_ext. intros i. f_equal. lia.
Qed.

Section Pagination.

Variable _make_key : list string → string.
Variable env : environment.
Variables (username : string) (per_page : Z).

Local Abbreviation rpage := (repos_page env username per_page).
Local Abbreviation epage := (events_page env username per_page).

Lemma pages_concat_S {A} (page : nat → Z → nat → list A) (n0 : nat) (first : Z) (k : nat) :
  (∀ n p j, page (S n) (p + 1) j = page n p (S j)) →
  concat (map (page n0 first) (seq 0 (S k)))
  = page n0 first 0%nat ++ concat (map (page (S n0) (first + 1)) (seq 0 k)).
Proof.
  intros Hshift. simpl. f_equal. rewrite <- seq_shift, map_map. f_equal.
  apply map_ext. intros j. by rewrite Hshift.
Qed.

Lemma repos_page_shift n p j : rpage (S n) (p + 1) j = rpage n p (S j).
Proof.
  unfold repos_page.
  replace (S n + j)%nat with (n + S j)%nat by lia.
  by replace (p + 1 + Z.of_nat j) with (p + Z.of_nat (S j)) by lia.
Qed.

Lemma events_page_shift n p j : epage (S n) (p + 1) j = epage n p (S j).
Proof.
  unfold events_page.
  replace (S n + j)%nat with (n + S j)%nat by lia.
  by replace (p + 1 + Z.of_nat j) with (p + Z.of_nat (S j)) by lia.
Qed.

(** The loop of [get_repos] started at page [page <= 5] with fuel for the
    pages that remain: it does not run out of fuel, leaves the cache
    alone, sends requests for [k >= 1] consecutive pages without going past
    page 5, and what it returns is the accumulator followed by the pages
    in order, the last page being page 5 or empty. *)
Lemma get_repos_loop_spec (fuel : nat) :
  ∀ (page : Z) (repos : list Repo.t) (w w' : world) (res : result (list Repo.t)),
    1 ≤ page ≤ 5 → 6 - page ≤ Z.of_nat fuel →
    get_repos_loop env fuel username per_page page repos w = (res, w') →
    res ≠ OutOfFuel
    ∧ cache w' = cache w
    ∧ ∃ k : nat,
        (1 ≤ k)%nat ∧ page + Z.of_nat k ≤ 6
        ∧ sent w' = sent w ++ repo_pages username per_page page k
        ∧ ∀ l, res = Return l →
            l = repos ++ concat (map (rpage (length (sent w)) page) (seq 0 k))
            ∧ (page + Z.of_nat k = 6
               ∨ rpage (length (sent w)) page (k - 1) = []).
Proof.
  induction fuel as [|fuel IH]; intros page repos w w' res Hpage Hfuel; [lia|].
  simpl.
  destruct (_request env (GetUserRepos username per_page page)
              (λ n, users_repos env n username per_page page) w) as [r1 w1] eqn:Hreq.
  destruct (request_cases env _ _ _ _ _ Hreq) as (Hsent & Hcache & Hres).
  assert (Hone : sent w1 = sent w ++ repo_pages username per_page page 1).
  { rewrite Hsent. unfold repo_pages. simpl. by rewrite Z.add_0_r. }
  destruct Hres as [(r & Hans & _ & -> & Hw1)|[e ->]].
  2:{ rewrite (bind_Raise _ _ _ _ _ Hreq). intros [= <- <-].
      split; [done|]. split; [done|]. exists 1%nat.
      repeat split; [lia..|done|done|discriminate]. }
  rewrite (bind_Return _ _ _ _ _ Hreq).
  assert (Hbody : rpage (length (sent w)) page 0 = json r).
  { unfold repos_page. rewrite Nat.add_0_r, Z.add_0_r, Hans. done. }
  unfold raise_for_status.
  destruct ((200 <=? status_code r) && (status_code r <? 300)).
  2:{ unfold_M. intros [= <- <-].
      split; [done|]. split; [done|]. exists 1%nat.
      repeat split; [lia..|done|discriminate|discriminate]. }
  unfold_M.
  destruct (json r) as [|x data] eqn:Hdata.
  { intros [= <- <-]. split; [done|]. split; [done|]. exists 1%nat.
    split; [lia|]. split; [lia|]. split; [done|].
    intros l [= <-]. simpl. rewrite Hbody. simpl. rewrite app_nil_r. auto. }
  destruct (5 <? page + 1) eqn:Hcap.
  { apply Z.ltb_lt in Hcap. intros [= <- <-]. split; [done|]. split; [done|].
    exists 1%nat. split; [lia|]. split; [lia|]. split; [done|].
    intros l [= <-]. simpl. rewrite Hbody, app_nil_r. split; [done|]. left. lia. }
  apply Z.ltb_ge in Hcap. intros Hloop.
  apply IH in Hloop; [|lia..].
  destruct Hloop as (Hfuel' & Hcache' & k & Hk & Hk5 & Hsent' & Hret).
  split; [done|]. split; [congruence|]. exists (S k).
  split; [lia|]. split; [lia|]. split.
  { rewrite Hsent', Hsent, repo_pages_S, <- app_assoc. done. }
  intros l Hl. destruct (Hret l Hl) as [-> Hlast].
  assert (Hlen : length (sent w1) = S (length (sent w))).
  { rewrite Hsent, length_app. simpl. lia. }
  rewrite Hlen in *.
  rewrite (pages_concat_S rpage) by apply repos_page_shift.
  rewrite Hbody, <- app_assoc. split; [done|].
  destruct Hlast as [Hlast|Hlast]; [left; lia|right].
  replace (S k - 1)%nat with (S (k - 1)) by lia.
  by rewrite <- repos_page_shift.
Qed.


(** The loop of [get_events] started at page [page <= 4]. *)
Lemma get_events_loop_spec (fuel : nat) :
  ∀ (page : Z) (events : list Event.t) (w w' : world) (res : result (list Event.t)),
    1 ≤ page ≤ 4 → 4 - page ≤ Z.of_nat fuel →
    get_events_loop env fuel username per_page page events w = (res, w') →
    res ≠ OutOfFuel
    ∧ cache w' = cache w
    ∧ ∃ k : nat,
        page + Z.of_nat k ≤ 4
        ∧ sent w' = sent w ++ event_pages username per_page page k
        ∧ ∀ l, res = Return l →
            l = events ++ concat (map (epage (length (sent w)) page) (seq 0 k))
            ∧ (page + Z.of_nat k = 4
               ∨ ((1 ≤ k)%nat ∧ epage (length (sent w)) page (k - 1) = [])).
Proof.
  induction fuel as [|fuel IH]; intros page events w w' res Hpage Hfuel.
  { assert (page = 4) as -> by lia. simpl. unfold_M. intros [= <- <-].
    split; [done|]. split; [done|]. exists 0%nat. simpl.
    rewrite !app_nil_r. split; [lia|]. split; [done|].
    intros l [= <-]. split; [done|]. left. lia. }
  simpl. destruct (page <=? 3) eqn:Hle.
  2:{ apply Z.leb_gt in Hle. unfold_M. intros [= <- <-].
      split; [done|]. split; [done|]. exists 0%nat. simpl.
      rewrite !app_nil_r. split; [lia|]. split; [done|].
      intros l [= <-]. split; [done|]. left. lia. }
  apply Z.leb_le in Hle.
  destruct (_request env (GetUserEvents username per_page page)
              (λ n, users_events env n username per_page page) w) as [r1 w1] eqn:Hreq.
  destruct (request_cases env _ _ _ _ _ Hreq) as (Hsent & Hcache & Hres).
  assert (Hone : sent w1 = sent w ++ event_pages username per_page page 1).
  { rewrite Hsent. unfold event_pages. simpl. by rewrite Z.add_0_r. }
  destruct Hres as [(r & Hans & _ & -> & Hw1)|[e ->]].
  2:{ rewrite (bind_Raise _ _ _ _ _ Hreq). intros [= <- <-].
      split; [done|]. split; [done|]. exists 1%nat.
      repeat split; [lia|done|discriminate|discriminate]. }
  rewrite (bind_Return _ _ _ _ _ Hreq).
  assert (Hbody : epage (length (sent w)) page 0
                  = if status_code r =? 200 then json r else []).
  { unfold events_page. rewrite Nat.add_0_r, Z.add_0_r, Hans. done. }
  destruct (status_code r =? 200) eqn:Hstatus; simpl.
  2:{ unfold_M. intros [= <- <-]. split; [done|]. split; [done|]. exists 1%nat.
      split; [lia|]. split; [done|].
      intros l [= <-]. simpl. rewrite Hbody. simpl. rewrite app_nil_r. auto. }
  destruct (json r) as [|x data] eqn:Hdata.
  { unfold_M. intros [= <- <-]. split; [done|]. split; [done|]. exists 1%nat.
    split; [lia|]. split; [done|].
    intros l [= <-]. simpl. rewrite Hbody. simpl. rewrite app_nil_r. auto. }
  intros Hloop. apply IH in Hloop; [|lia..].
  destruct Hloop as (Hfuel' & Hcache' & k & Hk4 & Hsent' & Hret).
  split; [done|]. split; [congruence|]. exists (S k).
  split; [lia|]. split.
  { rewrite Hsent', Hsent, event_pages_S, <- app_assoc. done. }
  intros l Hl. destruct (Hret l Hl) as [-> Hlast].
  assert (Hlen : length (sent w1) = S (length (sent w))).
  { rewrite Hsent, length_app. simpl. lia. }
  rewrite Hlen in *.
  rewrite (pages_concat_S epage) by apply events_page_shift.
  rewrite Hbody, <- app_assoc. split; [done|].
  destruct Hlast as [Hlast|[Hk Hlast]]; [left; lia|right].
  split; [lia|].
  replace (S k - 1)%nat with (S (k - 1)) by lia.
  by rewrite <- events_page_shift.
Qed.

End Pagination.

Section PaginationTheorem.

Variable _make_key : list string → string.
Variable env : environment.
Variables (username : string) (per_page : Z).

Lemma cache_get_cases (key : string) (w : world) :
  ∃ o w0, cache_get env key w = (Return o, w0) ∧ sent w0 = sent w.
Proof.
  unfold cache_get. destruct (SimpleCache._cache (cache w) !! key) as [[v t]|] eqn:E.
  - unfold SimpleCache.get. rewrite E. destruct (_ <? _); simpl; eauto.
  - eauto.
Qed.

Lemma fetch_repos_spec (fuel : nat) (key : string) (w w' : world) (res : result pyval) :
  (5 ≤ fuel)%nat →
  fetch_repos env fuel key username per_page w = (res, w') →
  res ≠ OutOfFuel
  ∧ ∃ k : nat,
      (1 ≤ k ≤ 5)%nat
      ∧ sent w' = sent w ++ repo_pages username per_page 1 k
      ∧ ∀ v, res = Return v →
          v = VRepos (concat (map (repos_page env username per_page (length (sent w)) 1)
                                (seq 0 k)))
          ∧ (k = 5%nat
             ∨ repos_page env username per_page (length (sent w)) 1 (k - 1) = []).
Proof.
  intros Hfuel. unfold fetch_repos.
  destruct (get_repos_loop env fuel username per_page 1 [] w) as [r1 w1] eqn:Hloop.
  destruct (get_repos_loop_spec env username per_page fuel 1 [] w w1 r1
              ltac:(lia) ltac:(lia) Hloop)
    as (Hfuel' & _ & k & Hk1 & Hk5 & Hsent & Hret).
  destruct r1 as [repos|e|]; [| |done].
  - rewrite (bind_Return _ _ _ _ _ Hloop). unfold_M. rewrite cache_set_eq.
    intros [= <- <-]. split; [done|]. exists k. split; [lia|]. split; [done|].
    intros v [= <-]. destruct (Hret repos eq_refl) as [-> Hlast].
    split; [done|]. destruct Hlast; [left; lia|by right].
  - rewrite (bind_Raise _ _ _ _ _ Hloop). intros [= <- <-].
    split; [done|]. exists k. split; [lia|]. split; [done|]. discriminate.
Qed.

Lemma fetch_events_spec (fuel : nat) (key : string) (w w' : world) (res : result pyval) :
  (3 ≤ fuel)%nat →
  fetch_events env fuel key username per_page w = (res, w') →
  res ≠ OutOfFuel
  ∧ ∃ k : nat,
      (1 ≤ k ≤ 3)%nat
      ∧ sent w' = sent w ++ event_pages username per_page 1 k
      ∧ ∀ v, res = Return v →
          v = VEvents (concat (map (events_page env username per_page (length (sent w)) 1)
                                 (seq 0 k)))
          ∧ (k = 3%nat
             ∨ events_page env username per_page (length (sent w)) 1 (k - 1) = []).
Proof.
  intros Hfuel. unfold fetch_events.
  destruct (get_events_loop env fuel username per_page 1 [] w) as [r1 w1] eqn:Hloop.
  destruct (get_events_loop_spec env username per_page fuel 1 [] w w1 r1
              ltac:(lia) ltac:(lia) Hloop)
    as (Hfuel' & _ & k & Hk4 & Hsent & Hret).
  assert (Hk1 : (1 ≤ k)%nat).
  { destruct k; [|lia]. exfalso. revert Hloop.
    destruct fuel as [|fuel]; [lia|]. simpl.
    destruct (_request env (GetUserEvents username per_page 1)
                (λ n, users_events env n username per_page 1) w) as [r2 w2] eqn:Hreq.
    destruct (request_cases env _ _ _ _ _ Hreq) as (Hs & _ & _).
    intros Hloop.
    assert (Hmore : ∃ l, sent w1 = sent w2 ++ l).
    { destruct r2 as [r| |].
      - rewrite (bind_Return _ _ _ _ _ Hreq) in Hloop.
        destruct (negb (status_code r =? 200)).
        { unfold_M. injection Hloop as _ <-. exists []. by rewrite app_nil_r. }
        destruct (json r).
        { unfold_M. injection Hloop as _ <-. exists []. by rewrite app_nil_r. }
        destruct (get_events_loop_spec env username per_page fuel (1 + 1) _ _ _ _
                    ltac:(lia) ltac:(lia) Hloop) as (_ & _ & k' & _ & Hs' & _).
        eauto.
      - rewrite (bind_Raise _ _ _ _ _ Hreq) in Hloop. injection Hloop as _ <-.
        exists []. by rewrite app_nil_r.
      - rewrite (bind_OutOfFuel _ _ _ _ Hreq) in Hloop. injection Hloop as _ <-.
        exists []. by rewrite app_nil_r. }
    destruct Hmore as [l Hl]. rewrite Hl, Hs in Hsent. simpl in Hsent.
    rewrite app_nil_r, <- app_assoc in Hsent.
    apply (f_equal length) in Hsent. rewrite !length_app in Hsent. simpl in Hsent. lia. }
  destruct r1 as [events|e|]; [| |done].
  - rewrite (bind_Return _ _ _ _ _ Hloop). unfold_M. rewrite cache_set_eq.
    intros [= <- <-]. split; [done|]. exists k. split; [lia|]. split; [done|].
    intros v [= <-]. destruct (Hret events eq_refl) as [-> Hlast].
    split; [done|]. destruct Hlast as [?|[_ ?]]; [left; lia|by right].
  - rewrite (bind_Raise _ _ _ _ _ Hloop). intros [= <- <-].
    split; [done|]. exists k. split; [lia|]. split; [done|]. discriminate.
Qed.


End PaginationTheorem.


(** ** Search by email and identity resolution *)

Lemma with_cache_same (w : world) : with_cache (cache w) w = w.
Proof. by destruct w. Qed.

Section Resolver.

Variable _make_key : list string → string.
Variable env : environment.

Local Abbreviation search_key email := (_make_key ["search_email"; email]).

(** No entry in the cache, and the remote reports no user: the search
    stores the empty string and returns [None]. *)
Lemma search_no_hits (email : string) (w : world) (r : response search_body) :
  SimpleCache._cache (cache w) !! search_key email = None →
  search_users env (length (sent w)) email = Responds r →
  rate_limit_rejection r = false →
  (status_code r =? 200) && (0 <? default 0 (total_count (json r))) = false →
  search_user_by_email _make_key env email w
  = (Return None, searched env (search_key email) email r (VStr EmptyString) w).
Proof.
  intros Hcache Hans Hrl Hno. unfold search_user_by_email.
  assert (Hget : cache_get env (search_key email) w = (Return None, w)).
  { unfold cache_get. by rewrite Hcache. }
  rewrite (bind_Return _ _ _ _ _ Hget).
  erewrite bind_Return; [|rewrite request_eq, Hans; simpl; by rewrite Hrl].
  rewrite Hno. unfold_M. by rewrite cache_set_eq.
Qed.


(** An entry that has not expired: the search returns it, sends nothing
    and leaves the cache as it is. *)
Lemma search_cached (email : string) (w : world) (v : pyval) (expires_at : Z) :
  SimpleCache._cache (cache w) !! search_key email = Some (v, expires_at) →
  clock env (ticks w) < expires_at →
  search_user_by_email _make_key env email w = (Return (Some v), with_tick w).
Proof.
  intros Hcache Hlt. unfold search_user_by_email.
  assert (Hget : cache_get env (search_key email) w = (Return (Some v), with_tick w)).
  { unfold cache_get. rewrite Hcache.
    by rewrite (cache_get_hit _ _ _ _ _ Hcache Hlt). }
  by rewrite (bind_Return _ _ _ _ _ Hget).
Qed.

Lemma resolve_email (query : string) (w : world) :
  PyStr.contains "@" (_extract_username query) = true →
  resolve_username _make_key env query w
  = (resolved (_extract_username query)
       (fst (search_user_by_email _make_key env (_extract_username query) w)),
     snd (search_user_by_email _make_key env (_extract_username query) w)).
Proof.
  intros Hat. unfold resolve_username. rewrite Hat.
  destruct (search_user_by_email _ _ _ w) as [[found|e|] w'] eqn:Hs; simpl.
  - rewrite (bind_Return _ _ _ _ _ Hs). by destruct (hit_truthy found).
  - by rewrite (bind_Raise _ _ _ _ _ Hs).
  - by rewrite (bind_OutOfFuel _ _ _ _ Hs).
Qed.

Lemma resolve_plain (query : string) (w : world) :
  PyStr.contains "@" (_extract_username query) = false →
  resolve_username _make_key env query w = (Return (VStr (_extract_username query)), w).
Proof. intros Hat. unfold resolve_username. by rewrite Hat. Qed.



(** Repeated calls that find the same unexpired entry all return it. *)
Lemma search_cached_repeat (email : string) (v : pyval) (expires_at : Z) (n : nat) :
  ∀ w : world,
    SimpleCache._cache (cache w) !! search_key email = Some (v, expires_at) →
    (∀ j : nat, (j < n)%nat → clock env (ticks w + j) < expires_at) →
    fst (repeat_call (search_user_by_email _make_key env email) n w)
    = replicate n (Return (Some v)).
Proof.
  induction n as [|n IH]; intros w Hcache Hclock; [done|].
  simpl. rewrite (search_cached email w v expires_at Hcache).
  2:{ specialize (Hclock 0%nat). rewrite Nat.add_0_r in Hclock. apply Hclock. lia. }
  specialize (IH (with_tick w)).
  destruct (repeat_call _ n (with_tick w)) as [rs w''] eqn:Hrep. simpl in *.
  f_equal. apply IH; [done|].
  intros j Hj. replace (S (ticks w + j)) with (ticks w + S j)%nat by lia.
  apply Hclock. lia.
Qed.

(** Successive calls of [resolve_username] on an email query give the
    results of the same calls of the search, each passed through
    [resolved]. *)
Lemma resolve_repeat (query : string) (n : nat) :
  PyStr.contains "@" (_extract_username query) = true →
  ∀ w : world,
    fst (repeat_call (resolve_username _make_key env query) n w)
    = map (resolved (_extract_username query))
        (fst (repeat_call (search_user_by_email _make_key env (_extract_username query)) n w)).
Proof.
  intros Hat. induction n as [|n IH]; intros w; [done|].
  simpl. rewrite (resolve_email query w Hat).
  destruct (search_user_by_email _ _ _ w) as [r w'] eqn:Hs. simpl.
  specialize (IH w').
  destruct (repeat_call (resolve_username _ _ _) n w') as [rs1 w1].
  destruct (repeat_call (search_user_by_email _ _ _) n w') as [rs2 w2].
  simpl in *. by rewrite IH.
Qed.

(** C10: the cache holds nothing for the email, and the remote reports no
    user.  Then of [1 + n] successive searches, the later ones made before
    the entry expires, the first returns [None] and every later one the
    cached empty string; and [1 + n] successive calls of [resolve_username]
    on a query that stands for this email all raise the [ValueError] that
    names the email. *)
Theorem negative_search_is_cached (email : string) (w : world)
    (r : response search_body) (n : nat) :
  SimpleCache._cache (cache w) !! search_key email = None →
  search_users env (length (sent w)) email = Responds r →
  rate_limit_rejection r = false →
  (status_code r =? 200) && (0 <? default 0 (total_count (json r))) = false →
  (∀ j : nat, (1 ≤ j ≤ n)%nat →
     clock env (ticks w + j)
     < clock env (ticks w) + SimpleCache.timedelta (SimpleCache.default_ttl (cache w))) →
  fst (repeat_call (search_user_by_email _make_key env email) (S n) w)
  = Return None :: replicate n (Return (Some (VStr EmptyString)))
  ∧ ∀ query : string,
      _extract_username query = email → PyStr.contains "@" email = true →
      fst (repeat_call (resolve_username _make_key env query) (S n) w)
      = replicate (S n) (Raise (ValueError (not_found_message email))).
Proof.
  intros Hcache Hans Hrl Hno Hclock.
  assert (Hsearch : fst (repeat_call (search_user_by_email _make_key env email) (S n) w)
                    = Return None :: replicate n (Return (Some (VStr EmptyString)))).
  { simpl. rewrite (search_no_hits email w r Hcache Hans Hrl Hno).
    set (w1 := searched env (search_key email) email r (VStr EmptyString) w).
    pose proof (search_cached_repeat email (VStr EmptyString)
                  (clock env (ticks w)
                   + SimpleCache.timedelta (SimpleCache.default_ttl (cache w))) n w1) as Hrep.
    destruct (repeat_call _ n w1) as [rs w2]. simpl in *. f_equal.
    apply Hrep.
    - unfold w1, searched. simpl. apply lookup_insert_eq.
    - intros j Hj. unfold w1, searched. simpl.
      replace (S (ticks w + j)) with (ticks w + S j)%nat by lia.
      apply Hclock. lia. }
  split; [exact Hsearch|].
  intros query Hq Hat. rewrite resolve_repeat by (by rewrite Hq).
  rewrite Hq, Hsearch. simpl. f_equal.
  clear. induction n as [|n IH]; [done|]. simpl. by rewrite IH.
Qed.

End Resolver.

Lemma negative_search_is_cached_witness :
  fst (repeat_call (search_user_by_email Sample.join_key Sample.quiet "foo@example.com")
         3 initial_world)
  = [Return None; Return (Some (VStr EmptyString)); Return (Some (VStr EmptyString))]
  ∧ ∀ query : string,
      _extract_username query = "foo@example.com"%string →
      PyStr.contains "@" "foo@example.com" = true →
      fst (repeat_call (resolve_username Sample.join_key Sample.quiet query) 3 initial_world)
      = replicate 3 (Raise (ValueError (not_found_message "foo@example.com"))).
Proof.
  apply (negative_search_is_cached Sample.join_key Sample.quiet "foo@example.com"
           initial_world
           {| status_code := 200; reason_phrase := "OK"; text := EmptyString;
              x_ratelimit_remaining := Some 59; x_ratelimit_reset := Some 1700003600;
              json := {| total_count := Some 0; items := [] |} |} 2).
  - reflexivity.
  - reflexivity.
  - reflexivity.
  - reflexivity.
  - intros j Hj. reflexivity.
Defined.




(** ** Fan-out of the language lookups *)

(** As soon as one gathered result is an exception, the comprehension
    raises [TypeError]: the item is unpacked before the filter is reached. *)
Lemma comprehension_raises (results : list (string * pyval + exn)) :
  (∃ e, inr e ∈ results) →
  ∀ acc, ∃ e, inr e ∈ results
    ∧ comprehension results acc
      = Raise (TypeError ("cannot unpack non-iterable " +:+ class_name e +:+ " object")).
Proof.
  induction results as [|[[name langs]|e] results IH]; intros [e' He'] acc.
  - by apply elem_of_nil in He'.
  - apply elem_of_cons in He' as [He'|He']; [done|].
    destruct (IH (ex_intro _ e' He') (<[name := langs]> acc)) as (e & He & Hc).
    exists e. split; [apply elem_of_cons; by right|done].
  - exists e. split; [apply elem_of_cons; by left|done].
Qed.

(** Without an exception among the results the comprehension returns the
    map of the fetched pairs. *)
Lemma comprehension_returns (pairs : list (string * pyval)) (acc : gmap string pyval) :
  comprehension (map inl pairs) acc
  = Return (fold_left (λ m p, <[fst p := snd p]> m) pairs acc).
Proof.
  revert acc. induction pairs as [|[name langs] pairs IH]; intros acc; [done|].
  simpl. apply IH.
Qed.

(** Whenever one of the gathered lookups has raised,
    [get_multiple_repo_languages] raises [TypeError]. *)
Lemma get_multiple_repo_languages_raises (_make_key : list string → string)
    (env : environment) (username : string) (repo_names : list string) (w w' : world)
    (results : list (string * pyval + exn)) :
  gather (map (fetch_one _make_key env username) repo_names) w = (Return results, w') →
  (∃ e, inr e ∈ results) →
  ∃ msg, get_multiple_repo_languages _make_key env username repo_names w
         = (Raise (TypeError msg), w').
Proof.
  intros Hg Hexn. unfold get_multiple_repo_languages.
  rewrite (bind_Return _ _ _ _ _ Hg). unfold lift.
  destruct (comprehension_raises results Hexn ∅) as (e & _ & ->). eauto.
Qed.

(** C1 on the code: twenty lookups, of which the third, ninth and
    fifteenth requests fail.  The gathered results hold 17 fetched pairs
    and 3 exceptions, and [get_multiple_repo_languages] does not return a
    map of 17 entries: it raises [TypeError]. *)
Theorem partial_failure_raises :
  let tasks := map (fetch_one Sample.join_key Sample.flaky "octocat") Sample.twenty_repos in
  (∃ results,
     fst (gather tasks initial_world) = Return results
     ∧ length (List.filter (λ r, match r with inl _ => true | inr _ => false end) results)
       = 17%nat
     ∧ length (List.filter (λ r, match r with inl _ => false | inr _ => true end) results)
       = 3%nat)
  ∧ fst (get_multiple_repo_languages Sample.join_key Sample.flaky "octocat"
           Sample.twenty_repos initial_world)
    = Raise (TypeError "cannot unpack non-iterable TransportError object").
Proof.
  cbv zeta. split.
  - eexists. split; [vm_compute; reflexivity|]. split; vm_compute; reflexivity.
  - vm_compute. reflexivity.
Qed.

(** ** Rate limiting *)

(** A rejection for rate limiting makes [_request] raise a plain
    [Exception] whose message carries the whole seconds until the reset,
    or the generic message when the reset instant is unknown. *)
Lemma request_rate_limited {A} (env : environment) (req : request)
    (answer : nat → outcome A) (w : world) (r : response A) :
  answer (length (sent w)) = Responds r →
  rate_limit_rejection r = true →
  fst (_request env req answer w)
  = Raise (Exception
             (if default 0 (x_ratelimit_reset r) =? 0 then rate_limit_message_unknown
              else rate_limit_message
                     (Z.quot (default 0 (x_ratelimit_reset r) * 1000000
                              - clock env (ticks w)) 1000000))).
Proof.
  intros Hans Hrl. rewrite request_eq, Hans. simpl. rewrite Hrl. simpl.
  by destruct (default 0 (x_ratelimit_reset r) =? 0).
Qed.

Lemma prefix_nil (s : string) : String.prefix EmptyString s = true.
Proof. by destruct s. Qed.

Lemma prefix_app (n a b : string) :
  String.prefix n a = true → String.prefix n (a +:+ b) = true.
Proof.
  revert a. induction n as [|c n IH]; intros a H; [apply prefix_nil|].
  destruct a as [|c' a]; [discriminate|]. simpl in *.
  destruct (ascii_dec c c'); [by apply IH|discriminate].
Qed.

Lemma contains_cons (n : string) (c : ascii) (s : string) :
  PyStr.contains n (String c s) = String.prefix n (String c s) || PyStr.contains n s.
Proof. reflexivity. Qed.

Lemma contains_prefix (n s : string) :
  String.prefix n s = true → PyStr.contains n s = true.
Proof.
  intros H. destruct s as [|c s].
  - change (String.prefix n EmptyString || false = true). by rewrite H.
  - by rewrite contains_cons, H.
Qed.

Lemma contains_app_l (n a b : string) :
  PyStr.contains n a = true → PyStr.contains n (a +:+ b) = true.
Proof.
  induction a as [|c a IH].
  - change (String.prefix n EmptyString || false = true → PyStr.contains n b = true).
    rewrite orb_false_r. intros H. apply contains_prefix.
    by apply (prefix_app n EmptyString b).
  - change (String c a +:+ b) with (String c (a +:+ b)).
    rewrite !contains_cons. intros H. apply orb_true_iff in H as [H|H].
    + pose proof (prefix_app n (String c a) b H) as H'.
      change (String c a +:+ b) with (String c (a +:+ b)) in H'. by rewrite H'.
    + rewrite (IH H). apply orb_true_r.
Qed.

Lemma contains_app_r (n a b : string) :
  PyStr.contains n b = true → PyStr.contains n (a +:+ b) = true.
Proof.
  intros H. induction a as [|c a IH]; [done|].
  change (String c a +:+ b) with (String c (a +:+ b)).
  rewrite contains_cons, IH. apply orb_true_r.
Qed.

(** The endpoint answers a rate-limit error whose count of seconds has
    "404" among its digits (404, 1404, 2404, 3404, ...) like an unknown
    account, whatever the query. *)
Lemma on_error_rate_limit_404 (query : string) (seconds : Z) :
  PyStr.contains "404" (PyStr.of_int seconds) = true →
  Router.on_error query (Exception (rate_limit_message seconds))
  = Router.HTTPException 404 ("GitHub user not found: " +:+ query).
Proof.
  intros H. unfold Router.on_error. simpl is_ValueError. cbv iota.
  assert (Hmsg : PyStr.contains "404" (str (Exception (rate_limit_message seconds))) = true).
  { unfold rate_limit_message. simpl str.
    apply contains_app_r, contains_app_l, H. }
  by rewrite Hmsg.
Qed.

(** Any other rate-limit error is answered with status 500 and its
    message. *)
Lemma on_error_rate_limit_other (query : string) (seconds : Z) :
  PyStr.contains "404" (rate_limit_message seconds) = false →
  Router.on_error query (Exception (rate_limit_message seconds))
  = Router.HTTPException 500 ("Error analyzing profile: " +:+ rate_limit_message seconds).
Proof. intros H. unfold Router.on_error, is_ValueError, str. by rewrite H. Qed.

(** C5 on the code: the account lookup for ["torvalds"] is rejected for
    rate limiting 404 seconds before the quota resets.  The client raises
    the rate-limit error with its seconds, and the endpoint turns it into
    the reply it gives for an account that does not exist (status 404,
    "GitHub user not found"); with 403 seconds to go the reply is the
    status 500 with the rate-limit message. *)
Theorem rate_limit_reported_as_not_found :
  fst (get_user Sample.join_key (Sample.throttled 404) "torvalds" initial_world)
  = Raise (Exception (rate_limit_message 404))
  ∧ fst (Router.analyze_profile Sample.join_key (Sample.throttled 404) 5 "torvalds"
           initial_world)
    = Return (Router.HTTPException 404 "GitHub user not found: torvalds")
  ∧ fst (Router.analyze_profile Sample.join_key Sample.nobody 5 "torvalds" initial_world)
    = Return (Router.HTTPException 404 "GitHub user not found: torvalds")
  ∧ fst (Router.analyze_profile Sample.join_key (Sample.throttled 403) 5 "torvalds"
           initial_world)
    = Return (Router.HTTPException 500
                ("Error analyzing profile: " +:+ rate_limit_message 403)).
Proof. repeat split; vm_compute; reflexivity. Qed.

(** ** Determinism of the metrics engine *)







(** * Further properties of the code *)

(** ** Insertion-ordered dictionaries *)

Lemma py_sum_cons (x : Z) (l : list Z) : Py.sum (x :: l) = x + Py.sum l.
Proof. rewrite !py_sum_foldr. reflexivity. Qed.

Lemma py_sum_app (l1 l2 : list Z) : Py.sum (l1 ++ l2) = Py.sum l1 + Py.sum l2.
Proof.
  induction l1 as [|x l1 IH]; simpl; [by rewrite py_sum_foldr|].
  rewrite !py_sum_cons, IH. lia.
Qed.

Lemma py_sum_perm (l1 l2 : list Z) : l1 ≡ₚ l2 → Py.sum l1 = Py.sum l2.
Proof.
  induction 1 as [|x l l' _ IH|x y l|l l' l'' _ IH1 _ IH2].
  - done.
  - by rewrite !py_sum_cons, IH.
  - rewrite !py_sum_cons. lia.
  - congruence.
Qed.

Lemma py_sum_nonneg (l : list Z) : Forall (λ x, 0 ≤ x) l → 0 ≤ Py.sum l.
Proof.
  induction 1 as [|x l Hx _ IH]; [by rewrite py_sum_foldr|].
  rewrite py_sum_cons. lia.
Qed.

Lemma py_sum_elem_le (l : list Z) (x : Z) :
  Forall (λ y, 0 ≤ y) l → In x l → x ≤ Py.sum l.
Proof.
  induction 1 as [|y l Hy Hl IH]; intros Hin; [done|].
  rewrite py_sum_cons. pose proof (py_sum_nonneg l Hl).
  destruct Hin as [->|Hin]; [lia|]. specialize (IH Hin). lia.
Qed.

Section Dict.
Context {A B : Type}.
Variable eqb : A → A → bool.
Hypothesis eqb_spec : ∀ x y, eqb x y = true ↔ x = y.

Lemma eqb_case (x y : A) : (x = y ∧ eqb x y = true) ∨ (x ≠ y ∧ eqb x y = false).
Proof.
  destruct (eqb x y) eqn:E.
  - left. split; [by apply eqb_spec|done].
  - right. split; [|done]. intros ->. by rewrite (proj2 (eqb_spec y y) eq_refl) in E.
Qed.

Lemma assoc_nil (k : A) : assoc (B:=B) eqb k [] = None.
Proof. reflexivity. Qed.

Lemma assoc_cons (k k0 : A) (v0 : B) (d : list (A * B)) :
  assoc eqb k ((k0, v0) :: d) = if eqb k0 k then Some v0 else assoc eqb k d.
Proof. unfold assoc. simpl. by destruct (eqb k0 k). Qed.

(** Looking up after an update. *)
Lemma eqb_sym (x y : A) : eqb x y = eqb y x.
Proof.
  destruct (eqb_case x y) as [[-> E]|[N E]]; [done|]. rewrite E.
  by destruct (eqb_case y x) as [[-> _]|[_ ->]].
Qed.

Lemma assoc_dict_update (k q : A) (dflt : B) (f : B → B) (d : list (A * B)) :
  assoc eqb q (Py.dict_update eqb k dflt f d)
  = if eqb q k then Some (f (default dflt (assoc eqb k d))) else assoc eqb q d.
Proof.
  induction d as [|[k0 v0] d IH]; simpl.
  - rewrite assoc_cons, assoc_nil, (eqb_sym k q). done.
  - destruct (eqb_case k0 k) as [[-> E0]|[N0 E0]]; rewrite E0.
    + rewrite !assoc_cons, E0, (eqb_sym k q). simpl. by destruct (eqb q k).
    + rewrite !assoc_cons, E0, IH.
      destruct (eqb_case k0 q) as [[<- E1]|[N1 E1]]; rewrite E1; [|done].
      by rewrite E0.
Qed.

(** The keys after an update: the same, or one more at the end. *)
Lemma dict_update_keys (k : A) (dflt : B) (f : B → B) (d : list (A * B)) :
  ((k ∈ map fst d) ∧ (map fst (Py.dict_update eqb k dflt f d) = map fst d))
  ∨ ((k ∉ map fst d) ∧ (map fst (Py.dict_update eqb k dflt f d) = map fst d ++ [k])).
Proof.
  induction d as [|[k0 v0] d IH]; simpl.
  - right. split; [apply not_elem_of_nil|done].
  - destruct (eqb_case k0 k) as [[-> E0]|[N0 E0]]; rewrite E0; simpl.
    + left. split; [apply elem_of_cons; by left|done].
    + destruct IH as [[Hin ->]|[Hnin ->]].
      * left. split; [apply elem_of_cons; by right|done].
      * right. split; [|done]. intros [?|?]%elem_of_cons; done.
Qed.

Lemma dict_update_NoDup (k : A) (dflt : B) (f : B → B) (d : list (A * B)) :
  NoDup (map fst d) → NoDup (map fst (Py.dict_update eqb k dflt f d)).
Proof.
  intros Hnd. destruct (dict_update_keys k dflt f d) as [[_ ->]|[Hnin ->]]; [done|].
  apply NoDup_app. split; [done|]. split; [|apply NoDup_singleton].
  intros x Hx Hk. apply list_elem_of_singleton in Hk. by subst.
Qed.

Lemma elem_of_map_fst (k : A) (v : B) (d : list (A * B)) : (k, v) ∈ d → k ∈ map fst d.
Proof.
  intros H. apply list_elem_of_In, in_map_iff. exists (k, v).
  split; [done|by apply list_elem_of_In].
Qed.

Lemma assoc_elem_of (k : A) (v : B) (d : list (A * B)) :
  assoc eqb k d = Some v → (k, v) ∈ d.
Proof.
  induction d as [|[k0 v0] d IH]; [done|]. rewrite assoc_cons.
  destruct (eqb_case k0 k) as [[-> E]|[N E]]; rewrite E.
  - intros [= ->]. apply elem_of_cons. by left.
  - intros H. apply elem_of_cons. right. auto.
Qed.

Lemma elem_of_assoc (k : A) (v : B) (d : list (A * B)) :
  NoDup (map fst d) → (k, v) ∈ d → assoc eqb k d = Some v.
Proof.
  induction d as [|[k0 v0] d IH]; [by intros _ ?%elem_of_nil|]. simpl. intros Hnd Hin.
  apply NoDup_cons in Hnd as [Hk0 Hnd]. rewrite assoc_cons.
  apply elem_of_cons in Hin as [[= -> ->]|Hin].
  - by rewrite (proj2 (eqb_spec k0 k0) eq_refl).
  - destruct (eqb_case k0 k) as [[-> E]|[N E]]; rewrite E; [|auto].
    exfalso. apply Hk0. by apply (elem_of_map_fst k v).
Qed.

Lemma assoc_None (k : A) (d : list (A * B)) :
  assoc eqb k d = None ↔ k ∉ map fst d.
Proof.
  induction d as [|[k0 v0] d IH]; simpl.
  - rewrite assoc_nil. split; [intros _; apply not_elem_of_nil|done].
  - rewrite assoc_cons, not_elem_of_cons.
    destruct (eqb_case k0 k) as [[-> E]|[N E]]; rewrite E.
    + split; [done|]. by intros [? _].
    + rewrite IH. split; [intros H; split; [congruence|done]|by intros [_ ?]].
Qed.

(** A quantity that every update raises by [delta], and that is 0 on the
    default value, sums over the dictionary to [delta] more. *)
Lemma dict_update_sum (g : B → Z) (delta : Z) (k : A) (dflt : B) (f : B → B)
    (d : list (A * B)) :
  (∀ v, g (f v) = g v + delta) → g dflt = 0 →
  Py.sum (map (λ kv, g (snd kv)) (Py.dict_update eqb k dflt f d))
  = Py.sum (map (λ kv, g (snd kv)) d) + delta.
Proof.
  intros Hf Hd. induction d as [|[k0 v0] d IH]; simpl.
  - rewrite py_sum_cons, Hf, Hd. rewrite !py_sum_foldr. simpl. lia.
  - destruct (eqb k0 k); simpl; rewrite !py_sum_cons; simpl.
    + rewrite Hf. lia.
    + rewrite IH. lia.
Qed.

End Dict.

(** ** Sorting *)

Section SortedOrder.
Context {A : Type}.
Variable key : A → Z.

Lemma insert_sorted_descending (x : A) (l : list A) :
  descending key l → descending key (Py.insert_sorted (λ y x, key x <? key y) x l).
Proof.
  induction l as [|y l IH]; simpl; [done|]. intros [Hy Hl].
  destruct (key x <? key y) eqn:E.
  - apply Z.ltb_lt in E. simpl. split; [|auto].
    rewrite insert_sorted_perm. constructor; [lia|done].
  - apply Z.ltb_ge in E. simpl. split; [|done].
    constructor; [done|]. eapply Forall_impl; [exact Hy|]. simpl. intros z Hz. lia.
Qed.

Lemma sorted_desc_descending (l : list A) : descending key (Py.sorted_desc key l).
Proof.
  induction l as [|x l IH]; simpl; [done|].
  by apply insert_sorted_descending.
Qed.

Lemma descending_take (n : nat) (l : list A) : descending key l → descending key (take n l).
Proof.
  revert n. induction l as [|x l IH]; intros [|n]; simpl; try done.
  intros [Hx Hl]. split; [by apply Forall_take|auto].
Qed.

Lemma insert_sorted_ascending (x : A) (l : list A) :
  strictly_ascending key l → key x ∉ map key l →
  strictly_ascending key (Py.insert_sorted (λ y x, key y <? key x) x l).
Proof.
  induction l as [|y l IH]; simpl; [done|]. intros [Hy Hl] Hx.
  apply not_elem_of_cons in Hx as [Hxy Hx].
  destruct (key y <? key x) eqn:E.
  - apply Z.ltb_lt in E. simpl. split; [|auto].
    rewrite insert_sorted_perm. constructor; [lia|done].
  - apply Z.ltb_ge in E. simpl. split; [|done].
    constructor; [lia|]. eapply Forall_impl; [exact Hy|]. simpl. intros z Hz. lia.
Qed.

Lemma map_perm {B} (f : A → B) (l l' : list A) : l ≡ₚ l' → map f l ≡ₚ map f l'.
Proof. induction 1; simpl; [done|by constructor|apply Permutation_swap|by etrans]. Qed.

Lemma sorted_asc_ascending (l : list A) :
  NoDup (map key l) → strictly_ascending key (Py.sorted_asc key l).
Proof.
  induction l as [|x l IH]; simpl; [done|]. intros [Hx Hl]%NoDup_cons.
  apply insert_sorted_ascending; [by apply IH|].
  pose proof (sorted_perm (λ y x, key y <? key x) l) as Hp. unfold Py.sorted in Hp.
  by rewrite (map_perm key _ _ Hp).
Qed.

End SortedOrder.

Lemma descending_map {A B} (f : A → B) (key : A → Z) (key' : B → Z) (l : list A) :
  (∀ x, key' (f x) = key x) → descending key l → descending key' (map f l).
Proof.
  intros Hk. induction l as [|x l IH]; simpl; [done|]. intros [Hx Hl].
  split; [|auto]. rewrite Hk. clear -Hx Hk.
  induction Hx; simpl; constructor; [by rewrite Hk|done].
Qed.

Lemma strictly_ascending_map {A B} (f : A → B) (key : A → Z) (key' : B → Z) (l : list A) :
  (∀ x, key' (f x) = key x) → strictly_ascending key l → strictly_ascending key' (map f l).
Proof.
  intros Hk. induction l as [|x l IH]; simpl; [done|]. intros [Hx Hl].
  split; [|auto]. rewrite Hk. clear -Hx Hk.
  induction Hx; simpl; constructor; [by rewrite Hk|done].
Qed.

(** ** Language aggregation, continued *)

Lemma string_eqb_spec (x y : string) : String.eqb x y = true ↔ x = y.
Proof. apply String.eqb_eq. Qed.

Lemma lang_bytes_cons (lang k : string) (n : Z) (m : LanguageByteMap) :
  lang_bytes lang ((k, n) :: m)
  = if String.eqb k lang then n + lang_bytes lang m else lang_bytes lang m.
Proof.
  unfold lang_bytes. simpl. destruct (String.eqb k lang); [|done].
  simpl. by rewrite py_sum_cons.
Qed.

Lemma mentions_cons (lang k : string) (n : Z) (m : LanguageByteMap) :
  mentions lang ((k, n) :: m) = String.eqb k lang || mentions lang m.
Proof. reflexivity. Qed.

Lemma lang_bytes_unmentioned (lang : string) (m : LanguageByteMap) :
  mentions lang m = false → lang_bytes lang m = 0.
Proof.
  induction m as [|[k n] m IH]; [done|].
  rewrite mentions_cons, lang_bytes_cons. intros [-> Hm]%orb_false_iff. auto.
Qed.

(** The accumulator after the byte map of one repository. *)
Lemma assoc_add_map (lang : string) (m : LanguageByteMap) (tb : list (string * Z)) :
  assoc String.eqb lang
    (fold_left (λ tb lb, Py.dict_update String.eqb (fst lb) 0 (λ v, v + snd lb) tb) m tb)
  = if mentions lang m then Some (default 0 (assoc String.eqb lang tb) + lang_bytes lang m)
    else assoc String.eqb lang tb.
Proof.
  revert tb. induction m as [|[k n] m IH]; intros tb; [done|].
  simpl fold_left. rewrite IH, (assoc_dict_update _ string_eqb_spec).
  rewrite mentions_cons, lang_bytes_cons. simpl fst. simpl snd.
  rewrite (String.eqb_sym k lang).
  destruct (String.eqb lang k) eqn:E; simpl.
  - apply String.eqb_eq in E. subst k.
    destruct (mentions lang m) eqn:Em; apply (f_equal Some); simpl; [lia|].
    rewrite (lang_bytes_unmentioned _ _ Em). lia.
  - done.
Qed.

Lemma total_bytes_fetched (repos : list Repo.t) (repo_languages : gmap string LanguageByteMap) :
  ProfileAnalyzer.total_bytes repos repo_languages
  = fold_left
      (λ tb m, fold_left (λ tb lb, Py.dict_update String.eqb (fst lb) 0 (λ v, v + snd lb) tb)
                 m tb)
      (fetched_maps repos repo_languages) [].
Proof.
  unfold ProfileAnalyzer.total_bytes, fetched_maps.
  generalize (@nil (string * Z)) as tb.
  induction repos as [|r repos IH]; intros tb; simpl; [done|].
  destruct (repo_languages !! Repo.name r); simpl; apply IH.
Qed.

Lemma lang_bytes_unmentioned_all (lang : string) (maps : list LanguageByteMap) :
  existsb (mentions lang) maps = false → Py.sum (map (lang_bytes lang) maps) = 0.
Proof.
  induction maps as [|m maps IH]; simpl; [by rewrite py_sum_foldr|].
  intros [Hm Hmaps]%orb_false_iff.
  rewrite py_sum_cons, (lang_bytes_unmentioned _ _ Hm), IH; done.
Qed.

Lemma assoc_add_maps (lang : string) (maps : list LanguageByteMap) (tb : list (string * Z)) :
  assoc String.eqb lang
    (fold_left
       (λ tb m, fold_left (λ tb lb, Py.dict_update String.eqb (fst lb) 0 (λ v, v + snd lb) tb)
                  m tb) maps tb)
  = if existsb (mentions lang) maps
    then Some (default 0 (assoc String.eqb lang tb) + Py.sum (map (lang_bytes lang) maps))
    else assoc String.eqb lang tb.
Proof.
  revert tb. induction maps as [|m maps IH]; intros tb; [done|].
  simpl fold_left. rewrite IH, assoc_add_map. simpl. rewrite py_sum_cons.
  destruct (mentions lang m) eqn:Em; simpl.
  - destruct (existsb _ maps) eqn:Emaps; apply (f_equal Some); simpl; [lia|].
    rewrite (lang_bytes_unmentioned_all _ _ Emaps). lia.
  - rewrite (lang_bytes_unmentioned _ _ Em).
    destruct (existsb _ maps); [apply (f_equal Some); lia|done].
Qed.

Lemma sum_add_map (m : LanguageByteMap) (tb : list (string * Z)) :
  Py.sum (map snd
    (fold_left (λ tb lb, Py.dict_update String.eqb (fst lb) 0 (λ v, v + snd lb) tb) m tb))
  = Py.sum (map snd tb) + Py.sum (map snd m).
Proof.
  revert tb. induction m as [|[k b] m IH]; intros tb; simpl fold_left.
  - simpl. rewrite (py_sum_foldr []). simpl. lia.
  - rewrite IH. simpl. rewrite py_sum_cons.
    assert (H : Py.sum (map snd (Py.dict_update String.eqb k 0 (λ v, v + b) tb))
                = Py.sum (map snd tb) + b)
      by exact (dict_update_sum String.eqb (λ v, v) b k 0 (λ v, v + b) tb
                  (λ v, eq_refl) eq_refl).
    rewrite H. lia.
Qed.

(** X1: the aggregation adds up per language.  For every language, the
    byte count that [_aggregate_languages] accumulates is the sum of the
    counts the fetched maps of the listed repositories give it (a
    repository listed twice counting twice), a language that no map names
    having no entry; and the grand total is the sum of all the counts. *)
Theorem total_bytes_per_language (repos : list Repo.t)
    (repo_languages : gmap string LanguageByteMap) (lang : string) :
  let maps := fetched_maps repos repo_languages in
  assoc String.eqb lang (ProfileAnalyzer.total_bytes repos repo_languages)
  = (if existsb (mentions lang) maps then Some (Py.sum (map (lang_bytes lang) maps))
     else None)
  ∧ Py.sum (map snd (ProfileAnalyzer.total_bytes repos repo_languages))
    = Py.sum (map (λ m, Py.sum (map snd m)) maps).
Proof.
  intros maps. rewrite total_bytes_fetched. fold maps. split.
  - rewrite assoc_add_maps. simpl. by destruct (existsb _ maps).
  - assert (G : ∀ tb, Py.sum (map snd (fold_left
        (λ tb m, fold_left (λ tb lb, Py.dict_update String.eqb (fst lb) 0 (λ v, v + snd lb) tb)
                   m tb) maps tb))
      = Py.sum (map snd tb) + Py.sum (map (λ m, Py.sum (map snd m)) maps)).
    { clear. induction maps as [|m maps IH]; intros tb; simpl fold_left.
      - simpl. rewrite (py_sum_foldr []). simpl. lia.
      - rewrite IH, sum_add_map. simpl. rewrite py_sum_cons. lia. }
    rewrite G. simpl. change (Py.sum []) with 0. lia.
Qed.

Lemma total_bytes_NoDup (repos : list Repo.t) (repo_languages : gmap string LanguageByteMap) :
  NoDup (map fst (ProfileAnalyzer.total_bytes repos repo_languages)).
Proof.
  rewrite total_bytes_fetched.
  assert (Hin : ∀ m tb, NoDup (map fst tb) →
    NoDup (map fst (fold_left
      (λ tb lb, Py.dict_update String.eqb (fst lb) 0 (λ v, v + snd lb) tb) m tb))).
  { induction m as [|lb m IH]; intros tb Htb; simpl; [done|].
    apply IH. by apply (dict_update_NoDup _ string_eqb_spec). }
  assert (Hout : ∀ maps tb, NoDup (map fst tb) →
    NoDup (map fst (fold_left
      (λ tb m, fold_left (λ tb lb, Py.dict_update String.eqb (fst lb) 0 (λ v, v + snd lb) tb)
                 m tb) maps tb))).
  { induction maps as [|m maps IH]; intros tb Htb; simpl; [done|]. apply IH. by apply Hin. }
  apply Hout. constructor.
Qed.

Lemma total_bytes_nonneg (repos : list Repo.t) (repo_languages : gmap string LanguageByteMap) :
  (∀ name m, repo_languages !! name = Some m → Forall (λ kv, 0 ≤ snd kv) m) →
  Forall (λ kv, 0 ≤ snd kv) (ProfileAnalyzer.total_bytes repos repo_languages).
Proof.
  intros Hnn. unfold ProfileAnalyzer.total_bytes.
  assert (Hup : ∀ k n tb, 0 ≤ n → Forall (λ kv : string * Z, 0 ≤ snd kv) tb →
    Forall (λ kv : string * Z, 0 ≤ snd kv)
      (Py.dict_update String.eqb k 0 (λ v, v + n) tb)).
  { intros k n tb Hn. induction 1 as [|[k0 v0] tb Hv Htb IH]; simpl.
    - constructor; [simpl; lia|done].
    - simpl in Hv. destruct (String.eqb k0 k); constructor; simpl; [lia|done|lia|done]. }
  assert (Hin : ∀ m tb, Forall (λ kv : string * Z, 0 ≤ snd kv) m →
    Forall (λ kv : string * Z, 0 ≤ snd kv) tb →
    Forall (λ kv : string * Z, 0 ≤ snd kv) (fold_left
      (λ tb lb, Py.dict_update String.eqb (fst lb) 0 (λ v, v + snd lb) tb) m tb)).
  { induction m as [|lb m IH]; intros tb Hm Htb; simpl; [done|].
    inversion Hm; subst. apply IH; [done|]. by apply Hup. }
  cut (∀ tb, Forall (λ kv : string * Z, 0 ≤ snd kv) tb →
    Forall (λ kv : string * Z, 0 ≤ snd kv)
      (fold_left
         (λ tb repo,
            match repo_languages !! Repo.name repo with
            | Some langs =>
                fold_left
                  (λ tb lb, Py.dict_update String.eqb (fst lb) 0 (λ v, v + snd lb) tb)
                  langs tb
            | None => tb
            end) repos tb)).
  { intros G. apply G. constructor. }
  induction repos as [|r repos IH]; intros tb Htb; simpl; [done|].
  destruct (repo_languages !! Repo.name r) as [m|] eqn:E; [|by apply IH].
  apply IH. apply Hin; [by eapply Hnn|done].
Qed.

Lemma language_stat_fields (total : Z) (lb : string * Z) :
  LanguageStat.name (ProfileAnalyzer.language_stat total lb) = fst lb
  ∧ LanguageStat.bytes (ProfileAnalyzer.language_stat total lb) = snd lb.
Proof. by destruct lb. Qed.

Lemma map_take {A B} (f : A → B) (n : nat) (l : list A) : map f (take n l) = take n (map f l).
Proof. revert n. induction l as [|x l IH]; intros [|n]; simpl; by rewrite ?IH. Qed.

Lemma NoDup_take {A} (n : nat) (l : list A) : NoDup l → NoDup (take n l).
Proof. intros H. eapply sublist_NoDup; [exact H|apply sublist_take]. Qed.

Lemma descending_app_le {A} (key : A → Z) (l1 l2 : list A) (a b : A) :
  descending key (l1 ++ l2) → a ∈ l1 → b ∈ l2 → key b ≤ key a.
Proof.
  induction l1 as [|x l1 IH]; simpl; [by intros _ ?%elem_of_nil|].
  intros [Hx Hl] Ha Hb. apply elem_of_cons in Ha as [->|Ha]; [|eauto].
  rewrite Forall_forall in Hx. apply Hx, elem_of_app. by right.
Qed.

(** X2: the list of [_aggregate_languages] has at most ten entries (all of
    them when there are at most ten languages), in non-increasing order of
    byte count, with pairwise distinct names; each entry carries the byte
    count accumulated for its language, and no language left out has more
    bytes than one that is kept. *)
Theorem aggregate_languages_top_ten (repos : list Repo.t)
    (repo_languages : gmap string LanguageByteMap) :
  let tb := ProfileAnalyzer.total_bytes repos repo_languages in
  let languages := ProfileAnalyzer._aggregate_languages repos repo_languages in
  length languages = Nat.min 10 (length tb)
  ∧ descending LanguageStat.bytes languages
  ∧ NoDup (map LanguageStat.name languages)
  ∧ Forall (λ s, assoc String.eqb (LanguageStat.name s) tb = Some (LanguageStat.bytes s))
      languages
  ∧ ∀ s lang n,
      s ∈ languages → (lang, n) ∈ tb → lang ∉ map LanguageStat.name languages →
      n ≤ LanguageStat.bytes s.
Proof.
  intros tb languages.
  set (total := ProfileAnalyzer.total_or_1 tb).
  set (sorted := Py.sorted_desc snd tb).
  assert (Hperm : sorted ≡ₚ tb) by apply sorted_perm.
  assert (Hdesc : descending snd sorted) by apply sorted_desc_descending.
  assert (Hnd : NoDup (map fst sorted)).
  { rewrite (map_perm fst _ _ Hperm). apply total_bytes_NoDup. }
  assert (Hl : languages = map (ProfileAnalyzer.language_stat total) (take 10 sorted)).
  { unfold languages, ProfileAnalyzer._aggregate_languages. fold tb total sorted.
    by rewrite map_take. }
  assert (Hnames : map LanguageStat.name languages = map fst (take 10 sorted)).
  { rewrite Hl, map_map. apply map_ext. intros lb. apply language_stat_fields. }
  split; [|split; [|split; [|split]]].
  - rewrite Hl, length_map, length_take, (Permutation_length Hperm). done.
  - rewrite Hl. apply (descending_map _ snd); [intros lb; apply language_stat_fields|].
    by apply descending_take.
  - rewrite Hnames, map_take. by apply NoDup_take.
  - rewrite Hl. apply Forall_forall. intros s Hs.
    apply list_elem_of_In, in_map_iff in Hs as ([k n] & <- & Hin). simpl.
    apply (elem_of_assoc _ string_eqb_spec); [apply total_bytes_NoDup|].
    rewrite <- Hperm. apply list_elem_of_In in Hin.
    eapply elem_of_sublist; [exact Hin|apply sublist_take].
  - intros s lang n Hs Hin Hout. rewrite Hnames in Hout.
    rewrite Hl in Hs. apply list_elem_of_In, in_map_iff in Hs as ([k m] & <- & Hs).
    simpl. apply list_elem_of_In in Hs.
    rewrite <- Hperm, <- (take_drop 10 sorted) in Hin.
    apply elem_of_app in Hin as [Hin|Hin].
    + exfalso. apply Hout. by apply (elem_of_map_fst lang n).
    + rewrite <- (take_drop 10 sorted) in Hdesc.
      apply (descending_app_le snd _ _ (k, m) (lang, n) Hdesc Hs Hin).
Qed.

(** X3: when no byte count is negative, every percentage of
    [_aggregate_languages] lies between 0 and 100. *)
Theorem aggregate_languages_percentage_range (repos : list Repo.t)
    (repo_languages : gmap string LanguageByteMap) :
  (∀ name m, repo_languages !! name = Some m → Forall (λ kv, 0 ≤ snd kv) m) →
  Forall (λ s, (0 <= LanguageStat.percentage s <= 100)%Q)
    (ProfileAnalyzer._aggregate_languages repos repo_languages).
Proof.
  intros Hnn. unfold ProfileAnalyzer._aggregate_languages.
  set (tb := ProfileAnalyzer.total_bytes repos repo_languages).
  pose proof (total_bytes_nonneg repos repo_languages Hnn) as Htb. fold tb in Htb.
  apply Forall_take, Forall_forall. intros s Hs.
  apply list_elem_of_In, in_map_iff in Hs as ([k n] & <- & Hin).
  apply list_elem_of_In in Hin.
  pose proof (sorted_perm (λ y x : string * Z, snd x <? snd y) tb) as Hperm.
  unfold Py.sorted_desc in Hin. rewrite Hperm in Hin.
  rewrite percentage_language_stat. unfold exact_share. simpl snd.
  assert (Hn : 0 ≤ n).
  { rewrite Forall_forall in Htb. by apply (Htb (k, n)). }
  assert (Hle : n ≤ Py.sum (map snd tb)).
  { apply py_sum_elem_le.
    - clear -Htb. induction Htb; simpl; constructor; done.
    - apply in_map_iff. exists (k, n). split; [done|by apply list_elem_of_In]. }
  assert (Htotal : n ≤ ProfileAnalyzer.total_or_1 tb ∧ 0 < ProfileAnalyzer.total_or_1 tb).
  { unfold ProfileAnalyzer.total_or_1.
    destruct (Z.eqb_spec (Py.sum (map snd tb)) 0); lia. }
  destruct Htotal as [Hnt Hpos].
  set (total := ProfileAnalyzer.total_or_1 tb) in *.
  assert (Hq : (0 < inject_Z total)%Q).
  { change 0%Q with (inject_Z 0). by rewrite <- Zlt_Qlt. }
  apply (py_round_1_bounds 0 100).
  - change (inject_Z 0) with 0%Q. apply Qmult_le_0_compat; [|done].
    apply Qle_shift_div_l; [done|]. rewrite Qmult_0_l.
    change 0%Q with (inject_Z 0). by rewrite <- Zle_Qle.
  - change (inject_Z 100) with 100%Q.
    assert (H1 : (inject_Z n / inject_Z total <= 1)%Q).
    { apply Qle_shift_div_r; [done|]. rewrite Qmult_1_l. by rewrite <- Zle_Qle. }
    lra.
Qed.

(** ** Top repositories *)

(** X4: [_get_top_repos] returns [limit] highlights, or one per repository
    when there are fewer, in non-increasing order of stars; each is built
    from a repository of the list, and every repository with more stars
    than a highlight shown is shown too. *)
Theorem top_repos_by_stars (repos : list Repo.t) (limit : nat) :
  let top := ProfileAnalyzer._get_top_repos repos limit in
  length top = Nat.min limit (length repos)
  ∧ descending RepoHighlight.stars top
  ∧ (∀ h, h ∈ top → ∃ r, r ∈ repos ∧ h = highlight_of r)
  ∧ (∀ h r, h ∈ top → r ∈ repos →
       RepoHighlight.stars h < Repo.stargazers_count r → highlight_of r ∈ top).
Proof.
  intros top.
  set (sorted := Py.sorted_desc Repo.stargazers_count repos).
  assert (Hperm : sorted ≡ₚ repos) by apply sorted_perm.
  assert (Hdesc : descending Repo.stargazers_count sorted) by apply sorted_desc_descending.
  assert (Htop : top = map highlight_of (take limit sorted)) by reflexivity.
  split; [|split; [|split]].
  - by rewrite Htop, length_map, length_take, (Permutation_length Hperm).
  - rewrite Htop. apply (descending_map _ Repo.stargazers_count); [done|].
    by apply descending_take.
  - intros h Hh. rewrite Htop in Hh.
    apply list_elem_of_In, in_map_iff in Hh as (r & <- & Hr). exists r. split; [|done].
    rewrite <- Hperm. apply list_elem_of_In in Hr.
    eapply elem_of_sublist; [exact Hr|apply sublist_take].
  - intros h r Hh Hr Hlt. rewrite Htop in Hh |- *.
    apply list_elem_of_In, in_map_iff in Hh as (r0 & <- & Hr0). simpl in Hlt.
    apply list_elem_of_In in Hr0.
    rewrite <- Hperm, <- (take_drop limit sorted) in Hr.
    apply elem_of_app in Hr as [Hr|Hr].
    + apply list_elem_of_In, in_map_iff. exists r. split; [done|by apply list_elem_of_In].
    + rewrite <- (take_drop limit sorted) in Hdesc.
      pose proof (descending_app_le Repo.stargazers_count _ _ r0 r Hdesc Hr0 Hr). lia.
Qed.

(** ** Activity pattern, continued *)

Section Mode.
Context {A : Type}.
Variable eqb : A → A → bool.
Hypothesis eqb_spec : ∀ x y, eqb x y = true ↔ x = y.

Lemma occurrences_cons (q x : A) (l : list A) :
  occurrences eqb q (x :: l) = (if eqb q x then 1 else 0) + occurrences eqb q l.
Proof.
  unfold occurrences, Py.len. simpl. destruct (eqb q x); simpl; lia.
Qed.

Lemma occurrences_nonneg (q : A) (l : list A) : 0 ≤ occurrences eqb q l.
Proof. unfold occurrences, Py.len. lia. Qed.

Lemma occurrences_absent (q : A) (l : list A) :
  existsb (eqb q) l = false → occurrences eqb q l = 0.
Proof.
  induction l as [|x l IH]; [done|]. simpl. rewrite occurrences_cons.
  intros [-> Hl]%orb_false_iff. rewrite IH; done.
Qed.

Lemma existsb_elem_of (q : A) (l : list A) : existsb (eqb q) l = true ↔ q ∈ l.
Proof.
  rewrite existsb_exists. split.
  - intros (x & Hx & E). apply eqb_spec in E as ->. by apply list_elem_of_In.
  - intros H. exists q. split; [by apply list_elem_of_In|by apply eqb_spec].
Qed.

(** What the counter holds for [q] after counting the elements of [l]. *)
Lemma assoc_count (q : A) (l : list A) (d : list (A * Z)) :
  assoc eqb q (fold_left (λ d x, Py.dict_update eqb x 0 (Z.add 1) d) l d)
  = if existsb (eqb q) l then Some (default 0 (assoc eqb q d) + occurrences eqb q l)
    else assoc eqb q d.
Proof.
  revert d. induction l as [|x l IH]; intros d; [done|].
  simpl fold_left. rewrite IH, (assoc_dict_update _ eqb_spec), occurrences_cons. simpl.
  destruct (eqb_case _ eqb_spec q x) as [[<- E]|[N E]]; rewrite E; simpl.
  - destruct (existsb (eqb q) l) eqn:El; apply (f_equal Some); [lia|].
    rewrite (occurrences_absent _ _ El). lia.
  - done.
Qed.

Lemma Counter_assoc (q : A) (l : list A) :
  assoc eqb q (Py.Counter eqb l)
  = if existsb (eqb q) l then Some (occurrences eqb q l) else None.
Proof. unfold Py.Counter. rewrite assoc_count. by destruct (existsb (eqb q) l). Qed.

Lemma Counter_NoDup (l : list A) : NoDup (map fst (Py.Counter eqb l)).
Proof.
  unfold Py.Counter.
  cut (∀ d : list (A * Z), NoDup (map fst d) →
         NoDup (map fst (fold_left (λ d x, Py.dict_update eqb x 0 (Z.add 1) d) l d))).
  { intros G. apply G. constructor. }
  induction l as [|x l IH]; intros d Hd; simpl; [done|].
  apply IH. by apply (dict_update_NoDup _ eqb_spec).
Qed.

Lemma first_max_spec (best : A * Z) (l : list (A * Z)) :
  Py.first_max best l ∈ best :: l
  ∧ ∀ p, p ∈ best :: l → snd p ≤ snd (Py.first_max best l).
Proof.
  revert best. induction l as [|x l IH]; intros best; simpl.
  - split; [apply elem_of_cons; by left|].
    intros p [->|[]%elem_of_nil]%elem_of_cons. lia.
  - destruct (snd best <? snd x) eqn:E.
    + apply Z.ltb_lt in E. destruct (IH x) as [Hin Hmax]. split.
      * apply elem_of_cons. by right.
      * intros p [->|Hp]%elem_of_cons; [|by apply Hmax].
        specialize (Hmax x (proj2 (elem_of_cons _ _ _) (or_introl eq_refl))). lia.
    + apply Z.ltb_ge in E. destruct (IH best) as [Hin Hmax]. split.
      * apply elem_of_cons in Hin as [->|Hin]; apply elem_of_cons; [by left|].
        right. apply elem_of_cons. by right.
      * intros p [->|[->|Hp]%elem_of_cons]%elem_of_cons.
        -- apply Hmax, elem_of_cons. by left.
        -- specialize (Hmax best (proj2 (elem_of_cons _ _ _) (or_introl eq_refl))). lia.
        -- apply Hmax, elem_of_cons. by right.
Qed.

(** The element [most_common(1)] names is an element of the list that
    occurs at least as often as any other. *)
Lemma most_common_is_mode (l : list A) (dflt : A) :
  l ≠ [] →
  let m := match Py.most_common_1 (Py.Counter eqb l) with
           | (x, _) :: _ => x
           | [] => dflt
           end in
  m ∈ l ∧ ∀ x, occurrences eqb x l ≤ occurrences eqb m l.
Proof.
  intros Hne. pose proof (Counter_NoDup l) as Hnd.
  destruct (Py.Counter eqb l) as [|c0 c] eqn:Ec.
  { exfalso. destruct l as [|x l]; [done|].
    pose proof (Counter_assoc x (x :: l)) as H. rewrite Ec in H. simpl in H.
    by rewrite (proj2 (eqb_spec x x) eq_refl) in H. }
  simpl. destruct (first_max_spec c0 c) as [Hin Hmax].
  destruct (Py.first_max c0 c) as [m n] eqn:Em. simpl in Hmax |- *.
  rewrite <- Ec in Hin, Hmax, Hnd.
  pose proof (elem_of_assoc _ eqb_spec m n _ Hnd Hin) as Hm.
  rewrite Counter_assoc in Hm.
  destruct (existsb (eqb m) l) eqn:Eml; [|done]. injection Hm as <-.
  split; [by apply existsb_elem_of|].
  intros x. destruct (existsb (eqb x) l) eqn:Ex.
  - pose proof (Counter_assoc x l) as Hx. rewrite Ex in Hx.
    apply (assoc_elem_of _ eqb_spec) in Hx. by apply (Hmax (x, occurrences eqb x l)).
  - rewrite (occurrences_absent _ _ Ex). apply occurrences_nonneg.
Qed.

End Mode.

Lemma Z_eqb_spec (x y : Z) : Z.eqb x y = true ↔ x = y.
Proof. apply Z.eqb_eq. Qed.

(** X5: when there are push events, the most active hour that
    [_analyze_activity] reports is one of the commit hours and no hour
    occurs more often among them; likewise for the most active day. *)
Theorem most_active_is_most_frequent (stats : ContributionStats.t) (repos : list Repo.t) :
  let activity := ProfileAnalyzer._analyze_activity stats repos in
  let hours := ContributionStats.commit_hours stats in
  let days := ContributionStats.commit_days stats in
  (hours ≠ [] →
   ActivityPattern.most_active_hour activity ∈ hours
   ∧ ∀ h, occurrences Z.eqb h hours
          ≤ occurrences Z.eqb (ActivityPattern.most_active_hour activity) hours)
  ∧ (days ≠ [] →
     ActivityPattern.most_active_day activity ∈ days
     ∧ ∀ d, occurrences String.eqb d days
            ≤ occurrences String.eqb (ActivityPattern.most_active_day activity) days).
Proof.
  intros activity hours days. split; intros Hne.
  - apply (most_common_is_mode Z.eqb Z_eqb_spec hours 12 Hne).
  - apply (most_common_is_mode String.eqb string_eqb_spec days "Monday"%string Hne).
Qed.

(** X6: for a non-negative number of push events the consistency score
    lies between 0 and 100, and it is 100 from 30 push events on; the
    yearly estimate is four times the number of push events. *)
Theorem consistency_score_range (stats : ContributionStats.t) (repos : list Repo.t) :
  let activity := ProfileAnalyzer._analyze_activity stats repos in
  let pushes := ContributionStats.total_push_events stats in
  0 ≤ pushes →
  (0 <= ActivityPattern.consistency_score activity <= 100)%Q
  ∧ (30 ≤ pushes → (ActivityPattern.consistency_score activity == 100)%Q)
  ∧ ActivityPattern.total_commits_last_year activity = 4 * pushes.
Proof.
  intros activity pushes Hp. unfold activity, ProfileAnalyzer._analyze_activity. simpl.
  fold pushes.
  assert (Hq : (0 <= inject_Z pushes)%Q).
  { change 0%Q with (inject_Z 0). by rewrite <- Zle_Qle. }
  set (x := (inject_Z pushes / 30 * 100)%Q).
  assert (Hx : (x == inject_Z pushes * (10 # 3))%Q) by (unfold x; field).
  split; [|split; [|lia]].
  - apply (py_round_1_bounds 0 100).
    + change (inject_Z 0) with 0%Q.
      destruct (Q.min_spec 100 x) as [[_ E]|[_ E]]; rewrite E; lra.
    + change (inject_Z 100) with 100%Q. apply Q.le_min_l.
  - intros H30.
    assert (H : (inject_Z 30 <= inject_Z pushes)%Q) by (by rewrite <- Zle_Qle).
    change (inject_Z 30) with 30%Q in H.
    assert (Hmin : (Qmin 100 x == 100)%Q).
    { destruct (Q.min_spec 100 x) as [[_ E]|[Hle E]]; rewrite E; [done|]. lra. }
    destruct (py_round_1_bounds 100 100 (Qmin 100 x)) as [H1 H2].
    + change (inject_Z 100) with 100%Q. lra.
    + change (inject_Z 100) with 100%Q. lra.
    + change (inject_Z 100) with 100%Q in *. lra.
Qed.

(** ** Growth timeline *)

Lemma py_sum_ones {A} (l : list A) : Py.sum (map (λ _, 1) l) = Py.len l.
Proof.
  unfold Py.len. induction l as [|x l IH]; [done|].
  simpl map. rewrite py_sum_cons, IH. simpl length. lia.
Qed.

Local Abbreviation year_default := {| ProfileAnalyzer.yd_repos := 0;
                                ProfileAnalyzer.yd_languages := [];
                                ProfileAnalyzer.yd_stars := 0 |}.

Local Abbreviation year_update := (λ yd repo,
  Py.dict_update Z.eqb (year (Repo.created_at repo)) year_default
    (ProfileAnalyzer.year_step repo) yd).

Lemma created_in_cons (y : Z) (r : Repo.t) (repos : list Repo.t) :
  created_in y (r :: repos)
  = if Z.eqb (year (Repo.created_at r)) y then r :: created_in y repos
    else created_in y repos.
Proof. reflexivity. Qed.

Lemma created_in_none (y : Z) (repos : list Repo.t) :
  existsb (λ r, Z.eqb (year (Repo.created_at r)) y) repos = false → created_in y repos = [].
Proof.
  induction repos as [|r repos IH]; [done|]. rewrite created_in_cons.
  simpl existsb. intros [-> H]%orb_false_iff. auto.
Qed.

(** A numeric field of the entry of year [y] that each repository of the
    year raises by its weight. *)
Lemma yearly_field (g : ProfileAnalyzer.year_data → Z) (weight : Repo.t → Z) (y : Z)
    (repos : list Repo.t) (yd : list (Z * ProfileAnalyzer.year_data)) :
  (∀ r e, g (ProfileAnalyzer.year_step r e) = g e + weight r) → g year_default = 0 →
  g <$> assoc Z.eqb y (fold_left year_update repos yd)
  = if existsb (λ r, Z.eqb (year (Repo.created_at r)) y) repos
    then Some (default 0 (g <$> assoc Z.eqb y yd) + Py.sum (map weight (created_in y repos)))
    else g <$> assoc Z.eqb y yd.
Proof.
  intros Hstep Hdflt. revert yd.
  induction repos as [|r repos IH]; intros yd; [done|].
  simpl fold_left. rewrite IH, (assoc_dict_update _ Z_eqb_spec), created_in_cons. simpl.
  rewrite (Z.eqb_sym (year (Repo.created_at r)) y).
  destruct (Z.eqb_spec y (year (Repo.created_at r))) as [->|N]; simpl; [|done].
  rewrite Hstep.
  assert (Hd : g (default year_default (assoc Z.eqb (year (Repo.created_at r)) yd))
               = default 0 (g <$> assoc Z.eqb (year (Repo.created_at r)) yd)).
  { by destruct (assoc Z.eqb (year (Repo.created_at r)) yd). }
  rewrite Hd.
  destruct (existsb _ repos) eqn:E; apply (f_equal Some).
  - rewrite py_sum_cons. lia.
  - rewrite (created_in_none _ _ E). rewrite py_sum_cons. change (Py.sum (map weight [])) with 0. lia.
Qed.

Lemma yearly_data_NoDup (repos : list Repo.t) :
  NoDup (map fst (ProfileAnalyzer.yearly_data repos)).
Proof.
  unfold ProfileAnalyzer.yearly_data.
  cut (∀ yd : list (Z * ProfileAnalyzer.year_data), NoDup (map fst yd) →
         NoDup (map fst (fold_left year_update repos yd))).
  { intros G. apply G. constructor. }
  induction repos as [|r repos IH]; intros yd Hyd; simpl; [done|].
  apply IH. by apply (dict_update_NoDup _ Z_eqb_spec).
Qed.

Lemma yearly_data_years (y : Z) (repos : list Repo.t) :
  y ∈ map fst (ProfileAnalyzer.yearly_data repos)
  ↔ existsb (λ r, Z.eqb (year (Repo.created_at r)) y) repos = true.
Proof.
  pose proof (yearly_field ProfileAnalyzer.yd_repos (λ _, 1) y repos []
                (λ r e, eq_refl) eq_refl) as H.
  fold (ProfileAnalyzer.yearly_data repos) in H.
  destruct (existsb _ repos) eqn:E.
  - split; [done|]. intros _.
    destruct (assoc Z.eqb y (ProfileAnalyzer.yearly_data repos)) as [e|] eqn:Ea; [|done].
    apply (assoc_elem_of _ Z_eqb_spec) in Ea. by apply (elem_of_map_fst y e).
  - split; [|done]. intros Hin. exfalso.
    destruct (assoc Z.eqb y (ProfileAnalyzer.yearly_data repos)) as [e|] eqn:Ea; [done|].
    by apply (assoc_None _ Z_eqb_spec) in Ea.
Qed.

(** X7: the growth timeline lists the years in strictly increasing order,
    one entry for each year in which a repository was created; the entry
    of a year counts the repositories created in it and adds up their
    stars. *)
Theorem growth_timeline_per_year (list_of_set : list string → list string)
    (repos : list Repo.t) :
  let timeline := ProfileAnalyzer._build_growth_timeline list_of_set repos in
  strictly_ascending GrowthTimeline.year timeline
  ∧ (∀ y, y ∈ map GrowthTimeline.year timeline
          ↔ ∃ r, r ∈ repos ∧ year (Repo.created_at r) = y)
  ∧ Forall (λ g,
      GrowthTimeline.repos_created g = Py.len (created_in (GrowthTimeline.year g) repos)
      ∧ GrowthTimeline.stars_earned g
        = ProfileAnalyzer.sum_stars (created_in (GrowthTimeline.year g) repos))
      timeline.
Proof.
  intros timeline.
  set (yd := ProfileAnalyzer.yearly_data repos).
  set (sorted := Py.sorted_asc fst yd).
  assert (Hperm : sorted ≡ₚ yd) by apply sorted_perm.
  assert (Hnd : NoDup (map fst yd)) by apply yearly_data_NoDup.
  assert (Hyears : map GrowthTimeline.year timeline = map fst sorted).
  { unfold timeline, ProfileAnalyzer._build_growth_timeline. fold yd sorted.
    rewrite map_map. by apply map_ext. }
  split; [|split].
  - unfold timeline, ProfileAnalyzer._build_growth_timeline. fold yd sorted.
    apply (strictly_ascending_map _ fst); [done|]. by apply sorted_asc_ascending.
  - intros y. rewrite Hyears, (map_perm fst _ _ Hperm).
    unfold yd. rewrite yearly_data_years, existsb_exists. split.
    + intros (r & Hr & E). exists r. split; [by apply list_elem_of_In|by apply Z.eqb_eq].
    + intros (r & Hr & E). exists r. split; [by apply list_elem_of_In|by apply Z.eqb_eq].
  - apply Forall_forall. intros g Hg.
    unfold timeline, ProfileAnalyzer._build_growth_timeline in Hg. fold yd sorted in Hg.
    apply list_elem_of_In, in_map_iff in Hg as ([y e] & <- & Hin). simpl.
    apply list_elem_of_In in Hin. rewrite Hperm in Hin.
    pose proof (elem_of_assoc _ Z_eqb_spec y e yd Hnd Hin) as Ha.
    assert (Hex : existsb (λ r, Z.eqb (year (Repo.created_at r)) y) repos = true).
    { apply yearly_data_years. by apply (elem_of_map_fst y e). }
    split.
    + pose proof (yearly_field ProfileAnalyzer.yd_repos (λ _, 1) y repos []
                    (λ r e, eq_refl) eq_refl) as H.
      fold (ProfileAnalyzer.yearly_data repos) in H. fold yd in H.
      rewrite Ha, Hex in H. simpl in H. injection H as ->. by rewrite py_sum_ones.
    + pose proof (yearly_field ProfileAnalyzer.yd_stars Repo.stargazers_count y repos []
                    (λ r e, eq_refl) eq_refl) as H.
      fold (ProfileAnalyzer.yearly_data repos) in H. fold yd in H.
      rewrite Ha, Hex in H. simpl in H. by injection H as ->.
Qed.

Lemma str_in_elem_of (x : string) (s : list string) :
  ProfileAnalyzer.str_in x s = true ↔ x ∈ s.
Proof. apply (existsb_elem_of String.eqb string_eqb_spec). Qed.

Lemma elem_of_set_add (x l : string) (s : list string) :
  x ∈ ProfileAnalyzer.set_add l s ↔ x = l ∨ x ∈ s.
Proof.
  unfold ProfileAnalyzer.set_add.
  destruct (ProfileAnalyzer.str_in l s) eqn:E.
  - apply str_in_elem_of in E. split; [by right|]. by intros [->|?].
  - rewrite elem_of_app, list_elem_of_singleton. tauto.
Qed.

Lemma set_add_NoDup (l : string) (s : list string) :
  NoDup s → NoDup (ProfileAnalyzer.set_add l s).
Proof.
  intros Hs. unfold ProfileAnalyzer.set_add.
  destruct (ProfileAnalyzer.str_in l s) eqn:E; [done|].
  apply NoDup_app. split; [done|]. split; [|apply NoDup_singleton].
  intros x Hx ->%list_elem_of_singleton.
  apply str_in_elem_of in Hx. congruence.
Qed.

Lemma languages_of_year_step (y : Z) (r : Repo.t)
    (yd : list (Z * ProfileAnalyzer.year_data)) :
  languages_of_year y (year_update yd r)
  = if Z.eqb (year (Repo.created_at r)) y
    then match Repo.language r with
         | Some l => if PyStr.truthy l
                     then ProfileAnalyzer.set_add l (languages_of_year y yd)
                     else languages_of_year y yd
         | None => languages_of_year y yd
         end
    else languages_of_year y yd.
Proof.
  unfold languages_of_year. rewrite (assoc_dict_update _ Z_eqb_spec).
  rewrite (Z.eqb_sym (year (Repo.created_at r)) y).
  destruct (Z.eqb_spec y (year (Repo.created_at r))) as [->|N]; [|done]. simpl.
  destruct (assoc Z.eqb (year (Repo.created_at r)) yd); simpl;
    destruct (Repo.language r) as [l|]; try done; by destruct (PyStr.truthy l).
Qed.

Lemma yearly_languages (y : Z) (l : string) (repos : list Repo.t)
    (yd : list (Z * ProfileAnalyzer.year_data)) :
  l ∈ languages_of_year y (fold_left year_update repos yd)
  ↔ l ∈ languages_of_year y yd
    ∨ ∃ r, r ∈ created_in y repos ∧ Repo.language r = Some l ∧ PyStr.truthy l = true.
Proof.
  revert yd. induction repos as [|r repos IH]; intros yd.
  - simpl. split; [by left|]. intros [?|(r & []%elem_of_nil & _)]. done.
  - simpl fold_left. rewrite IH, languages_of_year_step, created_in_cons.
    destruct (Z.eqb (year (Repo.created_at r)) y) eqn:Ey.
    + destruct (Repo.language r) as [l'|] eqn:El.
      * destruct (PyStr.truthy l') eqn:Et.
        -- rewrite elem_of_set_add. split.
           ++ intros [[->|?]|(r' & ? & ?)].
              ** right. exists r. split; [apply elem_of_cons; by left|done].
              ** by left.
              ** right. exists r'. split; [apply elem_of_cons; by right|done].
           ++ intros [?|(r' & [->|?]%elem_of_cons & Hl & Ht)].
              ** left. by right.
              ** left. left. congruence.
              ** right. by exists r'.
        -- split.
           ++ intros [?|(r' & ? & ?)]; [by left|].
              right. exists r'. split; [apply elem_of_cons; by right|done].
           ++ intros [?|(r' & [->|?]%elem_of_cons & Hl & Ht)]; [by left| |].
              ** congruence.
              ** right. by exists r'.
      * split.
        -- intros [?|(r' & ? & ?)]; [by left|].
           right. exists r'. split; [apply elem_of_cons; by right|done].
        -- intros [?|(r' & [->|?]%elem_of_cons & Hl & Ht)]; [by left| |].
           ** congruence.
           ** right. by exists r'.
    + done.
Qed.

Lemma yearly_languages_NoDup (y : Z) (repos : list Repo.t)
    (yd : list (Z * ProfileAnalyzer.year_data)) :
  NoDup (languages_of_year y yd) →
  NoDup (languages_of_year y (fold_left year_update repos yd)).
Proof.
  revert yd. induction repos as [|r repos IH]; intros yd Hyd; [done|].
  simpl fold_left. apply IH. rewrite languages_of_year_step.
  destruct (Z.eqb _ y); [|done].
  destruct (Repo.language r) as [l|]; [|done].
  destruct (PyStr.truthy l); [by apply set_add_NoDup|done].
Qed.

(** X8: when listing a set gives its elements once each,
    [languages_used] of a year holds, without repetition, exactly the
    non-empty primary languages of the repositories created in that
    year. *)
Theorem growth_timeline_languages (list_of_set : list string → list string)
    (repos : list Repo.t) :
  (∀ s, list_of_set s ≡ₚ s) →
  Forall (λ g,
      NoDup (GrowthTimeline.languages_used g)
      ∧ ∀ l, l ∈ GrowthTimeline.languages_used g
             ↔ ∃ r, r ∈ created_in (GrowthTimeline.year g) repos
                    ∧ Repo.language r = Some l ∧ PyStr.truthy l = true)
    (ProfileAnalyzer._build_growth_timeline list_of_set repos).
Proof.
  intros Hset. apply Forall_forall. intros g Hg.
  unfold ProfileAnalyzer._build_growth_timeline in Hg.
  apply list_elem_of_In, in_map_iff in Hg as ([y e] & <- & Hin). simpl.
  apply list_elem_of_In in Hin.
  pose proof (sorted_perm (λ a b : Z * ProfileAnalyzer.year_data, fst a <? fst b)
                (ProfileAnalyzer.yearly_data repos)) as Hperm.
  unfold Py.sorted_asc in Hin. rewrite Hperm in Hin.
  pose proof (elem_of_assoc _ Z_eqb_spec y e _ (yearly_data_NoDup repos) Hin) as Ha.
  assert (He : ProfileAnalyzer.yd_languages e
               = languages_of_year y (ProfileAnalyzer.yearly_data repos)).
  { unfold languages_of_year. by rewrite Ha. }
  split.
  - rewrite Hset, He. apply yearly_languages_NoDup. unfold languages_of_year. simpl.
    constructor.
  - intros l. rewrite Hset, He. unfold ProfileAnalyzer.yearly_data.
    rewrite yearly_languages. unfold languages_of_year. simpl.
    split; [intros [[]%elem_of_nil|?]; done|by right].
Qed.

(** ** Focus areas *)

Lemma map_filter_sublist {A B} (f : A → B) (p : A → bool) (l : list A) :
  map f (List.filter p l) `sublist_of` map f l.
Proof.
  induction l as [|x l IH]; simpl; [constructor|].
  destruct (p x); simpl; by constructor.
Qed.

(** X9: [_detect_focus_areas] returns at most three areas, in the order of
    the table [FOCUS_PATTERNS]; each is an area of the table one of whose
    languages is among the first five language names; and languages after
    the fifth do not matter. *)
Theorem focus_areas_from_table (languages : list LanguageStat.t) :
  let areas := ProfileAnalyzer._detect_focus_areas languages in
  (length areas ≤ 3)%nat
  ∧ areas `sublist_of` map fst ProfileAnalyzer.FOCUS_PATTERNS
  ∧ (∀ area, area ∈ areas →
       ∃ area_languages n,
         (area, area_languages) ∈ ProfileAnalyzer.FOCUS_PATTERNS
         ∧ n ∈ map LanguageStat.name (take 5 languages)
         ∧ n ∈ area_languages)
  ∧ areas = ProfileAnalyzer._detect_focus_areas (take 5 languages).
Proof.
  intros areas. unfold areas, ProfileAnalyzer._detect_focus_areas.
  set (names := map LanguageStat.name (take 5 languages)).
  set (qualifies := λ p : string * list string,
         existsb (λ n, ProfileAnalyzer.str_in n (snd p)) names).
  split; [|split; [|split]].
  - rewrite length_take. lia.
  - etrans; [apply sublist_take|apply map_filter_sublist].
  - intros area Ha.
    assert (Hin : area ∈ map fst (List.filter qualifies ProfileAnalyzer.FOCUS_PATTERNS)).
    { eapply elem_of_sublist; [exact Ha|apply sublist_take]. }
    apply list_elem_of_In, in_map_iff in Hin as ([a ls] & <- & Hf).
    apply filter_In in Hf as [Hp Hq]. unfold qualifies in Hq. simpl in Hq.
    apply existsb_exists in Hq as (n & Hn & Hs).
    exists ls, n. split; [by apply list_elem_of_In|].
    split; [by apply list_elem_of_In|by apply str_in_elem_of].
  - by rewrite take_take.
Qed.

(** ** Experience level *)

(** X10: the experience level never drops when the score or the account
    age grows, the repositories staying the same; a score of 70 or more
    gives "Expert", and an account with fewer than five repositories and a
    score below 30 is "Junior" whatever its age. *)
Theorem experience_level_monotone (account_age account_age' : Q) (repos : list Repo.t)
    (score score' : Q) :
  (score <= score')%Q → (account_age <= account_age')%Q →
  level_rank (ProfileAnalyzer._determine_experience_level account_age repos score)
  ≤ level_rank (ProfileAnalyzer._determine_experience_level account_age' repos score')
  ∧ ((70 <= score)%Q →
     ProfileAnalyzer._determine_experience_level account_age repos score = "Expert"%string)
  ∧ ((score < 30)%Q → Py.len repos < 5 →
     ProfileAnalyzer._determine_experience_level account_age repos score = "Junior"%string).
Proof.
  intros Hs Ha. unfold ProfileAnalyzer._determine_experience_level.
  assert (M : ∀ c x y, (x <= y)%Q → Qle_bool c x = true → Qle_bool c y = true).
  { intros c x y Hxy. rewrite !Qle_bool_iff. lra. }
  assert (T : ∀ c c' x, (c' <= c)%Q → Qle_bool c x = true → Qle_bool c' x = true).
  { intros c c' x Hc. rewrite !Qle_bool_iff. lra. }
  pose proof (M 70%Q _ _ Hs) as S70. pose proof (M 50%Q _ _ Hs) as S50.
  pose proof (M 30%Q _ _ Hs) as S30.
  pose proof (M 5%Q _ _ Ha) as A5. pose proof (M 3%Q _ _ Ha) as A3.
  pose proof (M 1%Q _ _ Ha) as A1.
  split; [|split].
  - set (E := Qle_bool 70 score || Qle_bool 5 account_age && (30 <=? Py.len repos)).
    set (S := Qle_bool 50 score || Qle_bool 3 account_age && (15 <=? Py.len repos)).
    set (J := Qle_bool 30 score || Qle_bool 1 account_age && (5 <=? Py.len repos)).
    set (E' := Qle_bool 70 score' || Qle_bool 5 account_age' && (30 <=? Py.len repos)).
    set (S' := Qle_bool 50 score' || Qle_bool 3 account_age' && (15 <=? Py.len repos)).
    set (J' := Qle_bool 30 score' || Qle_bool 1 account_age' && (5 <=? Py.len repos)).
    assert (HE : E = true → E' = true).
    { unfold E, E'. intros [H|[H1 H2]%andb_true_iff]%orb_true_iff; apply orb_true_iff;
        [left; by apply S70|right; apply andb_true_iff; split; [by apply A5|done]]. }
    assert (HS : S = true → S' = true).
    { unfold S, S'. intros [H|[H1 H2]%andb_true_iff]%orb_true_iff; apply orb_true_iff;
        [left; by apply S50|right; apply andb_true_iff; split; [by apply A3|done]]. }
    assert (HJ : J = true → J' = true).
    { unfold J, J'. intros [H|[H1 H2]%andb_true_iff]%orb_true_iff; apply orb_true_iff;
        [left; by apply S30|right; apply andb_true_iff; split; [by apply A1|done]]. }
    clearbody E S J E' S' J'.
    destruct E, S, J, E', S', J'; simpl; try (by vm_compute);
      try (by discriminate (HE eq_refl)); try (by discriminate (HS eq_refl));
      by discriminate (HJ eq_refl).
  - intros H70. apply Qle_bool_iff in H70. by rewrite H70.
  - intros H30 Hlen.
    assert (B70 : Qle_bool 70 score = false).
    { destruct (Qle_bool 70 score) eqn:E; [|done]. apply Qle_bool_iff in E. lra. }
    assert (B50 : Qle_bool 50 score = false).
    { destruct (Qle_bool 50 score) eqn:E; [|done]. apply Qle_bool_iff in E. lra. }
    assert (B30 : Qle_bool 30 score = false).
    { destruct (Qle_bool 30 score) eqn:E; [|done]. apply Qle_bool_iff in E. lra. }
    assert (L30 : (30 <=? Py.len repos) = false) by (apply Z.leb_gt; lia).
    assert (L15 : (15 <=? Py.len repos) = false) by (apply Z.leb_gt; lia).
    assert (L5 : (5 <=? Py.len repos) = false) by (apply Z.leb_gt; lia).
    rewrite B70, B50, B30, L30, L15, L5. simpl. by rewrite !andb_false_r.
Qed.

(** ** Narrative summary *)

Lemma append_nil_r (s : string) : s +:+ EmptyString = s.
Proof.
  induction s as [|c s IH]; [done|].
  change (String c s +:+ EmptyString) with (String c (s +:+ EmptyString)). by rewrite IH.
Qed.

Lemma append_assoc (a b c : string) : (a +:+ b) +:+ c = a +:+ (b +:+ c).
Proof.
  induction a as [|x a IH]; [done|].
  change ((String x a +:+ b) +:+ c) with (String x ((a +:+ b) +:+ c)). by rewrite IH.
Qed.

Lemma join_empty_cons (x : string) (l : list string) :
  PyStr.join EmptyString (x :: l) = x +:+ PyStr.join EmptyString l.
Proof.
  unfold PyStr.join. destruct l as [|y l]; simpl; [by rewrite append_nil_r|done].
Qed.

Lemma join_empty_app (l1 l2 : list string) :
  PyStr.join EmptyString (l1 ++ l2)
  = PyStr.join EmptyString l1 +:+ PyStr.join EmptyString l2.
Proof.
  induction l1 as [|x l1 IH]; [done|].
  change ((x :: l1) ++ l2) with (x :: (l1 ++ l2)).
  by rewrite !join_empty_cons, IH, append_assoc.
Qed.

Lemma display_name_eq (user : User.t) :
  (if ProfileAnalyzer.opt_truthy (User.name user)
   then default EmptyString (User.name user) else User.login user)
  = display_name user.
Proof.
  unfold display_name, ProfileAnalyzer.opt_truthy.
  destruct (User.name user) as [n|]; [|done]. simpl. by destruct (PyStr.truthy n).
Qed.

(** X11: every summary starts with the display name (the profile name, or
    the login when the name is missing or empty) and the lower-cased level,
    and ends with the most active day and the time-of-day label of the most
    active hour: morning before 12, afternoon before 18, evening
    otherwise. *)
Theorem summary_frame (user : User.t) (languages : list LanguageStat.t)
    (repos : list Repo.t) (activity : ActivityPattern.t)
    (collaboration : CollaborationMetrics.t) (experience_level : string)
    (focus_areas : list string) (account_age : Q) :
  ∃ middle : string,
    ProfileAnalyzer._generate_summary user languages repos activity collaboration
      experience_level focus_areas account_age
    = (display_name user +:+ " is a " +:+ PyStr.lower experience_level
       +:+ "-level developer")
      +:+ middle
      +:+ ("Most active on " +:+ ActivityPattern.most_active_day activity +:+ "s")
      +:+ coder_label (ActivityPattern.most_active_hour activity)
      +:+ ".".
Proof.
  unfold ProfileAnalyzer._generate_summary. rewrite display_name_eq.
  repeat rewrite join_empty_app.
  rewrite !join_empty_cons. unfold PyStr.join at 1. simpl String.concat at 1.
  change (PyStr.join EmptyString []) with EmptyString. rewrite !append_nil_r.
  match goal with
  | |- ∃ m, _ +:+ ?J1 +:+ ?J2 +:+ ?D +:+ ?J4 +:+ ?J5 +:+ ?J6 +:+ _ = _ =>
      exists (J1 +:+ J2 +:+ D +:+ J4 +:+ J5 +:+ J6)
  end.
  rewrite !append_assoc. reflexivity.
Qed.

(** ** The whole analysis on an account without repositories *)

(** X12: with no repositories the analysis has no languages, no primary
    language, a technology diversity of 0, no top repositories, no stars
    or forks, an empty growth timeline and no focus areas; when moreover
    there are no push events, no followers and no organizations, the
    overall score is 0 and the level is "Junior", whatever the age of the
    account. *)
Theorem analyze_without_repositories (list_of_set : list string → list string)
    (now : Z) (user : User.t) (repo_languages : gmap string LanguageByteMap)
    (contribution_stats : ContributionStats.t) (orgs : list string) :
  let a := ProfileAnalyzer.analyze list_of_set now user [] repo_languages
             contribution_stats orgs in
  (ProfileAnalysis.languages a = []
   ∧ ProfileAnalysis.primary_language a = None
   ∧ ProfileAnalysis.tech_diversity_score a = 0%Q
   ∧ ProfileAnalysis.top_repos a = []
   ∧ ProfileAnalysis.total_stars a = 0
   ∧ ProfileAnalysis.total_forks a = 0
   ∧ ProfileAnalysis.growth_timeline a = []
   ∧ ProfileAnalysis.focus_areas a = [])
  ∧ (ContributionStats.total_push_events contribution_stats = 0 →
     User.followers user = 0 → orgs = [] →
     ProfileAnalysis.overall_score a = 0%Q
     ∧ ProfileAnalysis.experience_level a = "Junior"%string).
Proof.
  intros a. split; [by repeat split|].
  intros Hpush Hfol ->. unfold a, ProfileAnalyzer.analyze. simpl.
  assert (Hscore : ProfileAnalyzer._calculate_overall_score user []
            (ProfileAnalyzer._aggregate_languages [] repo_languages)
            (ProfileAnalyzer._analyze_activity contribution_stats [])
            (ProfileAnalyzer._calculate_collaboration user []) = 0%Q).
  { unfold ProfileAnalyzer._calculate_overall_score, ProfileAnalyzer.activity_score,
      ProfileAnalyzer.engagement_score, ProfileAnalyzer._analyze_activity,
      ProfileAnalyzer._calculate_collaboration. simpl. rewrite Hpush, Hfol.
    reflexivity. }
  rewrite Hscore. split; [done|].
  unfold ProfileAnalyzer._determine_experience_level. simpl.
  by rewrite !andb_false_r.
Qed.

(** ** Collaboration metrics and account age *)





(** X14: for an account created at or before the instant of the analysis
    the age is not negative and within 0.05 of the whole days elapsed
    divided by 365.25; under one day it is 0. *)
Theorem account_age_from_days (now : Z) (created_at : datetime) :
  timestamp created_at ≤ now →
  let days := (now - timestamp created_at) / 86400000000 in
  let age := ProfileAnalyzer._calculate_account_age now created_at in
  (0 <= age)%Q
  ∧ (Qabs (age - inject_Z days / 365.25) <= 1 # 20)%Q
  ∧ (now - timestamp created_at < 86400000000 → (age == 0)%Q).
Proof.
  intros Hle days age. unfold age, ProfileAnalyzer._calculate_account_age. fold days.
  assert (Hd : 0 ≤ days) by (apply Z.div_pos; lia).
  assert (Hq : (0 <= inject_Z days)%Q).
  { change 0%Q with (inject_Z 0). by rewrite <- Zle_Qle. }
  assert (Hx : (inject_Z days / 365.25 == inject_Z days * (100 # 36525))%Q) by field.
  split; [|split].
  - rewrite py_round_1_eq.
    assert (Hr : 0 ≤ round_half_even (inject_Z days / 365.25 * 10)).
    { apply round_half_even_ge. change (inject_Z 0) with 0%Q. lra. }
    rewrite Zle_Qle in Hr. change (inject_Z 0) with 0%Q in Hr. lra.
  - apply py_round_1_error.
  - intros Hday. assert (days = 0) as ->.
    { unfold days. apply Z.div_small. lia. }
    reflexivity.
Qed.

(** ** The endpoint always replies *)

Lemma settles_ret {A} (a : A) : settles (mret a).
Proof. by intros w. Qed.

Lemma settles_raise {A} (e : exn) : settles (raise (A:=A) e).
Proof. by intros w. Qed.

Lemma settles_bind {A B} (m : M A) (f : A → M B) :
  settles m → (∀ a, settles (f a)) → settles (m ≫= f).
Proof.
  intros Hm Hf w. specialize (Hm w). unfold_M.
  destruct (m w) as [[a| |] w']; simpl in *; [apply Hf|done|done].
Qed.

Lemma settles_lift {A} (r : result A) : r ≠ OutOfFuel → settles (lift r).
Proof. by intros H w. Qed.

Section Settles.

Variable _make_key : list string → string.
Variable env : environment.

Lemma settles_now : settles (now env).
Proof. by intros w. Qed.

Lemma settles_cache_get (key : string) : settles (cache_get env key).
Proof. intros w. by destruct (cache_get_cases env key w) as (o & w0 & -> & _). Qed.

Lemma settles_cache_set (key : string) (v : pyval) (ttl : option Z) :
  settles (cache_set env key v ttl).
Proof. by intros w. Qed.

Lemma settles_request {A} (req : request) (answer : nat → outcome A) :
  settles (_request env req answer).
Proof.
  intros w. destruct (_request env req answer w) as [res w'] eqn:H.
  destruct (request_cases env _ _ _ _ _ H) as (_ & _ & [(r & _ & _ & -> & _)|[e ->]]); done.
Qed.

Lemma settles_raise_for_status {A} (req : request) (r : response A) :
  settles (raise_for_status req r).
Proof. unfold raise_for_status. destruct (_ && _); by intros w. Qed.

End Settles.

#[local] Hint Resolve settles_ret settles_raise settles_bind settles_now settles_cache_get
  settles_cache_set settles_request settles_raise_for_status : settles.
#[local] Hint Extern 2 (settles (if ?b then _ else _)) => destruct b : settles.
#[local] Hint Extern 2 (settles (match ?x with _ => _ end)) => destruct x : settles.

Section SettlesService.

Variable _make_key : list string → string.
Variable env : environment.

Lemma settles_search (email : string) : settles (search_user_by_email _make_key env email).
Proof. unfold search_user_by_email. cbv zeta. auto 30 with settles. Qed.

Lemma settles_resolve (query : string) : settles (resolve_username _make_key env query).
Proof. unfold resolve_username. cbv zeta. pose proof settles_search. auto 30 with settles. Qed.

Lemma settles_get_user (username : string) : settles (get_user _make_key env username).
Proof. unfold get_user, fetch_user. cbv zeta. auto 30 with settles. Qed.

Lemma settles_fetch_repos (fuel : nat) (key username : string) (per_page : Z) :
  (5 ≤ fuel)%nat → settles (fetch_repos env fuel key username per_page).
Proof.
  intros Hfuel w. destruct (fetch_repos env fuel key username per_page w) as [res w'] eqn:H.
  by destruct (fetch_repos_spec env username per_page fuel key w w' res Hfuel H).
Qed.

Lemma settles_fetch_events (fuel : nat) (key username : string) (per_page : Z) :
  (3 ≤ fuel)%nat → settles (fetch_events env fuel key username per_page).
Proof.
  intros Hfuel w. destruct (fetch_events env fuel key username per_page w) as [res w'] eqn:H.
  by destruct (fetch_events_spec env username per_page fuel key w w' res Hfuel H).
Qed.

Lemma settles_get_repos (fuel : nat) (username : string) (per_page : Z) :
  (5 ≤ fuel)%nat → settles (get_repos _make_key env fuel username per_page).
Proof.
  intros Hfuel. pose proof (settles_fetch_repos fuel) as Hf.
  unfold get_repos. cbv zeta. auto 30 with settles.
Qed.

Lemma settles_get_events (fuel : nat) (username : string) (per_page : Z) :
  (3 ≤ fuel)%nat → settles (get_events _make_key env fuel username per_page).
Proof.
  intros Hfuel. pose proof (settles_fetch_events fuel) as Hf.
  unfold get_events. cbv zeta. auto 30 with settles.
Qed.

Lemma settles_get_orgs (username : string) : settles (get_orgs _make_key env username).
Proof. unfold get_orgs. cbv zeta. auto 30 with settles. Qed.

Lemma settles_get_repo_languages (username repo_name : string) :
  settles (get_repo_languages _make_key env username repo_name).
Proof. unfold get_repo_languages. cbv zeta. auto 30 with settles. Qed.

Lemma settles_gather {A} (tasks : list (M A)) : Forall settles tasks → settles (gather tasks).
Proof.
  induction 1 as [|task tasks Ht _ IH]; [by intros w|].
  intros w. simpl. specialize (Ht w).
  destruct (task w) as [[a|e|] w']; simpl in *; [| |done].
  - apply (settles_bind (gather tasks) (λ results, mret (inl a :: results)) IH).
    intros ?. apply settles_ret.
  - apply (settles_bind (gather tasks) (λ results, mret (inr e :: results)) IH).
    intros ?. apply settles_ret.
Qed.

Lemma comprehension_settles (results : list (string * pyval + exn)) (acc : gmap string pyval) :
  comprehension results acc ≠ OutOfFuel.
Proof.
  revert acc. induction results as [|[[name langs]|e] results IH]; intros acc; simpl; auto.
Qed.

Lemma settles_get_multiple_repo_languages (username : string) (repo_names : list string) :
  settles (get_multiple_repo_languages _make_key env username repo_names).
Proof.
  unfold get_multiple_repo_languages. cbv zeta. apply settles_bind.
  - apply settles_gather. induction repo_names as [|name names IH]; constructor; [|done].
    unfold fetch_one. pose proof settles_get_repo_languages. auto 30 with settles.
  - intros results. apply settles_lift, comprehension_settles.
Qed.

Lemma settles_get_contribution_stats (fuel : nat) (username : string) :
  (3 ≤ fuel)%nat → settles (get_contribution_stats _make_key env fuel username).
Proof.
  intros Hfuel. pose proof (settles_get_events fuel username 100 Hfuel).
  unfold get_contribution_stats, expect_events. auto 30 with settles.
Qed.

Lemma settles_analyze_profile_body (fuel : nat) (query : string) :
  (5 ≤ fuel)%nat → settles (Router.analyze_profile_body _make_key env fuel query).
Proof.
  intros Hfuel. unfold Router.analyze_profile_body.
  apply settles_bind; [apply settles_resolve|intros found].
  apply settles_bind; [unfold expect_str; auto 30 with settles|intros username].
  apply settles_bind; [apply settles_get_user|intros v].
  apply settles_bind; [by apply settles_get_repos|intros v'].
  apply settles_bind; [unfold expect_repos; auto 30 with settles|intros repos].
  apply settles_bind; [apply settles_get_orgs|intros v''].
  apply settles_bind; [apply settles_get_contribution_stats; lia|intros stats].
  cbv zeta.
  apply settles_bind; [apply settles_get_multiple_repo_languages|intros langs].
  apply settles_bind; [unfold expect_user; auto 30 with settles|intros user].
  apply settles_bind; [unfold expect_orgs; auto 30 with settles|intros orgs].
  apply settles_bind; [unfold Router.expect_language_maps; auto 30 with settles|intros maps].
  apply settles_bind; [apply settles_now|intros t].
  apply settles_ret.
Qed.

End SettlesService.

Lemma on_error_status (query : string) (e : exn) :
  error_status (Router.on_error query e) = Some 404
  ∨ error_status (Router.on_error query e) = Some 500.
Proof.
  unfold Router.on_error. destruct (is_ValueError e); [by left|].
  destruct (PyStr.contains "404" (str e)); [by left|by right].
Qed.

(** X15: with fuel for the five repository pages, the endpoint returns a
    reply for every query, whatever the remote answers and whatever the
    cache holds: it is never cut short and no exception escapes it.  The
    reply is the analysis or an error of status 404 or 500. *)
Theorem analyze_profile_always_replies (_make_key : list string → string)
    (env : environment) (fuel : nat) (query : string) (w : world) :
  (5 ≤ fuel)%nat →
  ∃ (reply : Router.reply) (w' : world),
    Router.analyze_profile _make_key env fuel query w = (Return reply, w')
    ∧ (error_status reply = None
       ∨ error_status reply = Some 404
       ∨ error_status reply = Some 500).
Proof.
  intros Hfuel. unfold Router.analyze_profile, Router.try_except.
  pose proof (settles_analyze_profile_body _make_key env fuel query Hfuel w) as Hs.
  unfold_M.
  destruct (Router.analyze_profile_body _make_key env fuel query w) as [[a|e|] w'];
    simpl in *; [| |done].
  - exists (Router.Analysis a), w'. split; [done|by left].
  - exists (Router.on_error query e), w'. split; [done|right]. apply on_error_status.
Qed.

(** ** Accounts and emails the remote does not know *)

Section NotFound.

Variable _make_key : list string → string.
Variable env : environment.

Lemma cache_get_absent_M (key : string) (w : world) :
  SimpleCache._cache (cache w) !! key = None → cache_get env key w = (Return None, w).
Proof. intros H. unfold cache_get. by rewrite H. Qed.

Lemma request_returns {A} (req : request) (answer : nat → outcome A) (w : world)
    (r : response A) :
  answer (length (sent w)) = Responds r →
  rate_limit_rejection r = false →
  _request env req answer w = (Return r, _update_rate_limit r (with_sent req w)).
Proof. intros Hans Hrl. rewrite request_eq, Hans. simpl. by rewrite Hrl. Qed.

Lemma status_404_message {A} (req : request) (r : response A) :
  status_code r = 404 → PyStr.contains "404" (status_error_message req r) = true.
Proof.
  intros H. unfold status_error_message. rewrite H.
  apply contains_app_r, contains_app_r, contains_app_l. reflexivity.
Qed.

(** What [get_user] does on an account the remote answers with a status
    outside 2xx. *)
Lemma get_user_status_error (username : string) (w : world) (r : response User.t) :
  SimpleCache._cache (cache w) !! _make_key ["user"; PyStr.lower username] = None →
  users env (length (sent w)) username = Responds r →
  rate_limit_rejection r = false →
  (200 <=? status_code r) && (status_code r <? 300) = false →
  get_user _make_key env username w
  = (Raise (HTTPStatusError (status_error_message (GetUser username) r)),
     _update_rate_limit r (with_sent (GetUser username) w)).
Proof.
  intros Hcache Hans Hrl Hst. unfold get_user. cbv zeta.
  rewrite (bind_Return _ _ _ _ _ (cache_get_absent_M _ w Hcache)).
  unfold fetch_user. cbv zeta.
  rewrite (bind_Return _ _ _ _ _
             (request_returns (GetUser username) (λ n, users env n username) w r Hans Hrl)).
  unfold raise_for_status. rewrite Hst. by unfold_M.
Qed.

(** X16: a query that needs no search (its extracted name has no ["@"]),
    for an account that is not in the cache and that the remote answers
    with status 404: the endpoint replies with status 404 and the detail
    "GitHub user not found: <query>", naming the query as it was given.
    One request has been sent, and the cache is as it was: the failure is
    not stored. *)
Theorem unknown_account_is_404 (fuel : nat) (query : string) (w : world)
    (r : response User.t) :
  let username := _extract_username query in
  PyStr.contains "@" username = false →
  SimpleCache._cache (cache w) !! _make_key ["user"; PyStr.lower username] = None →
  users env (length (sent w)) username = Responds r →
  rate_limit_rejection r = false →
  status_code r = 404 →
  let '(reply, w') := Router.analyze_profile _make_key env fuel query w in
  reply = Return (Router.HTTPException 404 ("GitHub user not found: " +:+ query))
  ∧ sent w' = sent w ++ [GetUser username]
  ∧ cache w' = cache w.
Proof.
  intros username Hat Hcache Hans Hrl Hst.
  unfold Router.analyze_profile, Router.try_except.
  assert (Hbody : (a ← Router.analyze_profile_body _make_key env fuel query;
                   mret (Router.Analysis a)) w
                  = (Raise (HTTPStatusError (status_error_message (GetUser username) r)),
                     _update_rate_limit r (with_sent (GetUser username) w))).
  { apply bind_Raise. unfold Router.analyze_profile_body.
    rewrite (bind_Return _ _ _ _ _ (resolve_plain _make_key env query w Hat)).
    fold username. unfold expect_str at 1.
    erewrite bind_Return; [|reflexivity].
    apply bind_Raise. apply get_user_status_error; try done. by rewrite Hst. }
  rewrite Hbody. unfold_M. unfold Router.on_error. simpl is_ValueError. cbv iota.
  simpl str. rewrite (status_404_message _ r Hst). done.
Qed.

(** X17: a query that stands for an email the cache holds nothing for, and
    for which the remote search reports no user: the endpoint replies with
    status 404 and the detail "No GitHub user found with email: <email>",
    the email being the trimmed query.  Only the search request has been
    sent. *)
Theorem unknown_email_is_404 (fuel : nat) (query : string) (w : world)
    (r : response search_body) :
  let email := _extract_username query in
  PyStr.contains "@" email = true →
  SimpleCache._cache (cache w) !! _make_key ["search_email"; email] = None →
  search_users env (length (sent w)) email = Responds r →
  rate_limit_rejection r = false →
  (status_code r =? 200) && (0 <? default 0 (total_count (json r))) = false →
  let '(reply, w') := Router.analyze_profile _make_key env fuel query w in
  reply = Return (Router.HTTPException 404 ("No GitHub user found with email: " +:+ email))
  ∧ sent w' = sent w ++ [GetSearchUsers (email +:+ " in:email")].
Proof.
  intros email Hat Hcache Hans Hrl Hno.
  unfold Router.analyze_profile, Router.try_except.
  assert (Hbody : (a ← Router.analyze_profile_body _make_key env fuel query;
                   mret (Router.Analysis a)) w
                  = (Raise (ValueError (not_found_message email)),
                     searched env (_make_key ["search_email"; email]) email r
                       (VStr EmptyString) w)).
  { apply bind_Raise. unfold Router.analyze_profile_body. apply bind_Raise.
    rewrite (resolve_email _make_key env query w Hat). fold email.
    by rewrite (search_no_hits _make_key env email w r Hcache Hans Hrl Hno). }
  rewrite Hbody. by unfold_M.
Qed.

End NotFound.

(** ** What the cache serves and what it does not *)

Section Caching.

Variable _make_key : list string → string.
Variable env : environment.

(** [cache.get] on a key the cache holds: the stored value before its
    expiry, [None] from then on; nothing is sent. *)
Lemma cache_get_present (key : string) (w : world) (v : pyval) (expires_at : Z) :
  SimpleCache._cache (cache w) !! key = Some (v, expires_at) →
  ∃ w0, cache_get env key w
        = (Return (if clock env (ticks w) <? expires_at then Some v else None), w0)
        ∧ sent w0 = sent w.
Proof.
  intros H. unfold cache_get, SimpleCache.get. rewrite H.
  destruct (clock env (ticks w) <? expires_at); eauto.
Qed.

(** X18: an empty listing in the cache is never served.  When the cache
    holds the empty list for the repositories (or the events) of an
    account, expired or not, [get_repos] (or [get_events]) asks the remote
    again, starting at page 1; a list that is not empty and has not expired
    is returned without a request. *)
Theorem empty_listing_is_fetched_again (fuel : nat) (username : string) (per_page : Z)
    (w : world) (expires_at : Z) :
  (5 ≤ fuel)%nat →
  (SimpleCache._cache (cache w) !! _make_key ["repos"; PyStr.lower username]
   = Some (VRepos [], expires_at) →
   ∃ k : nat, (1 ≤ k ≤ 5)%nat
     ∧ sent (snd (get_repos _make_key env fuel username per_page w))
       = sent w ++ repo_pages username per_page 1 k)
  ∧ (SimpleCache._cache (cache w) !! _make_key ["events"; PyStr.lower username]
     = Some (VEvents [], expires_at) →
     ∃ k : nat, (1 ≤ k ≤ 3)%nat
       ∧ sent (snd (get_events _make_key env fuel username per_page w))
         = sent w ++ event_pages username per_page 1 k)
  ∧ (∀ repos : list Repo.t,
       repos ≠ [] →
       SimpleCache._cache (cache w) !! _make_key ["repos"; PyStr.lower username]
       = Some (VRepos repos, expires_at) →
       clock env (ticks w) < expires_at →
       get_repos _make_key env fuel username per_page w
       = (Return (VRepos repos), with_tick w)).
Proof.
  intros Hfuel. split; [|split].
  - intros Hc. destruct (cache_get_present _ w _ _ Hc) as (w0 & Hget & Hsent).
    unfold get_repos. cbv zeta. rewrite (bind_Return _ _ _ _ _ Hget).
    assert (Hfetch : ∀ key, ∃ k : nat, (1 ≤ k ≤ 5)%nat
              ∧ sent (snd (fetch_repos env fuel key username per_page w0))
                = sent w ++ repo_pages username per_page 1 k).
    { intros key. destruct (fetch_repos env fuel key username per_page w0) as [res w'] eqn:Hf.
      destruct (fetch_repos_spec env username per_page fuel key w0 w' res Hfuel Hf)
        as (_ & k & Hk & Hs & _).
      exists k. split; [done|]. simpl. by rewrite Hs, Hsent. }
    destruct (clock env (ticks w) <? expires_at); simpl; apply Hfetch.
  - intros Hc. destruct (cache_get_present _ w _ _ Hc) as (w0 & Hget & Hsent).
    unfold get_events. cbv zeta. rewrite (bind_Return _ _ _ _ _ Hget).
    assert (Hfetch : ∀ key, ∃ k : nat, (1 ≤ k ≤ 3)%nat
              ∧ sent (snd (fetch_events env fuel key username per_page w0))
                = sent w ++ event_pages username per_page 1 k).
    { intros key. destruct (fetch_events env fuel key username per_page w0) as [res w'] eqn:Hf.
      destruct (fetch_events_spec env username per_page fuel key w0 w' res ltac:(lia) Hf)
        as (_ & k & Hk & Hs & _).
      exists k. split; [done|]. simpl. by rewrite Hs, Hsent. }
    destruct (clock env (ticks w) <? expires_at); simpl; apply Hfetch.
  - intros repos Hne Hc Hlt. unfold get_repos. cbv zeta.
    assert (Hget : cache_get env (_make_key ["repos"; PyStr.lower username]) w
                   = (Return (Some (VRepos repos)), with_tick w)).
    { unfold cache_get. rewrite Hc. by rewrite (cache_get_hit _ _ _ _ _ Hc Hlt). }
    rewrite (bind_Return _ _ _ _ _ Hget). simpl.
    by rewrite bool_decide_eq_false_2.
Qed.

Local Abbreviation languages_key username repo_name :=
  (_make_key ["languages"; PyStr.lower username; PyStr.lower repo_name]).

Lemma get_repo_languages_cached (username repo_name : string) (w : world) (v : pyval)
    (expires_at : Z) :
  SimpleCache._cache (cache w) !! languages_key username repo_name = Some (v, expires_at) →
  clock env (ticks w) < expires_at →
  get_repo_languages _make_key env username repo_name w = (Return v, with_tick w).
Proof.
  intros Hc Hlt. unfold get_repo_languages. cbv zeta.
  assert (Hget : cache_get env (languages_key username repo_name) w
                 = (Return (Some v), with_tick w)).
  { unfold cache_get. rewrite Hc. by rewrite (cache_get_hit _ _ _ _ _ Hc Hlt). }
  by rewrite (bind_Return _ _ _ _ _ Hget).
Qed.

Lemma get_repo_languages_fetched (username repo_name : string) (w : world)
    (r : response LanguageByteMap) :
  SimpleCache._cache (cache w) !! languages_key username repo_name = None →
  repos_languages env (length (sent w)) username repo_name = Responds r →
  rate_limit_rejection r = false →
  let v := VLangs (if status_code r =? 200 then json r else []) in
  let w1 := _update_rate_limit r (with_sent (GetRepoLanguages username repo_name) w) in
  get_repo_languages _make_key env username repo_name w
  = (Return v,
     with_cache (SimpleCache.set (cache w) (clock env (ticks w))
                   (languages_key username repo_name) v None)
       (with_tick w1)).
Proof.
  intros Hc Hans Hrl v w1. unfold get_repo_languages. cbv zeta.
  assert (Hget : cache_get env (languages_key username repo_name) w = (Return None, w)).
  { unfold cache_get. by rewrite Hc. }
  rewrite (bind_Return _ _ _ _ _ Hget).
  erewrite bind_Return; [|rewrite request_eq, Hans; simpl; by rewrite Hrl].
  unfold v, w1. destruct (status_code r =? 200); unfold_M; by rewrite cache_set_eq.
Qed.

Lemma get_repo_languages_cached_repeat (username repo_name : string) (v : pyval)
    (expires_at : Z) (n : nat) :
  ∀ w : world,
    SimpleCache._cache (cache w) !! languages_key username repo_name = Some (v, expires_at) →
    (∀ j : nat, (j < n)%nat → clock env (ticks w + j) < expires_at) →
    fst (repeat_call (get_repo_languages _make_key env username repo_name) n w)
    = replicate n (Return v)
    ∧ sent (snd (repeat_call (get_repo_languages _make_key env username repo_name) n w))
      = sent w.
Proof.
  induction n as [|n IH]; intros w Hc Hclock; [done|].
  simpl. rewrite (get_repo_languages_cached username repo_name w v expires_at Hc).
  2:{ specialize (Hclock 0%nat). rewrite Nat.add_0_r in Hclock. apply Hclock. lia. }
  destruct (IH (with_tick w)) as [Hres Hsent]; [done| |].
  { intros j Hj. simpl. replace (S (ticks w + j)) with (ticks w + S j)%nat by lia.
    apply Hclock. lia. }
  destruct (repeat_call _ n (with_tick w)) as [rs w'']. simpl in *.
  by rewrite Hres.
Qed.

(** X19: the languages of a repository are fetched once.  From a cache
    that holds nothing for the repository, [1 + n] successive calls of
    [get_repo_languages], the later ones made before the entry expires, all
    return the same map (the body of the answer when its status is 200,
    the empty map for every other status, which is stored like a result)
    and send one request in all. *)
Theorem repo_languages_fetched_once (username repo_name : string) (w : world)
    (r : response LanguageByteMap) (n : nat) :
  SimpleCache._cache (cache w) !! languages_key username repo_name = None →
  repos_languages env (length (sent w)) username repo_name = Responds r →
  rate_limit_rejection r = false →
  (∀ j : nat, (1 ≤ j ≤ n)%nat →
     clock env (ticks w + j)
     < clock env (ticks w) + SimpleCache.timedelta (SimpleCache.default_ttl (cache w))) →
  let calls := repeat_call (get_repo_languages _make_key env username repo_name) (S n) w in
  fst calls = replicate (S n) (Return (VLangs (if status_code r =? 200 then json r else [])))
  ∧ sent (snd calls) = sent w ++ [GetRepoLanguages username repo_name].
Proof.
  intros Hc Hans Hrl Hclock. cbv zeta. simpl.
  rewrite (get_repo_languages_fetched username repo_name w r Hc Hans Hrl).
  set (v := VLangs (if status_code r =? 200 then json r else [])).
  set (w1 := with_cache _ _).
  destruct (get_repo_languages_cached_repeat username repo_name v
              (clock env (ticks w) + SimpleCache.timedelta (SimpleCache.default_ttl (cache w)))
              n w1) as [Hres Hsent].
  { unfold w1. simpl. apply lookup_insert_eq. }
  { intros j Hj. unfold w1. simpl.
    replace (S (ticks w + j)) with (ticks w + S j)%nat by lia. apply Hclock. lia. }
  destruct (repeat_call _ n w1) as [rs w'']. simpl in *.
  by rewrite Hres, Hsent.
Qed.

(** ** The fan-out when every lookup is answered *)

Lemma fold_insert_lookup (pairs : list (string * pyval)) (acc : gmap string pyval)
    (name : string) :
  is_Some (fold_left (λ m p, <[fst p := snd p]> m) pairs acc !! name)
  ↔ name ∈ map fst pairs ∨ is_Some (acc !! name).
Proof.
  revert acc. induction pairs as [|[k v] pairs IH]; intros acc; simpl.
  - split; [auto|]. intros [H|H]; [by apply elem_of_nil in H|done].
  - rewrite IH, elem_of_cons. destruct (decide (name = k)) as [->|Hne].
    + rewrite lookup_insert_eq. split; [auto|]. intros _. right. by eexists.
    + rewrite lookup_insert_ne by done. tauto.
Qed.

Lemma get_repo_languages_returns (username repo_name : string) (w : world) :
  (∀ n name, ∃ r, repos_languages env n username name = Responds r
                  ∧ rate_limit_rejection r = false) →
  ∃ v w', get_repo_languages _make_key env username repo_name w = (Return v, w').
Proof.
  intros Hremote. unfold get_repo_languages. cbv zeta.
  destruct (cache_get_cases env (languages_key username repo_name) w)
    as (o & w0 & Hget & _).
  rewrite (bind_Return _ _ _ _ _ Hget). destruct o as [v|]; [by eexists _, _|].
  destruct (Hremote (length (sent w0)) repo_name) as (r & Hans & Hrl).
  erewrite bind_Return; [|rewrite request_eq, Hans; simpl; by rewrite Hrl].
  destruct (status_code r =? 200); unfold_M; rewrite cache_set_eq; by eexists _, _.
Qed.

Lemma gather_returns (username : string) (repo_names : list string) :
  (∀ n name, ∃ r, repos_languages env n username name = Responds r
                  ∧ rate_limit_rejection r = false) →
  ∀ w, ∃ pairs w',
    gather (map (fetch_one _make_key env username) repo_names) w = (Return (map inl pairs), w')
    ∧ map fst pairs = repo_names.
Proof.
  intros Hremote. induction repo_names as [|name names IH]; intros w.
  - by exists [], w.
  - simpl. unfold fetch_one at 1.
    destruct (get_repo_languages_returns username name w Hremote) as (v & w1 & Hone).
    rewrite (bind_Return _ _ _ _ _ Hone). unfold_M.
    destruct (IH w1) as (pairs & w2 & Hrest & Hnames). rewrite Hrest.
    exists ((name, v) :: pairs), w2. simpl. by rewrite Hnames.
Qed.

(** X20: when the remote answers every language lookup (with any status)
    and rejects none for rate limiting, [get_multiple_repo_languages]
    returns a map whose keys are the repository names it was given. *)
Theorem get_multiple_repo_languages_keys (username : string) (repo_names : list string)
    (w : world) :
  (∀ n name, ∃ r, repos_languages env n username name = Responds r
                  ∧ rate_limit_rejection r = false) →
  ∃ m w',
    get_multiple_repo_languages _make_key env username repo_names w = (Return m, w')
    ∧ ∀ name, is_Some (m !! name) ↔ name ∈ repo_names.
Proof.
  intros Hremote. unfold get_multiple_repo_languages. cbv zeta.
  destruct (gather_returns username repo_names Hremote w) as (pairs & w' & Hg & Hnames).
  rewrite (bind_Return _ _ _ _ _ Hg). unfold lift. rewrite comprehension_returns.
  eexists _, w'. split; [done|]. intros name.
  rewrite fold_insert_lookup, Hnames, lookup_empty. split; [|auto].
  intros [H|[x H]]; [done|discriminate].
Qed.

End Caching.

(** ** Handles taken from URLs *)

Lemma plus_captures {R} (cls : ascii → bool) (k : string → string → option R)
    (f : string → R) (s : string) :
  (∀ t rest, k t rest = Some (f t)) →
  ∀ (taken : string) (x : R),
    Re.plus cls taken s k = Some x →
    ∃ run : string, x = f (taken +:+ run) ∧ run ≠ EmptyString ∧ all_chars cls run = true.
Proof.
  intros Hk. induction s as [|a s IH]; intros taken x; simpl; [done|].
  destruct (cls a) eqn:Ea; [|done].
  destruct (Re.plus cls (taken +:+ String a EmptyString) s k) as [y|] eqn:Ep.
  - intros [= <-]. destruct (IH _ _ Ep) as (run & -> & _ & Hrun).
    exists (String a run). rewrite append_assoc. simpl. by rewrite Ea, Hrun.
  - rewrite Hk. intros [= <-]. exists (String a EmptyString). simpl. by rewrite Ea.
Qed.

Lemma plus_stops {R} (cls : ascii → bool) (k : string → string → option R)
    (taken rest : string) :
  rest = EmptyString ∨ (∃ c rest', rest = String c rest' ∧ cls c = false) →
  Re.plus cls taken rest k = None.
Proof. intros [->|(c & rest' & -> & Hc)]; simpl; [done|by rewrite Hc]. Qed.

Lemma plus_greedy {R} (cls : ascii → bool) (k : string → string → option R)
    (f : string → R) (rest : string) :
  (∀ t rest, k t rest = Some (f t)) →
  rest = EmptyString ∨ (∃ c rest', rest = String c rest' ∧ cls c = false) →
  ∀ h taken : string,
    h ≠ EmptyString → all_chars cls h = true →
    Re.plus cls taken (h +:+ rest) k = Some (f (taken +:+ h)).
Proof.
  intros Hk Hrest. induction h as [|a h IH]; intros taken Hne Hall; [done|].
  simpl in Hall. apply andb_true_iff in Hall as [Ha Hh].
  change (String a h +:+ rest) with (String a (h +:+ rest)). simpl. rewrite Ha.
  destruct h as [|b h].
  - change (EmptyString +:+ rest) with rest. by rewrite plus_stops, Hk.
  - rewrite IH by done. by rewrite append_assoc.
Qed.

Lemma handle_has_no_at (g : string) :
  all_chars handle_char g = true → PyStr.contains "@" g = false.
Proof.
  induction g as [|a g IH]; [done|]. simpl all_chars. intros [Ha Hg]%andb_true_iff.
  rewrite contains_cons, (IH Hg), orb_false_r.
  change (String.prefix "@" (String a g))
    with (if ascii_dec "@" a then String.prefix EmptyString g else false).
  destruct (ascii_dec "@" a) as [<-|]; [discriminate Ha|done].
Qed.

Lemma url_match_is_handle (s g : string) :
  Re.match_group1 url_pattern s = Some g →
  g ≠ EmptyString ∧ all_chars handle_char g = true.
Proof.
  unfold Re.match_group1, url_pattern. cbn [Re.run].
  assert (Hplus : ∀ rest x,
            Re.plus handle_char EmptyString rest
              (λ taken _ : string, Some (default EmptyString (Some taken))) = Some x →
            x ≠ EmptyString ∧ all_chars handle_char x = true).
  { intros rest x Hp.
    destruct (plus_captures handle_char _ (λ t, t) rest (λ _ _, eq_refl) _ _ Hp)
      as (run & -> & Hne & Hall). done. }
  repeat match goal with
         | |- context [Re.drop_prefix ?p ?t] => destruct (Re.drop_prefix p t)
         end;
  repeat match goal with
         | |- context [Re.plus ?c ?t ?r ?k] =>
             let E := fresh "E" in destruct (Re.plus c t r k) eqn:E; [apply Hplus in E|]
         end;
  intros [= <-]; done.
Qed.

(** X21: whenever the URL pattern matches the trimmed query, what
    [_extract_username] returns is the captured handle: it is not empty,
    every character of it is a letter, a digit or a hyphen, and it holds
    no ["@"], so that [resolve_username] returns it without a search and
    leaves the state as it is. *)
Theorem extract_username_url (query g : string) :
  Re.match_group1 url_pattern (PyStr.strip query) = Some g →
  _extract_username query = g
  ∧ g ≠ EmptyString
  ∧ all_chars handle_char g = true
  ∧ ∀ (_make_key : list string → string) (env : environment) (w : world),
      resolve_username _make_key env query w = (Return (VStr g), w).
Proof.
  intros Hm. destruct (url_match_is_handle _ _ Hm) as [Hne Hall].
  assert (Hex : _extract_username query = g) by (unfold _extract_username; by rewrite Hm).
  split; [done|]. split; [done|]. split; [done|].
  intros _make_key env w. rewrite resolve_plain; rewrite Hex; [done|].
  by apply handle_has_no_at.
Qed.

(** X22: a query without surrounding whitespace that reads
    [github.com/<handle>], with or without [http://] or [https://] and
    [www.] before it, and with nothing or something that does not continue
    the handle after it (a path, a query string), yields the handle. *)
Theorem extract_username_of_url (scheme www h rest : string) :
  scheme ∈ [EmptyString; "http://"; "https://"]%string →
  www ∈ [EmptyString; "www."]%string →
  h ≠ EmptyString → all_chars handle_char h = true →
  rest = EmptyString ∨ (∃ c rest', rest = String c rest' ∧ handle_char c = false) →
  let query := (scheme +:+ www +:+ "github.com/" +:+ h +:+ rest)%string in
  PyStr.strip query = query →
  _extract_username query = h.
Proof.
  intros Hs Hw Hne Hall Hrest query Hstrip.
  unfold _extract_username. rewrite Hstrip.
  assert (Hplus : Re.plus handle_char EmptyString (h +:+ rest)
                    (λ taken _ : string, Some (default EmptyString (Some taken)))
                  = Some h).
  { by rewrite (plus_greedy handle_char _ (λ t, t) rest (λ _ _, eq_refl) Hrest h). }
  assert (Hm : Re.match_group1 url_pattern query = Some h).
  { unfold query. clear Hstrip query. set (tail := h +:+ rest) in *. clearbody tail.
    repeat (apply elem_of_cons in Hs as [->|Hs]); [| | |by apply elem_of_nil in Hs];
      (repeat (apply elem_of_cons in Hw as [->|Hw]); [| |by apply elem_of_nil in Hw]);
      unfold Re.match_group1, url_pattern; cbv [String.append]; cbn -[Re.plus] in Hplus |- *;
      by rewrite Hplus. }
  by rewrite Hm.
Qed.

(** ** Contribution statistics *)

Lemma filter_three_le {A} (p1 p2 p3 : A → bool) (l : list A) :
  (∀ x, (p1 x && p2 x) || (p1 x && p3 x) || (p2 x && p3 x) = false) →
  Py.len (List.filter p1 l) + Py.len (List.filter p2 l) + Py.len (List.filter p3 l)
  ≤ Py.len l.
Proof.
  intros Hd. unfold Py.len. induction l as [|x l IH]; simpl; [lia|].
  specialize (Hd x). destruct (p1 x), (p2 x), (p3 x); simpl in *; try discriminate; lia.
Qed.

(** X23: in the statistics [get_contribution_stats] builds from the events,
    the three counts are not negative and together do not exceed the number
    of events; there is one commit hour and one commit day per push event;
    every commit hour is the hour of a push event; and, when there is a
    push event, the most active hour and day that [_analyze_activity]
    reports from these statistics are those of push events. *)
Theorem contribution_stats_from_push_events (events : list Event.t) (repos : list Repo.t) :
  let stats := contribution_stats_of events in
  let pushes := List.filter (λ e, String.eqb (Event.type e) "PushEvent") events in
  let activity := ProfileAnalyzer._analyze_activity stats repos in
  (0 ≤ ContributionStats.total_push_events stats
   ∧ 0 ≤ ContributionStats.total_pr_events stats
   ∧ 0 ≤ ContributionStats.total_issue_events stats
   ∧ ContributionStats.total_push_events stats + ContributionStats.total_pr_events stats
     + ContributionStats.total_issue_events stats ≤ Py.len events)
  ∧ Py.len (ContributionStats.commit_hours stats) = ContributionStats.total_push_events stats
  ∧ Py.len (ContributionStats.commit_days stats) = ContributionStats.total_push_events stats
  ∧ ContributionStats.commit_hours stats = map (λ e, hour (Event.created_at e)) pushes
  ∧ (pushes ≠ [] →
     (∃ e, e ∈ events ∧ Event.type e = "PushEvent"%string
           ∧ hour (Event.created_at e) = ActivityPattern.most_active_hour activity)
     ∧ (∃ e, e ∈ events ∧ Event.type e = "PushEvent"%string
             ∧ weekday (Event.created_at e) = ActivityPattern.most_active_day activity)).
Proof.
  intros stats pushes activity.
  assert (Hpush : ∀ e, e ∈ pushes → e ∈ events ∧ Event.type e = "PushEvent"%string).
  { intros e He. apply list_elem_of_In, filter_In in He as [He Ht].
    split; [by apply list_elem_of_In|by apply String.eqb_eq]. }
  split; [|split; [|split; [|split]]].
  - unfold stats, contribution_stats_of, Py.len. simpl.
    split; [lia|]. split; [lia|]. split; [lia|].
    apply filter_three_le. intros e.
    destruct (String.eqb_spec (Event.type e) "PushEvent") as [->|_]; [done|].
    destruct (String.eqb_spec (Event.type e) "PullRequestEvent") as [->|_]; done.
  - unfold stats, contribution_stats_of, Py.len. simpl. by rewrite length_map.
  - unfold stats, contribution_stats_of, Py.len. simpl. by rewrite length_map.
  - done.
  - intros Hne. split.
    + destruct (most_common_is_mode Z.eqb Z_eqb_spec
                  (ContributionStats.commit_hours stats) 12) as [Hin _].
      { unfold stats, contribution_stats_of. simpl. fold pushes. by destruct pushes. }
      apply list_elem_of_In, in_map_iff in Hin as (e & He & Hin).
      apply list_elem_of_In, Hpush in Hin as [Hin Ht]. by exists e.
    + destruct (most_common_is_mode String.eqb string_eqb_spec
                  (ContributionStats.commit_days stats) "Monday"%string) as [Hin _].
      { unfold stats, contribution_stats_of. simpl. fold pushes. by destruct pushes. }
      apply list_elem_of_In, in_map_iff in Hin as (e & He & Hin).
      apply list_elem_of_In, Hpush in Hin as [Hin Ht]. by exists e.
Qed.

(** ** Eviction from the cache *)

(** X24: [get] changes the cache only by deleting the entry it was asked
    for, and only when that entry has expired.  A hit returns the stored
    value of an entry that has not expired and leaves the cache as it is;
    every other key keeps its entry; the number of valid entries is the
    same before and after, and the number of entries does not grow. *)
Theorem cache_get_evicts_only_expired {V} (c : SimpleCache.t V) (now : Z) (k : string) :
  let r := fst (SimpleCache.get c now k) in
  let c' := snd (SimpleCache.get c now k) in
  (∀ k', k' ≠ k → SimpleCache._cache c' !! k' = SimpleCache._cache c !! k')
  ∧ SimpleCache.default_ttl c' = SimpleCache.default_ttl c
  ∧ (∀ v, r = Some v ↔
          ∃ expires_at, SimpleCache._cache c !! k = Some (v, expires_at) ∧ now < expires_at)
  ∧ (is_Some r → c' = c)
  ∧ (r = None → SimpleCache._cache c' !! k = None)
  ∧ snd (SimpleCache.stats c' now) = snd (SimpleCache.stats c now)
  ∧ (fst (SimpleCache.stats c' now) ≤ fst (SimpleCache.stats c now))%nat.
Proof.
  unfold SimpleCache.get, SimpleCache.stats.
  destruct (SimpleCache._cache c !! k) as [[v expires_at]|] eqn:E.
  - destruct (now <? expires_at) eqn:Hlt; simpl.
    + apply Z.ltb_lt in Hlt. split_and!; try done.
      intros v'. split; [intros [= <-]; eauto|]. by intros (e & [= <- <-] & _).
    + apply Z.ltb_ge in Hlt.
      pose proof (map_to_list_delete _ _ _ E) as Hperm.
      split_and!; try done.
      * intros k' Hk. by apply lookup_delete_ne.
      * intros v'. split; [done|]. intros (e & [= <- <-] & Hlt'). lia.
      * intros _. apply lookup_delete_eq.
      * rewrite <- Hperm. rewrite filter_cons_False; [done|]. simpl. lia.
      * rewrite <- !length_map_to_list, <- Hperm. simpl. lia.
  - simpl. split_and!; try done.
    intros v'. split; [done|]. by intros (e & [=] & _).
Qed.

(** ** Account lookups under another spelling *)

(** X25: the cache key of an account is its name in lower case, the
    request carries the name as given.  After [get_user] has fetched an
    account (status 2xx), a call made before the entry expires under any
    spelling of the name that differs only in case returns the stored
    account and sends no request. *)
Theorem get_user_ignores_case (_make_key : list string → string) (env : environment)
    (username spelling : string) (w : world) (r : response User.t) :
  SimpleCache._cache (cache w) !! _make_key ["user"; PyStr.lower username] = None →
  users env (length (sent w)) username = Responds r →
  rate_limit_rejection r = false →
  (200 <=? status_code r) && (status_code r <? 300) = true →
  PyStr.lower spelling = PyStr.lower username →
  clock env (S (ticks w))
  < clock env (ticks w) + SimpleCache.timedelta (SimpleCache.default_ttl (cache w)) →
  let '(first, w1) := get_user _make_key env username w in
  let '(second, w2) := get_user _make_key env spelling w1 in
  first = Return (VUser (json r))
  ∧ second = Return (VUser (json r))
  ∧ sent w1 = sent w ++ [GetUser username]
  ∧ sent w2 = sent w1.
Proof.
  intros Hc Hans Hrl Hst Hcase Hclock.
  assert (Hfirst : get_user _make_key env username w
            = (Return (VUser (json r)),
               with_cache
                 (SimpleCache.set (cache w) (clock env (ticks w))
                    (_make_key ["user"; PyStr.lower username]) (VUser (json r)) None)
                 (with_tick (_update_rate_limit r (with_sent (GetUser username) w))))).
  { unfold get_user. cbv zeta.
    rewrite (bind_Return _ _ _ _ _ (cache_get_absent_M env _ w Hc)).
    unfold fetch_user. cbv zeta.
    rewrite (bind_Return _ _ _ _ _
               (request_returns env (GetUser username) (λ n, users env n username) w r
                  Hans Hrl)).
    unfold raise_for_status. rewrite Hst. unfold_M. by rewrite cache_set_eq. }
  rewrite Hfirst. set (w1 := with_cache _ _).
  assert (Hsecond : get_user _make_key env spelling w1
                    = (Return (VUser (json r)), with_tick w1)).
  { unfold get_user. cbv zeta. rewrite Hcase.
    assert (Hlook : SimpleCache._cache (cache w1) !! _make_key ["user"; PyStr.lower username]
                    = Some (VUser (json r),
                            clock env (ticks w)
                            + SimpleCache.timedelta (SimpleCache.default_ttl (cache w)))).
    { unfold w1. simpl. apply lookup_insert_eq. }
    assert (Hget : cache_get env (_make_key ["user"; PyStr.lower username]) w1
                   = (Return (Some (VUser (json r))), with_tick w1)).
    { unfold cache_get. rewrite Hlook. change (ticks w1) with (S (ticks w)).
      by rewrite (cache_get_hit _ _ _ _ _ Hlook Hclock). }
    by rewrite (bind_Return _ _ _ _ _ Hget). }
  rewrite Hsecond. done.
Qed.

(** ** Clearing the cache *)

(** X26: after [clear] the statistics are 0 and 0 and every [get] is a
    miss that changes nothing; the default TTL is kept.  A [set] on the
    cleared cache makes one entry, which counts as valid at the instant of
    the write only when the effective TTL is positive: with a negative
    TTL the entry is stored already expired and the next [get] misses. *)
Theorem cache_clear_forgets {V} (c : SimpleCache.t V) (now : Z) (k : string) (v : V)
    (ttl : option Z) :
  let c0 := SimpleCache.clear c in
  let c1 := SimpleCache.set c0 now k v ttl in
  SimpleCache.stats c0 now = (0%nat, 0%nat)
  ∧ (∀ k', SimpleCache.get c0 now k' = (None, c0))
  ∧ SimpleCache.default_ttl c0 = SimpleCache.default_ttl c
  ∧ fst (SimpleCache.stats c1 now) = 1%nat
  ∧ (0 < SimpleCache.ttl_or_default c ttl →
     snd (SimpleCache.stats c1 now) = 1%nat ∧ fst (SimpleCache.get c1 now k) = Some v)
  ∧ (SimpleCache.ttl_or_default c ttl ≤ 0 →
     snd (SimpleCache.stats c1 now) = 0%nat ∧ fst (SimpleCache.get c1 now k) = None).
Proof.
  intros c0 c1.
  assert (Hlook : SimpleCache._cache c1 !! k
                  = Some (v, now + SimpleCache.timedelta (SimpleCache.ttl_or_default c ttl))).
  { unfold c1. by rewrite cache_set_lookup. }
  assert (Hlist : map_to_list (SimpleCache._cache c1)
                  = [(k, (v, now + SimpleCache.timedelta (SimpleCache.ttl_or_default c ttl)))]).
  { unfold c1, c0, SimpleCache.set, SimpleCache.clear. simpl.
    rewrite insert_empty. apply map_to_list_singleton. }
  split_and!.
  - unfold SimpleCache.stats, c0, SimpleCache.clear. simpl.
    by rewrite map_size_empty, map_to_list_empty.
  - intros k'. apply cache_get_absent. apply lookup_empty.
  - done.
  - unfold SimpleCache.stats. cbn [fst]. by rewrite <- length_map_to_list, Hlist.
  - intros Hpos. unfold SimpleCache.timedelta in *. split.
    + unfold SimpleCache.stats. cbn [snd]. rewrite Hlist.
      rewrite filter_cons_True; [done|]. simpl. lia.
    + erewrite cache_get_hit; [done|exact Hlook|]. unfold SimpleCache.timedelta. lia.
  - intros Hneg. unfold SimpleCache.timedelta in *. split.
    + unfold SimpleCache.stats. cbn [snd]. rewrite Hlist.
      rewrite filter_cons_False; [done|]. simpl. lia.
    + erewrite cache_get_expired; [done|exact Hlook|]. unfold SimpleCache.timedelta. lia.
Qed.

(** ** What the endpoint analyses *)






(** ** Instances of the further properties *)

Lemma aggregate_languages_percentage_range_witness :
  Forall (λ s, (0 <= LanguageStat.percentage s <= 100)%Q)
    (ProfileAnalyzer._aggregate_languages Sample.two_repos Example.python_go).
Proof.
  apply (aggregate_languages_percentage_range Sample.two_repos Example.python_go).
  intros name m H. unfold Example.python_go in H.
  apply lookup_singleton_Some in H as [_ <-].
  repeat constructor; simpl; lia.
Defined.

Lemma most_active_is_most_frequent_witness :
  ActivityPattern.most_active_hour (ProfileAnalyzer._analyze_activity Example.stats [])
  ∈ ContributionStats.commit_hours Example.stats
  ∧ ActivityPattern.most_active_day (ProfileAnalyzer._analyze_activity Example.stats [])
    ∈ ContributionStats.commit_days Example.stats.
Proof.
  destruct (most_active_is_most_frequent Example.stats []) as [Hh Hd].
  split; [apply Hh|apply Hd]; discriminate.
Defined.

Lemma consistency_score_range_witness :
  0 ≤ ContributionStats.total_push_events Example.stats
  ∧ (0 <= ActivityPattern.consistency_score
            (ProfileAnalyzer._analyze_activity Example.stats []) <= 100)%Q.
Proof.
  assert (H : 0 ≤ ContributionStats.total_push_events Example.stats)
    by (vm_compute; discriminate).
  split; [exact H|]. exact (proj1 (consistency_score_range Example.stats [] H)).
Defined.

Lemma growth_timeline_languages_witness :
  Forall (λ g,
      NoDup (GrowthTimeline.languages_used g)
      ∧ ∀ l, l ∈ GrowthTimeline.languages_used g
             ↔ ∃ r, r ∈ created_in (GrowthTimeline.year g) Sample.two_repos
                    ∧ Repo.language r = Some l ∧ PyStr.truthy l = true)
    (ProfileAnalyzer._build_growth_timeline (λ s, s) Sample.two_repos).
Proof.
  apply (growth_timeline_languages (λ s, s) Sample.two_repos).
  intros s. reflexivity.
Defined.

Lemma experience_level_monotone_witness :
  level_rank (ProfileAnalyzer._determine_experience_level 2 Sample.two_repos 40)
  ≤ level_rank (ProfileAnalyzer._determine_experience_level 6 Sample.two_repos 75).
Proof.
  assert (Hs : (40 <= 75)%Q) by (vm_compute; discriminate).
  assert (Ha : (2 <= 6)%Q) by (vm_compute; discriminate).
  exact (proj1 (experience_level_monotone 2 6 Sample.two_repos 40 75 Hs Ha)).
Defined.

Lemma analyze_without_repositories_witness :
  let a := ProfileAnalyzer.analyze (λ s, s) 1700000000000000 Example.newcomer [] ∅
             Sample.no_events [] in
  ProfileAnalysis.overall_score a = 0%Q
  ∧ ProfileAnalysis.experience_level a = "Junior"%string.
Proof.
  destruct (analyze_without_repositories (λ s, s) 1700000000000000 Example.newcomer ∅
              Sample.no_events []) as [_ H].
  apply H; reflexivity.
Defined.


Lemma account_age_from_days_witness :
  timestamp Sample.new_year_2020 ≤ 1700000000000000
  ∧ (0 <= ProfileAnalyzer._calculate_account_age 1700000000000000 Sample.new_year_2020)%Q.
Proof.
  assert (H : timestamp Sample.new_year_2020 ≤ 1700000000000000)
    by (vm_compute; discriminate).
  split; [exact H|].
  exact (proj1 (account_age_from_days 1700000000000000 Sample.new_year_2020 H)).
Defined.

Lemma analyze_profile_always_replies_witness :
  ∃ (reply : Router.reply) (w' : world),
    Router.analyze_profile Sample.join_key Sample.flaky 5 "octocat" initial_world
    = (Return reply, w')
    ∧ (error_status reply = None
       ∨ error_status reply = Some 404
       ∨ error_status reply = Some 500).
Proof.
  apply (analyze_profile_always_replies Sample.join_key Sample.flaky 5 "octocat"
           initial_world).
  lia.
Defined.

Lemma unknown_account_is_404_witness :
  let '(reply, w') :=
    Router.analyze_profile Sample.join_key Sample.nobody 5 "torvalds" initial_world in
  reply = Return (Router.HTTPException 404 ("GitHub user not found: " +:+ "torvalds"))
  ∧ sent w' = sent initial_world ++ [GetUser (_extract_username "torvalds")]
  ∧ cache w' = cache initial_world.
Proof.
  apply (unknown_account_is_404 Sample.join_key Sample.nobody 5 "torvalds" initial_world
           Example.no_such_account); reflexivity.
Defined.

Lemma unknown_email_is_404_witness :
  let '(reply, w') :=
    Router.analyze_profile Sample.join_key Sample.quiet 5 " foo@example.com " initial_world in
  reply = Return (Router.HTTPException 404
                    ("No GitHub user found with email: "
                     +:+ _extract_username " foo@example.com "))
  ∧ sent w' = sent initial_world
              ++ [GetSearchUsers (_extract_username " foo@example.com " +:+ " in:email")].
Proof.
  apply (unknown_email_is_404 Sample.join_key Sample.quiet 5 " foo@example.com "
           initial_world Example.found_nothing); reflexivity.
Defined.

Lemma empty_listing_is_fetched_again_witness :
  ∃ k : nat, (1 ≤ k ≤ 5)%nat
    ∧ sent (snd (get_repos Sample.join_key Sample.quiet 5 "octocat" 100
                   Example.after_empty_listing))
      = sent Example.after_empty_listing ++ repo_pages "octocat" 100 1 k.
Proof.
  destruct (empty_listing_is_fetched_again Sample.join_key Sample.quiet 5 "octocat" 100
              Example.after_empty_listing 1700003600000000 (le_n 5)) as [H _].
  apply H. vm_compute. reflexivity.
Defined.

Lemma repo_languages_fetched_once_witness :
  let calls :=
    repeat_call (get_repo_languages Sample.join_key Sample.quiet "octocat" "hello") 3
      initial_world in
  fst calls = replicate 3 (Return (VLangs []))
  ∧ sent (snd calls) = [GetRepoLanguages "octocat" "hello"].
Proof.
  apply (repo_languages_fetched_once Sample.join_key Sample.quiet "octocat" "hello"
           initial_world Example.no_languages 2).
  - reflexivity.
  - reflexivity.
  - reflexivity.
  - intros j Hj. reflexivity.
Defined.

Lemma get_multiple_repo_languages_keys_witness :
  ∃ m w',
    get_multiple_repo_languages Sample.join_key Sample.quiet "octocat"
      ["alpha"; "beta"]%string initial_world = (Return m, w')
    ∧ ∀ name, is_Some (m !! name) ↔ name ∈ ["alpha"; "beta"]%string.
Proof.
  apply (get_multiple_repo_languages_keys Sample.join_key Sample.quiet "octocat"
           ["alpha"; "beta"]%string initial_world).
  intros n name. eexists. split; reflexivity.
Defined.

Lemma extract_username_url_witness :
  _extract_username " https://github.com/torvalds/linux " = "torvalds"%string
  ∧ ∀ (_make_key : list string → string) (env : environment) (w : world),
      resolve_username _make_key env " https://github.com/torvalds/linux " w
      = (Return (VStr "torvalds"), w).
Proof.
  destruct (extract_username_url " https://github.com/torvalds/linux " "torvalds")
    as (H1 & _ & _ & H2); [reflexivity|].
  split; [exact H1|exact H2].
Defined.

Lemma extract_username_of_url_witness :
  _extract_username "https://www.github.com/octo-cat/Hello-World" = "octo-cat"%string.
Proof.
  apply (extract_username_of_url "https://" "www." "octo-cat" "/Hello-World").
  - repeat constructor.
  - repeat constructor.
  - discriminate.
  - reflexivity.
  - right. eexists _, _. split; reflexivity.
  - reflexivity.
Defined.

Lemma contribution_stats_from_push_events_witness :
  ∃ e, e ∈ Example.events ∧ Event.type e = "PushEvent"%string
       ∧ hour (Event.created_at e)
         = ActivityPattern.most_active_hour
             (ProfileAnalyzer._analyze_activity (contribution_stats_of Example.events) []).
Proof.
  destruct (contribution_stats_from_push_events Example.events []) as (_ & _ & _ & _ & H).
  destruct H as [H _]; [discriminate|exact H].
Defined.

Lemma cache_get_evicts_only_expired_witness :
  SimpleCache._cache
    (snd (SimpleCache.get (SimpleCache.set (SimpleCache.init 3600) 0 "k" "v"%string None)
            3600000000 "k")) !! "k"
  = None.
Proof.
  destruct (cache_get_evicts_only_expired
              (SimpleCache.set (SimpleCache.init 3600) 0 "k" "v"%string None)
              3600000000 "k") as (_ & _ & _ & _ & H & _).
  apply H. reflexivity.
Defined.

Lemma get_user_ignores_case_witness :
  let '(first, w1) := get_user Sample.join_key Sample.quiet "Octocat" initial_world in
  let '(second, w2) := get_user Sample.join_key Sample.quiet "OCTOCAT" w1 in
  first = Return (VUser Sample.octocat)
  ∧ second = Return (VUser Sample.octocat)
  ∧ sent w1 = [GetUser "Octocat"]
  ∧ sent w2 = sent w1.
Proof.
  apply (get_user_ignores_case Sample.join_key Sample.quiet "Octocat" "OCTOCAT"
           initial_world Example.the_octocat); reflexivity.
Defined.

Lemma cache_clear_forgets_witness :
  snd (SimpleCache.stats
         (SimpleCache.set (SimpleCache.clear (SimpleCache.init 3600)) 0 "k" "v"%string
            (Some (-5))) 0) = 0%nat
  ∧ fst (SimpleCache.get
           (SimpleCache.set (SimpleCache.clear (SimpleCache.init 3600)) 0 "k" "v"%string
              (Some (-5))) 0 "k") = None.
Proof.
  destruct (cache_clear_forgets (SimpleCache.init 3600) 0 "k" "v"%string (Some (-5)))
    as (_ & _ & _ & _ & _ & H).
  apply H. vm_compute. discriminate.
Defined.

